(** * WeightTrackPro: storage gateway, aggregation and access policy

    A shallow embedding of the server side of the application:
    [server/auth.ts] (the session middleware, and the [DatabaseStorage]
    class with its [IStorage] interface), [server/routes.ts] and
    [shared/schema.ts], together with the properties of its reporting and
    access-control logic.

    Conventions of the embedding:
    - a JavaScript number that holds an integer (ids, counts, time values)
      is a [Z]; [NaN] is [None] in an [option Z];
    - a JavaScript number that holds a weight or an average is an IEEE-754
      binary64 value ([float]), with the primitive operations of the kernel;
    - a [decimal(10,2)] column is kept as its number of hundredths;
    - a [date] column is kept as the text that the driver returns for its
      value, and two dates are compared as the database compares them, by
      year, month and day;
    - a [varchar] column is kept as the UTF-8 bytes of its text;
    - a table is the list of its rows in insertion order; a query filters the
      list and [orderBy] sorts it;
    - a value that the database refuses (a text too long for its column, a
      number out of the range of its column, a text that is no date) fails
      the call of the storage layer that sends it;
    - the clock ([new Date()]) and the offset of the server's time zone from
      UTC are parameters of the functions that read them; the offset is
      constant (no daylight saving);
    - [Promise] rejection and [throw] are the [Throws] case of [Result]. *)

From Stdlib Require Import ZArith List String Ascii Bool Lia.
From Stdlib Require Import Permutation Sorted OrderedTypeEx.
From Stdlib Require Import Floats.PrimFloat Numbers.Cyclic.Int63.Uint63.
Import ListNotations.

Open Scope string_scope.
Open Scope Z_scope.

Set Warnings "-inexact-float".

(* ================================================================== *)
(** * JavaScript values used by the server *)
(* ================================================================== *)

Module Js.

(** Whatever is thrown inside a handler ends in its [catch] block. *)
Inductive Error : Type :=
| RangeError        (* Date.prototype.toISOString on an invalid date *)
| TypeError         (* a method called on a value that does not have it *)
| ZodError          (* schema.parse on a malformed object *)
| DatabaseError.    (* constraint violation or malformed parameter *)

Inductive Result (A : Type) : Type :=
| Returns (a : A)
| Throws (e : Error).
Arguments Returns {A} a.
Arguments Throws {A} e.

Definition bind {A B : Type} (r : Result A) (k : A -> Result B) : Result B :=
  match r with
  | Returns a => k a
  | Throws e => Throws e
  end.

(** ** Number conversions *)

(** [Number(z)] for an integer that a double holds exactly. *)
Definition float_of_Z (z : Z) : float :=
  if z <? 0 then PrimFloat.opp (PrimFloat.of_uint63 (Uint63.of_Z (- z)))
  else PrimFloat.of_uint63 (Uint63.of_Z z).

(** [parseFloat(s)] where [s] is the text of a [decimal(10,2)] value of
    [w] hundredths.  The quotient of two exactly represented integers is
    correctly rounded, as is the conversion of the decimal text. *)
Definition parseFloat (w : Z) : float :=
  PrimFloat.div (float_of_Z w) (float_of_Z 100).

(** A number that is an integer or [NaN], as a double. *)
Definition toNumber (n : option Z) : float :=
  match n with
  | Some z => float_of_Z z
  | None => PrimFloat.nan
  end.

(** ** parseInt(string), without radix argument *)

(** A text is kept as its UTF-8 bytes.  [s.length] counts UTF-16 code
    units: one for a character of the basic plane, two for a character
    beyond it, which is a sequence of four bytes. *)
Definition isContinuationByte (c : ascii) : bool :=
  let n := N_of_ascii c in ((128 <=? n) && (n <? 192))%N.

Fixpoint codeUnits (s : string) : nat :=
  match s with
  | String c s' =>
      ((if isContinuationByte c then 0
        else if (240 <=? N_of_ascii c)%N then 2 else 1) + codeUnits s')%nat
  | EmptyString => 0%nat
  end.

(** White space and line terminators ([StrWhiteSpaceChar]): TAB, LF, VT,
    FF, CR and SP in one byte; U+00A0 in two; U+1680, U+2000 to U+200A,
    U+2028, U+2029, U+202F, U+205F, U+3000 and U+FEFF in three. *)
Definition isWhiteSpace (c : ascii) : bool :=
  let n := N_of_ascii c in
  ((9 <=? n) && (n <=? 13))%N || (n =? 32)%N.

Definition isWhiteSpace2 (c c1 : ascii) : bool :=
  ((N_of_ascii c =? 194) && (N_of_ascii c1 =? 160))%N.

Definition isWhiteSpace3 (c c1 c2 : ascii) : bool :=
  let n := N_of_ascii c in
  let n1 := N_of_ascii c1 in
  let n2 := N_of_ascii c2 in
  ((n =? 225) && (n1 =? 154) && (n2 =? 128)
   || (n =? 226) && (n1 =? 128)
      && ((128 <=? n2) && (n2 <=? 138) || (n2 =? 168) || (n2 =? 169)
          || (n2 =? 175))
   || (n =? 226) && (n1 =? 129) && (n2 =? 159)
   || (n =? 227) && (n1 =? 128) && (n2 =? 128)
   || (n =? 239) && (n1 =? 187) && (n2 =? 191))%N.

Fixpoint trimStart (s : string) : string :=
  match s with
  | String c s1 =>
      if isWhiteSpace c then trimStart s1
      else
        match s1 with
        | String c1 s2 =>
            if isWhiteSpace2 c c1 then trimStart s2
            else
              match s2 with
              | String c2 s3 =>
                  if isWhiteSpace3 c c1 c2 then trimStart s3 else s
              | EmptyString => s
              end
        | EmptyString => s
        end
  | EmptyString => EmptyString
  end.

Definition digitValue (c : ascii) : option Z :=
  let n := Z.of_N (N_of_ascii c) in
  if (48 <=? n) && (n <=? 57) then Some (n - 48)
  else if (97 <=? n) && (n <=? 122) then Some (n - 97 + 10)
  else if (65 <=? n) && (n <=? 90) then Some (n - 65 + 10)
  else None.

(** The longest prefix of digits of the radix, as a number; [None] when the
    prefix is empty. *)
Fixpoint readDigits (radix : Z) (s : string) (acc : option Z) : option Z :=
  match s with
  | String c s' =>
      match digitValue c with
      | Some d =>
          if d <? radix
          then readDigits radix s'
                 (Some (match acc with Some a => a * radix + d | None => d end))
          else acc
      | None => acc
      end
  | EmptyString => acc
  end.

Definition stripHexPrefix (s : string) : option string :=
  match s with
  | String "0" (String "x" s') => Some s'
  | String "0" (String "X" s') => Some s'
  | _ => None
  end.

(** The result is [None] for [NaN].  The mathematical value is kept, which
    is the double's value up to 2^53. *)
Definition parseInt (input : string) : option Z :=
  let s := trimStart input in
  let '(sign, s) :=
    match s with
    | String "-" s' => (-1, s')
    | String "+" s' => (1, s')
    | _ => (1, s)
    end in
  let '(radix, s) :=
    match stripHexPrefix s with
    | Some s' => (16, s')
    | None => (10, s)
    end in
  match readDigits radix s None with
  | Some n => Some (sign * n)
  | None => None
  end.

(** ** Truthiness *)

Definition truthyNumber (n : Z) : bool := negb (n =? 0).
Definition truthyString (s : string) : bool := negb (s =? "")%string.
Definition truthyFlag (b : option bool) : bool :=
  match b with Some true => true | _ => false end.

(** [a.localeCompare(b)] on strings of digits and hyphens. *)
Definition localeCompare (a b : string) : comparison := String.compare a b.

End Js.

Export Js.

(* ================================================================== *)
(** * The Date object (ECMAScript time values, proleptic Gregorian) *)
(* ================================================================== *)

Module JsDate.

Definition msPerDay : Z := 86400000.

Definition Day (t : Z) : Z := t / msPerDay.

Definition isLeapYear (y : Z) : bool :=
  if negb (y mod 4 =? 0) then false
  else if negb (y mod 100 =? 0) then true
  else if negb (y mod 400 =? 0) then false
  else true.

Definition DaysInYear (y : Z) : Z := if isLeapYear y then 366 else 365.

Definition DayFromYear (y : Z) : Z :=
  365 * (y - 1970) + (y - 1969) / 4 - (y - 1901) / 100 + (y - 1601) / 400.

(** The largest [y] with [DayFromYear y <= d]: a first guess from the mean
    year length, corrected by at most one year (see [YearFromDay_spec]). *)
Definition YearFromDay (d : Z) : Z :=
  let y := 1970 + (400 * d) / 146097 in
  if DayFromYear (y + 1) <=? d then y + 1
  else if DayFromYear y <=? d then y
  else y - 1.

Definition YearFromTime (t : Z) : Z := YearFromDay (Day t).

Definition InLeapYear (t : Z) : Z :=
  if isLeapYear (YearFromTime t) then 1 else 0.

Definition DayWithinYear (t : Z) : Z := Day t - DayFromYear (YearFromTime t).

Definition MonthFromTime (t : Z) : Z :=
  let d := DayWithinYear t in
  let L := InLeapYear t in
  if d <? 31 then 0
  else if d <? 59 + L then 1
  else if d <? 90 + L then 2
  else if d <? 120 + L then 3
  else if d <? 151 + L then 4
  else if d <? 181 + L then 5
  else if d <? 212 + L then 6
  else if d <? 243 + L then 7
  else if d <? 273 + L then 8
  else if d <? 304 + L then 9
  else if d <? 334 + L then 10
  else 11.

Definition DateFromTime (t : Z) : Z :=
  let d := DayWithinYear t in
  let L := InLeapYear t in
  match MonthFromTime t with
  | 0 => d + 1
  | 1 => d - 30
  | 2 => d - 58 - L
  | 3 => d - 89 - L
  | 4 => d - 119 - L
  | 5 => d - 150 - L
  | 6 => d - 180 - L
  | 7 => d - 211 - L
  | 8 => d - 242 - L
  | 9 => d - 272 - L
  | 10 => d - 303 - L
  | _ => d - 333 - L
  end.

(** Day within the year of the first day of month [mn] (0 = January). *)
Definition monthStart (leap : bool) (mn : Z) : Z :=
  let L := if leap then 1 else 0 in
  match mn with
  | 0 => 0
  | 1 => 31
  | 2 => 59 + L
  | 3 => 90 + L
  | 4 => 120 + L
  | 5 => 151 + L
  | 6 => 181 + L
  | 7 => 212 + L
  | 8 => 243 + L
  | 9 => 273 + L
  | 10 => 304 + L
  | _ => 334 + L
  end.

(** [MakeDay]: the day number of the first of month [mn] of year [ym],
    moved by [date - 1] days. *)
Definition MakeDay (year month date : Z) : Z :=
  let ym := year + month / 12 in
  let mn := month mod 12 in
  DayFromYear ym + monthStart (isLeapYear ym) mn + date - 1.

Definition MakeDate (day time : Z) : Z := day * msPerDay + time.

Definition TimeClip (t : Z) : option Z :=
  if Z.abs t <=? 8640000000000000 then Some t else None.

(** The server's zone is taken with a constant offset [tza] from UTC, in
    milliseconds, positive to the east. *)
Definition LocalTime (tza t : Z) : Z := t + tza.
Definition UTC (tza t : Z) : Z := t - tza.

(** A Date object: its time value, or [None] for an invalid date. *)
Definition Date : Type := option Z.

(** [new Date(year, month, date)] in local time; the arguments are the
    results of [parseInt] or of getters, [None] being [NaN]. *)
Definition newDate (tza : Z) (year month date : option Z) : Date :=
  match year, month, date with
  | Some y, Some m, Some dt =>
      let yr := if (0 <=? y) && (y <=? 99) then 1900 + y else y in
      TimeClip (UTC tza (MakeDate (MakeDay yr m dt) 0))
  | _, _, _ => None
  end.

Definition getFullYear (tza t : Z) : Z := YearFromTime (LocalTime tza t).
Definition getMonth (tza t : Z) : Z := MonthFromTime (LocalTime tza t).

(** [d.getDate()], [NaN] on an invalid date. *)
Definition getDate (tza : Z) (d : Date) : option Z :=
  match d with
  | Some t => Some (DateFromTime (LocalTime tza t))
  | None => None
  end.

(** ** Rendering *)

Definition digit (n : Z) : ascii := ascii_of_N (Z.to_N (48 + n mod 10)).

(** [n] in decimal, on exactly [width] digits. *)
Fixpoint padded (width : nat) (n : Z) : string :=
  match width with
  | O => EmptyString
  | S w => padded w (n / 10) ++ String (digit n) EmptyString
  end.

Definition isoYear (y : Z) : string :=
  if (0 <=? y) && (y <=? 9999) then padded 4 y
  else if y <? 0 then "-" ++ padded 6 (- y)
  else "+" ++ padded 6 y.

(** The calendar date [year]-[month]-[day] in ISO form, [month] from 1. *)
Definition isoDate (year month day : Z) : string :=
  isoYear year ++ "-" ++ padded 2 month ++ "-" ++ padded 2 day.

(** [d.toISOString().split('T')[0]]: the UTC calendar date of [d];
    [toISOString] throws on an invalid date. *)
Definition toISODate (d : Date) : Result string :=
  match d with
  | Some t =>
      Returns (isoDate (YearFromTime t) (MonthFromTime t + 1) (DateFromTime t))
  | None => Throws RangeError
  end.

(** ** The calendar, as a reader of the specification understands it *)

Definition daysInMonth (year month : Z) : Z :=
  match month with
  | 2 => if isLeapYear year then 29 else 28
  | 4 | 6 | 9 | 11 => 30
  | _ => 31
  end.

End JsDate.

Export JsDate.

(* ================================================================== *)
(** * shared/schema.ts *)
(* ================================================================== *)

Inductive WorkType : Type := filetagem | espinho.

(** A row of [users]. [isAdmin], [workType], [isActive] and the two
    timestamps are nullable columns. *)
Module User.
Record t : Type := mk {
  id : Z;
  cpf : string;
  password : string;
  firstName : string;
  lastName : string;
  isAdmin : option bool;
  workType : option WorkType;
  isActive : option bool;
  createdAt : option Z;
  updatedAt : option Z
}.
End User.

(** A row of [weight_records]; [weight] in hundredths, [date] as the text
    that the driver returns for the value of the column: ['YYYY-MM-DD'] with
    the year on four digits or more, followed by [' BC'] for a year before
    the common era. *)
Module WeightRecord.
Record t : Type := mk {
  id : Z;
  userId : Z;
  weight : Z;
  date : string;
  notes : option string;
  createdAt : option Z;
  createdBy : Z
}.

(** The keys of a row object, one per column of the table. *)
Definition columns : list string :=
  ["id"; "userId"; "weight"; "date"; "notes"; "createdAt"; "createdBy"].
End WeightRecord.

(** A finite number as [Number.prototype.toString] prints it, the decimal
    [digits] x 10^-[scale].  The weight of a request body is a JSON number;
    the handler receives the double that it denotes, [parseFloat] and
    [z.coerce.number] leave a number as it is, and the storage layer sends
    [weight.toString()] to the database: this is that text. *)
Module Decimal.
Record t : Type := mk { digits : Z; scale : nat }.

(** The value stored by a [decimal(10,2)] column for such a text: rounded
    to two places, half away from zero; [None] on numeric overflow. *)
Definition toNumeric_10_2 (d : t) : option Z :=
  let den := 10 ^ Z.of_nat (scale d) in
  let n := Z.abs (digits d) * 100 in
  let q := (2 * n + den) / (2 * den) in
  if q <? 10 ^ 10 then Some (Z.sgn (digits d) * q) else None.
End Decimal.

(** A JSON value under the key of a timestamp column: null, or a value
    that is not null (a text, a number, ...).  No JSON value is a [Date]. *)
Inductive JsonTimestamp : Type := json_null | json_not_null.

(** The [updates] of [storage.updateUser].  Their declared type is
    [UpdateUser = z.infer<typeof insertUserSchema.partial()>], every column
    of [users] except [id], [createdAt] and [updatedAt], each optional; the
    object itself is the body of the PATCH request, which no schema has
    read, so it may carry the keys [id] and [createdAt] as well (a key
    [updatedAt] is overwritten, a key that names no column is ignored).  An
    absent key is [None]; a nullable column may also be set to null.  The
    value of a key is taken to be of the type of its column, [id] an
    integer. *)
Module UpdateUser.
Record t : Type := mk {
  cpf : option string;
  password : option string;
  firstName : option string;
  lastName : option string;
  isAdmin : option (option bool);
  workType : option (option WorkType);
  isActive : option (option bool);
  id : option Z;
  createdAt : option JsonTimestamp
}.
End UpdateUser.

(** The object handed to [insertWeightRecordSchema.parse] by the POST
    handler, and what the schema keeps of it. *)
Module WeightRecordInput.
Record t : Type := mk {
  userId : option Z;
  weight : Decimal.t;
  date : string;
  notes : option string;
  workType : option WorkType;
  createdBy : Z
}.
End WeightRecordInput.

Module InsertWeightRecord.
Record t : Type := mk {
  userId : Z;
  weight : Decimal.t;
  date : string;
  notes : option string;
  createdBy : Z
}.
End InsertWeightRecord.

(** [insertWeightRecordSchema.parse]: the object schema of the table's
    columns without [id] and [createdAt], [weight] a positive number.  Keys
    that are not in the schema are stripped. *)
Definition insertWeightRecordSchema_parse (o : WeightRecordInput.t)
  : Result InsertWeightRecord.t :=
  match WeightRecordInput.userId o with
  | None => Throws ZodError
  | Some uid =>
      if 0 <? Decimal.digits (WeightRecordInput.weight o)
      then Returns {| InsertWeightRecord.userId := uid;
                      InsertWeightRecord.weight := WeightRecordInput.weight o;
                      InsertWeightRecord.date := WeightRecordInput.date o;
                      InsertWeightRecord.notes := WeightRecordInput.notes o;
                      InsertWeightRecord.createdBy := WeightRecordInput.createdBy o |}
      else Throws ZodError
  end.

(** [loginSchema.parse]: [cpf] of length 11, [password] of length 1 at
    least, which a text has exactly when it is not empty. *)
Definition loginSchema_parse (cpf password : string) : Result (string * string) :=
  if (codeUnits cpf =? 11)%nat && negb (password =? "")%string
  then Returns (cpf, password)
  else Throws ZodError.

(* ================================================================== *)
(** * Query building blocks *)
(* ================================================================== *)

Module Sql.

Section OrderBy.
Context {A : Type} (leb : A -> A -> bool).

Fixpoint insertSorted (x : A) (l : list A) : list A :=
  match l with
  | [] => [x]
  | y :: l' => if leb x y then x :: l else y :: insertSorted x l'
  end.

(** [orderBy]: the rows sorted.  Among rows that compare equal the
    database may give any order; the one of the table is taken here (a
    stable sort). *)
Definition orderBy (l : list A) : list A := fold_right insertSorted [] l.
End OrderBy.

(** [column = value] on a nullable boolean column. *)
Definition eqFlag (column : option bool) (value : bool) : bool :=
  match column with
  | Some b => Bool.eqb b value
  | None => false
  end.

(** ** Checks on the value of a parameter
    The database reads the value of a parameter when the statement is bound
    and planned: a text too long for its column, a number outside the range
    of its column or a text that is no date is refused then, before any row
    is looked at and before a key is drawn from a sequence. *)

(** [integer] and [serial] columns hold 32-bit integers. *)
Definition int4 (n : Z) : bool := (- 2 ^ 31 <=? n) && (n <? 2 ^ 31).

(** [varchar(n)] counts characters: the bytes of a UTF-8 text that do not
    continue a sequence. *)
Fixpoint charLength (s : string) : nat :=
  match s with
  | String c s' =>
      ((if isContinuationByte c then 0 else 1) + charLength s')%nat
  | EmptyString => 0%nat
  end.

(** A date parameter that was rendered by [toISOString]: the text is
    ['YYYY-MM-DD'] for the years 0000 to 9999 and ['+YYYYYY-MM-DD'] or
    ['-YYYYYY-MM-DD'] for the others.  The database reads the first form
    from the year 0001 on and refuses the year 0000 and the two other forms;
    these texts are the ones from ['0001-01-01'] to ['9999-12-31'] in the
    order of the characters. *)
Definition dateParam (s : string) : Result string :=
  if String.leb "0001-01-01" s && String.leb s "9999-12-31"
  then Returns s
  else Throws DatabaseError.

(** ** The order of a [date] column
    The database compares the days, not the texts: the year first, a year
    before the common era as a negative number, then the rest of the text,
    month and day on two digits each. *)

Definition isDigitChar (c : ascii) : bool :=
  let n := N_of_ascii c in ((48 <=? n) && (n <=? 57))%N.

(** The number written by the digits at the head of a text, and the rest
    of the text. *)
Fixpoint leadingNumber (s : string) (acc : Z) : Z * string :=
  match s with
  | String c s' =>
      if isDigitChar c
      then leadingNumber s' (acc * 10 + (Z.of_N (N_of_ascii c) - 48))
      else (acc, s)
  | EmptyString => (acc, s)
  end.

Definition beforeCommonEra (s : string) : bool :=
  (substring (String.length s - 3) 3 s =? " BC")%string.

Definition dateKey (s : string) : Z * string :=
  let (year, rest) := leadingNumber s 0 in
  (if beforeCommonEra s then - year else year, rest).

Definition dateCompare (a b : string) : comparison :=
  match fst (dateKey a) ?= fst (dateKey b) with
  | Eq => String.compare (snd (dateKey a)) (snd (dateKey b))
  | c => c
  end.

Definition dateLeb (a b : string) : bool :=
  match dateCompare a b with
  | Gt => false
  | _ => true
  end.

(** [gte(column, bound)] and [lte(column, bound)] on a date column. *)
Definition gte (column bound : string) : bool := dateLeb bound column.
Definition lte (column bound : string) : bool := dateLeb column bound.

(** [desc(createdAt)]: latest first, null before every value. *)
Definition descTimestamp (a b : option Z) : bool :=
  match a, b with
  | None, _ => true
  | Some _, None => false
  | Some x, Some y => y <=? x
  end.

Definition byCreatedAtDesc (a b : WeightRecord.t) : bool :=
  descTimestamp (WeightRecord.createdAt a) (WeightRecord.createdAt b).

(** [desc(date), desc(createdAt)]. *)
Definition byDateDescCreatedAtDesc (a b : WeightRecord.t) : bool :=
  match dateCompare (WeightRecord.date a) (WeightRecord.date b) with
  | Gt => true
  | Lt => false
  | Eq => byCreatedAtDesc a b
  end.

End Sql.

(* ================================================================== *)
(** * server/auth.ts, second part: DatabaseStorage *)
(* ================================================================== *)

(** The results of the analytics queries.  [DayEntry] is generic in the type
    of the accumulated weight; the server accumulates doubles. *)
Module DayEntry.
Record t (N : Type) : Type := mk {
  date : string;
  weight : N;
  recordCount : Z
}.
Arguments mk {N} date weight recordCount.
Arguments date {N} _.
Arguments weight {N} _.
Arguments recordCount {N} _.
End DayEntry.

Module DailyStats.
Record t : Type := mk {
  totalWeight : float;
  recordCount : Z;
  records : list WeightRecord.t
}.
End DailyStats.

Module MonthlyStats.
Record t : Type := mk {
  totalWeight : float;
  recordCount : Z;
  dailyStats : list (DayEntry.t float)
}.
End MonthlyStats.

Module DashboardStats.
Record t : Type := mk {
  totalToday : float;
  activeUsers : Z;
  avgDaily : float;
  totalMonth : float
}.
End DashboardStats.

Module SummaryStats.
Record t : Type := mk {
  totalToday : float;
  totalMonth : float;
  avgDaily : float
}.
End SummaryStats.

Module Storage.

(** The two tables, and the sequences behind their [serial] keys. *)
Record Db : Type := mkDb {
  users : list User.t;
  weightRecords : list WeightRecord.t;
  users_id_seq : Z;
  weight_records_id_seq : Z
}.

(** ** The two reductions over fetched rows *)

Section Reduce.
Context {N : Type} (zero : N) (add : N -> N -> N)
        (value : WeightRecord.t -> N).

(** [records.reduce((sum, record) => sum + parseFloat(record.weight), 0)] *)
Definition sumWeights (records : list WeightRecord.t) : N :=
  fold_left (fun sum record => add sum (value record)) records zero.

(** The accumulator object of the monthly reduction: its own keys in
    insertion order, with their values.  (A date string never names a
    property inherited from [Object.prototype].) *)
Definition Acc : Type := list (string * DayEntry.t N).

Definition hasKey (key : string) (acc : Acc) : bool :=
  existsb (fun kv => (fst kv =? key)%string) acc.

Definition updateKey (key : string) (f : DayEntry.t N -> DayEntry.t N)
           (acc : Acc) : Acc :=
  map (fun kv => if (fst kv =? key)%string then (fst kv, f (snd kv)) else kv)
      acc.

Definition groupStep (acc : Acc) (record : WeightRecord.t) : Acc :=
  let date := WeightRecord.date record in
  let acc :=
    if negb (hasKey date acc)
    then (acc ++ [(date, DayEntry.mk date zero 0)])%list
    else acc in
  updateKey date
    (fun e => DayEntry.mk (DayEntry.date e)
                          (add (DayEntry.weight e) (value record))
                          (DayEntry.recordCount e + 1))
    acc.

Definition groupByDate (records : list WeightRecord.t) : Acc :=
  fold_left groupStep records [].

(** [Object.values(acc).sort((a, b) => a.date.localeCompare(b.date))] *)
Definition sortedValues (acc : Acc) : list (DayEntry.t N) :=
  Sql.orderBy
    (fun a b =>
       match localeCompare (DayEntry.date a) (DayEntry.date b) with
       | Gt => false
       | _ => true
       end)
    (map snd acc).

(** Adding up the weights of the entries of a report. *)
Definition sumEntries (entries : list (DayEntry.t N)) : N :=
  fold_left (fun sum e => add sum (DayEntry.weight e)) entries zero.
End Reduce.

Definition weightValue (record : WeightRecord.t) : float :=
  parseFloat (WeightRecord.weight record).

Definition totalOf (records : list WeightRecord.t) : float :=
  sumWeights PrimFloat.zero PrimFloat.add weightValue records.

(** ** User operations *)

Definition getUser (db : Db) (id : Z) : option User.t :=
  find (fun u => User.id u =? id) (users db).

Definition validateUser (db : Db) (cpf password : string) : option User.t :=
  find (fun u => (User.cpf u =? cpf)%string
                 && (User.password u =? password)%string
                 && Sql.eqFlag (User.isActive u) true)
       (users db).

Definition orElse {A : Type} (new : option A) (old : A) : A :=
  match new with
  | Some v => v
  | None => old
  end.

(** [{ ...updates, updatedAt: new Date() }] applied to one row.  A
    [createdAt] that gets this far is null. *)
Definition applyUpdates (now : Z) (updates : UpdateUser.t) (u : User.t) : User.t :=
  {| User.id := orElse (UpdateUser.id updates) (User.id u);
     User.cpf := orElse (UpdateUser.cpf updates) (User.cpf u);
     User.password := orElse (UpdateUser.password updates) (User.password u);
     User.firstName := orElse (UpdateUser.firstName updates) (User.firstName u);
     User.lastName := orElse (UpdateUser.lastName updates) (User.lastName u);
     User.isAdmin := orElse (UpdateUser.isAdmin updates) (User.isAdmin u);
     User.workType := orElse (UpdateUser.workType updates) (User.workType u);
     User.isActive := orElse (UpdateUser.isActive updates) (User.isActive u);
     User.createdAt := match UpdateUser.createdAt updates with
                       | Some _ => None
                       | None => User.createdAt u
                       end;
     User.updatedAt := Some now |}.

(** What is checked of the values, whether or not a row has the id: the
    query builder encodes the value of a timestamp column with
    [toISOString], which a JSON value that is not null does not have; the
    database takes the [id] of the [where] clause and a new [id] as 32-bit
    integers, and a [cpf] of eleven characters at most. *)
Definition valuesAccepted (id : Z) (updates : UpdateUser.t) : Result unit :=
  match UpdateUser.createdAt updates with
  | Some json_not_null => Throws TypeError
  | _ =>
      if Sql.int4 id
         && match UpdateUser.id updates with
            | Some n => Sql.int4 n
            | None => true
            end
         && match UpdateUser.cpf updates with
            | Some c => (Sql.charLength c <=? 11)%nat
            | None => true
            end
      then Returns tt
      else Throws DatabaseError
  end.

(** The [unique] constraint of [cpf] on the updated row. *)
Definition cpfAccepted (db : Db) (id : Z) (updates : UpdateUser.t) : bool :=
  match UpdateUser.cpf updates with
  | None => true
  | Some c =>
      negb (existsb (fun u => negb (User.id u =? id) && (User.cpf u =? c)%string)
                    (users db))
  end.

(** The primary key on the updated row, and the two foreign keys of
    [weight_records], which have no [on update] action: an [id] that changes
    must be free, and no record may refer to the old one. *)
Definition idAccepted (db : Db) (id : Z) (updates : UpdateUser.t) : bool :=
  match UpdateUser.id updates with
  | None => true
  | Some n =>
      (n =? id)
      || negb (existsb (fun u => User.id u =? n) (users db))
         && negb (existsb (fun r => (WeightRecord.userId r =? id)
                                    || (WeightRecord.createdBy r =? id))
                          (weightRecords db))
  end.

(** [update(users).set(...).where(eq(users.id, id)).returning()], first
    row of the result ([undefined] when no row has this id). *)
Definition updateUser (now : Z) (db : Db) (id : Z) (updates : UpdateUser.t)
  : Result (Db * option User.t) :=
  bind (valuesAccepted id updates) (fun _ =>
  if existsb (fun u => User.id u =? id) (users db)
     && negb (cpfAccepted db id updates && idAccepted db id updates)
  then Throws DatabaseError
  else
    let users' :=
      map (fun u => if User.id u =? id then applyUpdates now updates u else u)
          (users db) in
    Returns ({| users := users';
                weightRecords := weightRecords db;
                users_id_seq := users_id_seq db;
                weight_records_id_seq := weight_records_id_seq db |},
             option_map (applyUpdates now updates) (getUser db id))).

(** ** Weight record operations *)

(** [insert(weightRecords).values({...record, weight: record.weight.toString()})].
    [date_in] is the reader of the database for the text of a date, which
    takes many forms besides ['YYYY-MM-DD']: [date_in text] is the value
    read, as the driver returns it, and [None] when the text is refused.
    A weight out of range, a text that is no date or an id that is no 32-bit
    integer is refused when the statement is bound.  Otherwise the new row
    takes the next [id] and the current time, and the primary key and the
    two foreign keys are checked: an [id] already in the table or a missing
    user fails the insert, and the [id] is used up. *)
Definition createWeightRecord (date_in : string -> option string) (now : Z)
           (db : Db) (record : InsertWeightRecord.t)
  : Db * Result WeightRecord.t :=
  match Decimal.toNumeric_10_2 (InsertWeightRecord.weight record),
        date_in (InsertWeightRecord.date record) with
  | Some w, Some d =>
      if Sql.int4 (InsertWeightRecord.userId record)
         && Sql.int4 (InsertWeightRecord.createdBy record)
      then
        if negb (existsb (fun r => WeightRecord.id r =? weight_records_id_seq db)
                         (weightRecords db))
           && existsb (fun u => User.id u =? InsertWeightRecord.userId record) (users db)
           && existsb (fun u => User.id u =? InsertWeightRecord.createdBy record) (users db)
        then
          let row :=
            {| WeightRecord.id := weight_records_id_seq db;
               WeightRecord.userId := InsertWeightRecord.userId record;
               WeightRecord.weight := w;
               WeightRecord.date := d;
               WeightRecord.notes := InsertWeightRecord.notes record;
               WeightRecord.createdAt := Some now;
               WeightRecord.createdBy := InsertWeightRecord.createdBy record |} in
          ({| users := users db;
              weightRecords := (weightRecords db ++ [row])%list;
              users_id_seq := users_id_seq db;
              weight_records_id_seq := weight_records_id_seq db + 1 |},
           Returns row)
        else
          ({| users := users db;
              weightRecords := weightRecords db;
              users_id_seq := users_id_seq db;
              weight_records_id_seq := weight_records_id_seq db + 1 |},
           Throws DatabaseError)
      else (db, Throws DatabaseError)
  | _, _ => (db, Throws DatabaseError)
  end.

(** The optional arguments are [None] when [undefined]; a Date object is
    truthy even when invalid, and [toISOString] then throws.  The database
    refuses a bound that it cannot read and a [userId] that is no 32-bit
    integer. *)
Definition getUserWeightRecords (db : Db) (userId : Z)
           (startDate endDate : option Date) : Result (list WeightRecord.t) :=
  match startDate, endDate with
  | Some startDate, Some endDate =>
      bind (toISODate startDate) (fun lo =>
      bind (toISODate endDate) (fun hi =>
      bind (Sql.dateParam lo) (fun lo =>
      bind (Sql.dateParam hi) (fun hi =>
      if Sql.int4 userId
      then
        Returns
          (Sql.orderBy Sql.byDateDescCreatedAtDesc
             (filter (fun r => (WeightRecord.userId r =? userId)
                               && Sql.gte (WeightRecord.date r) lo
                               && Sql.lte (WeightRecord.date r) hi)
                     (weightRecords db)))
      else Throws DatabaseError))))
  | _, _ =>
      if Sql.int4 userId
      then
        Returns
          (Sql.orderBy Sql.byDateDescCreatedAtDesc
             (filter (fun r => WeightRecord.userId r =? userId) (weightRecords db)))
      else Throws DatabaseError
  end.

Definition getAllWeightRecords (db : Db) (startDate endDate : option Date)
  : Result (list WeightRecord.t) :=
  match startDate, endDate with
  | Some startDate, Some endDate =>
      bind (toISODate startDate) (fun lo =>
      bind (toISODate endDate) (fun hi =>
      bind (Sql.dateParam lo) (fun lo =>
      bind (Sql.dateParam hi) (fun hi =>
      Returns
        (Sql.orderBy Sql.byDateDescCreatedAtDesc
           (filter (fun r => Sql.gte (WeightRecord.date r) lo
                             && Sql.lte (WeightRecord.date r) hi)
                   (weightRecords db)))))))
  | _, _ =>
      Returns (Sql.orderBy Sql.byDateDescCreatedAtDesc (weightRecords db))
  end.

(** ** Analytics *)

Definition getUserDailyStats (db : Db) (userId : Z) (date : Date)
  : Result DailyStats.t :=
  bind (toISODate date) (fun dateStr =>
  bind (Sql.dateParam dateStr) (fun dateStr =>
  if Sql.int4 userId
  then
    let records :=
      Sql.orderBy Sql.byCreatedAtDesc
        (filter (fun r => (WeightRecord.userId r =? userId)
                          && (WeightRecord.date r =? dateStr)%string)
                (weightRecords db)) in
    let totalWeight := totalOf records in
    Returns {| DailyStats.totalWeight := totalWeight;
               DailyStats.recordCount := Z.of_nat (List.length records);
               DailyStats.records := records |}
  else Throws DatabaseError)).

(** The bounds of the monthly query: [new Date(year, month - 1, 1)] and
    [new Date(year, month, 0)]. *)
Definition monthStartDate (tza : Z) (year month : option Z) : Date :=
  newDate tza year (option_map (fun m => m - 1) month) (Some 1).

Definition monthEndDate (tza : Z) (year month : option Z) : Date :=
  newDate tza year month (Some 0).

Definition getUserMonthlyStats (tza : Z) (db : Db) (userId : Z)
           (year month : option Z) : Result MonthlyStats.t :=
  let startDate := monthStartDate tza year month in
  let endDate := monthEndDate tza year month in
  bind (getUserWeightRecords db userId (Some startDate) (Some endDate))
    (fun records =>
  let dailyStats := groupByDate PrimFloat.zero PrimFloat.add weightValue records in
  let totalWeight := totalOf records in
  Returns {| MonthlyStats.totalWeight := totalWeight;
             MonthlyStats.recordCount := Z.of_nat (List.length records);
             MonthlyStats.dailyStats := sortedValues dailyStats |}).

(** [now] is the time value of [new Date()]. *)
Definition getDashboardStats (tza now : Z) (db : Db) : Result DashboardStats.t :=
  bind (toISODate (Some now)) (fun todayStr =>
  let monthStart :=
    newDate tza (Some (getFullYear tza now)) (Some (getMonth tza now)) (Some 1) in
  let monthEnd :=
    newDate tza (Some (getFullYear tza now)) (Some (getMonth tza now + 1)) (Some 0) in
  bind (Sql.dateParam todayStr) (fun todayStr =>
  let todayRecords :=
    filter (fun r => (WeightRecord.date r =? todayStr)%string) (weightRecords db) in
  let totalToday := totalOf todayRecords in
  let activeUsers :=
    Z.of_nat (List.length
                (filter (fun u => Sql.eqFlag (User.isActive u) true) (users db))) in
  bind (getAllWeightRecords db (Some monthStart) (Some monthEnd))
    (fun monthRecords =>
  let totalMonth := totalOf monthRecords in
  let daysInMonth := getDate tza monthEnd in
  let avgDaily := PrimFloat.div totalMonth (toNumber daysInMonth) in
  Returns {| DashboardStats.totalToday := totalToday;
             DashboardStats.activeUsers := activeUsers;
             DashboardStats.avgDaily := avgDaily;
             DashboardStats.totalMonth := totalMonth |}))).

Definition getUserSummaryStats (tza now : Z) (db : Db) (userId : Z)
  : Result SummaryStats.t :=
  bind (toISODate (Some now)) (fun todayStr =>
  let monthStart :=
    newDate tza (Some (getFullYear tza now)) (Some (getMonth tza now)) (Some 1) in
  let monthEnd :=
    newDate tza (Some (getFullYear tza now)) (Some (getMonth tza now + 1)) (Some 0) in
  bind (Sql.dateParam todayStr) (fun todayStr =>
  if Sql.int4 userId
  then
    let todayRecords :=
      filter (fun r => (WeightRecord.userId r =? userId)
                       && (WeightRecord.date r =? todayStr)%string)
             (weightRecords db) in
    let totalToday := totalOf todayRecords in
    bind (getUserWeightRecords db userId (Some monthStart) (Some monthEnd))
      (fun monthRecords =>
    let totalMonth := totalOf monthRecords in
    let daysInMonth := getDate tza monthEnd in
    let avgDaily := PrimFloat.div totalMonth (toNumber daysInMonth) in
    Returns {| SummaryStats.totalToday := totalToday;
               SummaryStats.totalMonth := totalMonth;
               SummaryStats.avgDaily := avgDaily |})
  else Throws DatabaseError)).

End Storage.

(* ================================================================== *)
(** * server/auth.ts, first part, and server/routes.ts *)
(* ================================================================== *)

Module Routes.

Import Storage.

(** [req.session]: the user id bound at login, if any. *)
Record Session : Type := mkSession { userId : option Z }.

(** What a handler sends: [res.json(body)], or
    [res.status(code).json({ message })]. *)
Inductive Response (A : Type) : Type :=
| Json (body : A)
| Status (code : Z) (message : string).
Arguments Json {A} body.
Arguments Status {A} code message.

(** ** Middleware.  [next] is the rest of the chain; the handlers read
    [req.session.userId] again, which is the id that passed the check. *)

Definition isAuthenticated {A : Type} (session : Session)
           (next : Z -> Response A) : Response A :=
  match userId session with
  | Some id =>
      if negb (truthyNumber id) then Status 401 "Unauthorized" else next id
  | None => Status 401 "Unauthorized"
  end.

Definition isAdmin {A : Type} (db : Db) (session : Session)
           (next : Response A) : Response A :=
  match userId session with
  | Some id =>
      if negb (truthyNumber id) then Status 401 "Unauthorized"
      else
        match getUser db id with
        | Some user =>
            if negb (truthyFlag (User.isAdmin user))
            then Status 403 "Admin access required"
            else next
        | None => Status 403 "Admin access required"
        end
  | None => Status 401 "Unauthorized"
  end.

(** ** Helpers shared by the handlers *)

(** [a !== b] between the result of [parseInt] and a number. *)
Definition strictNotEqual (a : option Z) (b : Z) : bool :=
  match a with
  | Some x => negb (x =? b)
  | None => true
  end.

(** [currentUser?.isAdmin] *)
Definition optionalIsAdmin (currentUser : option User.t) : option bool :=
  match currentUser with
  | Some u => User.isAdmin u
  | None => None
  end.

(** "Users can only access their own records unless they're admin": the
    condition under which each of the four read handlers answers 403. *)
Definition accessDenied (db : Db) (userIdParam : string) (currentUserId : Z) : bool :=
  let currentUser := getUser db currentUserId in
  strictNotEqual (parseInt userIdParam) currentUserId
  && negb (truthyFlag (optionalIsAdmin currentUser)).

(** A query on an [integer] column with the parameter [n]: the database
    refuses [NaN] and values outside the 32-bit range. *)
Definition withId {A : Type} (n : option Z) (query : Z -> Result A) : Result A :=
  match n with
  | Some id =>
      if (- 2 ^ 31 <=? id) && (id <? 2 ^ 31) then query id
      else Throws DatabaseError
  | None => Throws DatabaseError
  end.

(** The [try]/[catch] around a handler body. *)
Definition respond {A : Type} (failure : string) (r : Result A) : Response A :=
  match r with
  | Returns a => Json a
  | Throws _ => Status 500 failure
  end.

(** ** POST /api/login *)

Definition login (db : Db) (session : Session) (cpf password : string)
  : Session * Response User.t :=
  match loginSchema_parse cpf password with
  | Returns (cpf, password) =>
      match validateUser db cpf password with
      | None => (session, Status 401 "CPF ou senha inválidos")
      | Some user => (mkSession (Some (User.id user)), Json user)
      end
  | Throws _ => (session, Status 400 "Erro no login")
  end.

(** ** PATCH /api/users/:id.  The body is passed on as it comes, whatever
    its keys. *)

Definition patchUser (now : Z) (db : Db) (session : Session)
           (idParam : string) (updates : UpdateUser.t)
  : Db * Response (option User.t) :=
  match
    isAuthenticated session (fun _ =>
    isAdmin db session (
    respond "Failed to update user"
      (withId (parseInt idParam) (fun id => updateUser now db id updates))))
  with
  | Json (db', user) => (db', Json user)
  | Status code message => (db, Status code message)
  end.

(** ** POST /api/weight-records *)

(** The body as the client sends it: [userId] and [date] are texts,
    [weight] is a number, kept as [toString] prints the double that the JSON
    number denotes; [None] is an absent key. *)
Record WeightRecordBody : Type := mkBody {
  body_userId : option string;
  body_weight : option Decimal.t;
  body_date : option string;
  body_notes : option string;
  body_workType : option WorkType
}.

Definition missing {A : Type} (truthy : A -> bool) (field : option A) : bool :=
  match field with
  | Some v => negb (truthy v)
  | None => true
  end.

Definition postWeightRecord (date_in : string -> option string) (now : Z)
           (db : Db) (session : Session) (body : WeightRecordBody)
  : Db * Response WeightRecord.t :=
  match
    isAuthenticated session (fun currentUserId =>
    isAdmin db session (Json currentUserId))
  with
  | Status code message => (db, Status code message)
  | Json currentUserId =>
      match body_userId body, body_weight body, body_date body with
      | Some userId, Some weight, Some date =>
          if negb (truthyString userId)
             || negb (truthyNumber (Decimal.digits weight))
             || negb (truthyString date)
          then (db, Status 400 "Invalid data")
          else
            match withId (parseInt userId) (fun id => Returns (getUser db id)) with
            | Throws _ => (db, Status 500 "Failed to create weight record")
            | Returns None => (db, Status 400 "Invalid data")
            | Returns (Some user) =>
                match insertWeightRecordSchema_parse
                        {| WeightRecordInput.userId := parseInt userId;
                           WeightRecordInput.weight := weight;
                           WeightRecordInput.date := date;
                           WeightRecordInput.notes := body_notes body;
                           WeightRecordInput.workType := User.workType user;
                           WeightRecordInput.createdBy := currentUserId |}
                with
                | Throws _ => (db, Status 400 "Invalid data")
                | Returns data =>
                    let (db', record) := createWeightRecord date_in now db data in
                    (db', respond "Failed to create weight record" record)
                end
            end
      | _, _, _ => (db, Status 400 "Invalid data")
      end
  end.

(** ** The four read handlers behind the self-or-admin check *)

Section ReadHandlers.

(** [new Date(text)]: the parsing of a date text is left to the engine
    beyond the ISO forms. *)
Variable Date_parse : string -> Date.

(** [text ? new Date(text) : undefined] *)
Definition optionalDate (text : option string) : option Date :=
  match text with
  | Some s => if truthyString s then Some (Date_parse s) else None
  | None => None
  end.

(** GET /api/weight-records/user/:userId *)
Definition getUserRecords (db : Db) (session : Session) (userIdParam : string)
           (startDate endDate : option string) : Response (list WeightRecord.t) :=
  isAuthenticated session (fun currentUserId =>
  if accessDenied db userIdParam currentUserId
  then Status 403 "Access denied"
  else
    let start := optionalDate startDate in
    let end_ := optionalDate endDate in
    respond "Failed to fetch weight records"
      (withId (parseInt userIdParam)
              (fun id => getUserWeightRecords db id start end_))).

(** GET /api/weight-records/daily/:userId/:date *)
Definition getDaily (db : Db) (session : Session) (userIdParam date : string)
  : Response DailyStats.t :=
  isAuthenticated session (fun currentUserId =>
  if accessDenied db userIdParam currentUserId
  then Status 403 "Access denied"
  else
    respond "Failed to fetch daily stats"
      (withId (parseInt userIdParam)
              (fun id => getUserDailyStats db id (Date_parse date)))).

End ReadHandlers.

(** GET /api/weight-records/monthly/:userId/:year/:month *)
Definition getMonthly (tza : Z) (db : Db) (session : Session)
           (userIdParam year month : string) : Response MonthlyStats.t :=
  isAuthenticated session (fun currentUserId =>
  if accessDenied db userIdParam currentUserId
  then Status 403 "Access denied"
  else
    respond "Failed to fetch monthly stats"
      (withId (parseInt userIdParam)
              (fun id =>
                 getUserMonthlyStats tza db id (parseInt year) (parseInt month)))).

(** GET /api/users/:userId/summary *)
Definition getSummary (tza now : Z) (db : Db) (session : Session)
           (userIdParam : string) : Response SummaryStats.t :=
  isAuthenticated session (fun currentUserId =>
  if accessDenied db userIdParam currentUserId
  then Status 403 "Access denied"
  else
    respond "Failed to fetch user summary stats"
      (withId (parseInt userIdParam)
              (fun id => getUserSummaryStats tza now db id))).

(** GET /api/dashboard/stats *)
Definition getDashboard (tza now : Z) (db : Db) (session : Session)
  : Response DashboardStats.t :=
  isAuthenticated session (fun _ =>
  isAdmin db session (
  respond "Failed to fetch dashboard stats" (getDashboardStats tza now db))).

End Routes.

(* ================================================================== *)
(** * Vocabulary of the properties *)
(* ================================================================== *)

(** The text of a date of the years 0000 to 9999, as the driver returns it
    and as [toISOString] renders it. *)
Definition isoText (s : string) : Prop :=
  exists y m d,
    0 <= y <= 9999 /\ 0 <= m <= 99 /\ 0 <= d <= 99 /\ s = isoDate y m d.

(** The two orders of the listings, spelled out on the columns. *)
Definition laterOrNull (a b : option Z) : Prop :=
  match a, b with
  | None, _ => True
  | Some _, None => False
  | Some x, Some y => y <= x
  end.

Definition createdAtDescending (a b : WeightRecord.t) : Prop :=
  laterOrNull (WeightRecord.createdAt a) (WeightRecord.createdAt b).


(** The dates of a list of rows, each once, in order of first appearance. *)
Definition firstDates (records : list WeightRecord.t) : list string :=
  fold_left
    (fun ks r =>
       if existsb (fun k => (k =? WeightRecord.date r)%string) ks then ks
       else (ks ++ [WeightRecord.date r])%list)
    records [].

Definition onDate (d : string) (records : list WeightRecord.t) : list WeightRecord.t :=
  filter (fun r => (WeightRecord.date r =? d)%string) records.

Section Entries.
Context {N : Type} (zero : N) (add : N -> N -> N)
        (value : WeightRecord.t -> N).

(** The entry that the monthly reduction holds for date [d] after
    [records]: the sum and the count of the rows of that date. *)
Definition entryOf (records : list WeightRecord.t) (d : string) : DayEntry.t N :=
  DayEntry.mk d
    (Storage.sumWeights zero add value (onDate d records))
    (Z.of_nat (List.length (onDate d records))).

(** The comparison that sorts the entries of a report. *)
Definition byDate (a b : DayEntry.t N) : bool :=
  match localeCompare (DayEntry.date a) (DayEntry.date b) with
  | Gt => false
  | _ => true
  end.
End Entries.

(** The lexicographic comparison of two sequences of fields. *)
Definition thenCompare (c rest : comparison) : comparison :=
  match c with
  | Eq => rest
  | _ => c
  end.

(** The access contract: the caller is the target, or an administrator. *)
Definition selfOrAdmin (caller : User.t) (target : option Z) : Prop :=
  target = Some (User.id caller) \/ User.isAdmin caller = Some true.




(** ** A small database for the examples *)

Module Sample.

Definition ana : User.t :=
  User.mk 1 "11111111111" "segredo" "Ana" "Souza" (Some true) None (Some true)
          (Some 1700000000000) (Some 1700000000000).

Definition beto : User.t :=
  User.mk 2 "22222222222" "peixe" "Beto" "Silva" (Some false) (Some filetagem)
          (Some true) (Some 1700000000000) (Some 1700000000000).

(** A worker whose account was deactivated. *)
Definition caio : User.t :=
  User.mk 3 "33333333333" "rede" "Caio" "Lima" (Some false) (Some espinho)
          (Some false) (Some 1700000000000) (Some 1700000000000).

Definition row (id userId weight : Z) (date : string) (createdAt : Z)
  : WeightRecord.t :=
  WeightRecord.mk id userId weight date None (Some createdAt) 1.

(** No record yet. *)
Definition empty : Storage.Db :=
  Storage.mkDb [ana; beto; caio] [] 4 1.

(** Beto: 0.20 and 0.30 on the first of March 2024, 0.10 on the second;
    Caio: 7.00 on the last day of February 2024. *)
Definition march : Storage.Db :=
  Storage.mkDb [ana; beto; caio]
    [row 1 2 20 "2024-03-01" 1709300000000;
     row 2 2 30 "2024-03-01" 1709310000000;
     row 3 2 10 "2024-03-02" 1709390000000;
     row 4 3 700 "2024-02-29" 1709200000000]
    4 5.

(** [new Date("2024-03-15")] and the like: the ISO date-only form is read
    as midnight UTC; the examples use no other text. *)
Definition Date_parse (s : string) : Date :=
  match parseInt (substring 0 4 s), parseInt (substring 5 2 s),
        parseInt (substring 8 2 s) with
  | Some y, Some m, Some d => newDate 0 (Some y) (Some (m - 1)) (Some d)
  | _, _, _ => None
  end.

(** The reader of dates of the examples: ['YYYY-MM-DD'] naming a day of
    the calendar of the years 0001 to 9999, which the database reads as that
    day; the examples use no other text. *)
Definition date_in (s : string) : option string :=
  match parseInt (substring 0 4 s), parseInt (substring 5 2 s),
        parseInt (substring 8 2 s) with
  | Some y, Some m, Some d =>
      if (isoDate y m d =? s)%string
         && (1 <=? y) && (y <=? 9999)
         && (1 <=? m) && (m <=? 12)
         && (1 <=? d) && (d <=? daysInMonth y m)
      then Some s else None
  | _, _, _ => None
  end.

End Sample.

(* ================================================================== *)
(** * The rest of the storage gateway and of the routes *)
(* ================================================================== *)

(** [InsertUser = z.infer<typeof insertUserSchema>]: the columns of [users]
    without [id], [createdAt] and [updatedAt]; the three nullable columns
    may be left out ([None]) or given, possibly as null. *)
Module InsertUser.
Record t : Type := mk {
  cpf : string;
  password : string;
  firstName : string;
  lastName : string;
  isAdmin : option (option bool);
  workType : option (option WorkType);
  isActive : option (option bool)
}.
End InsertUser.

Module UserStore.

Import Storage.

Definition getUserByCpf (db : Db) (cpf : string) : option User.t :=
  find (fun u => (User.cpf u =? cpf)%string) (users db).

(** The value of a column with a default: the default when the key is
    left out, what is given otherwise. *)
Definition orDefault {A : Type} (given : option (option A)) (default : option A)
  : option A :=
  match given with
  | Some v => v
  | None => default
  end.

(** [insert(users).values(userData).returning()].  A [cpf] longer than
    the column is refused when the statement is bound.  Otherwise the row
    takes the next [id], the defaults of [isAdmin] (false) and [isActive]
    (true) and the current time, and the primary key and the [unique]
    constraint are checked: an [id] already in the table (an update may have
    set it) or a [cpf] already taken fails the insert, and the [id] is used
    up. *)
Definition createUser (now : Z) (db : Db) (userData : InsertUser.t)
  : Db * Result User.t :=
  if (Sql.charLength (InsertUser.cpf userData) <=? 11)%nat
  then
    if negb (existsb (fun u => User.id u =? users_id_seq db) (users db))
       && negb (existsb (fun u => (User.cpf u =? InsertUser.cpf userData)%string)
                        (users db))
    then
      let user :=
        {| User.id := users_id_seq db;
           User.cpf := InsertUser.cpf userData;
           User.password := InsertUser.password userData;
           User.firstName := InsertUser.firstName userData;
           User.lastName := InsertUser.lastName userData;
           User.isAdmin := orDefault (InsertUser.isAdmin userData) (Some false);
           User.workType := orDefault (InsertUser.workType userData) None;
           User.isActive := orDefault (InsertUser.isActive userData) (Some true);
           User.createdAt := Some now;
           User.updatedAt := Some now |} in
      ({| users := (users db ++ [user])%list;
          weightRecords := weightRecords db;
          users_id_seq := users_id_seq db + 1;
          weight_records_id_seq := weight_records_id_seq db |},
       Returns user)
    else
      ({| users := users db;
          weightRecords := weightRecords db;
          users_id_seq := users_id_seq db + 1;
          weight_records_id_seq := weight_records_id_seq db |},
       Throws DatabaseError)
  else (db, Throws DatabaseError).

Section Collation.

(** The order of the database on text ([a] before or with [b]), which
    depends on its collation. *)
Variable collate : string -> string -> bool.

(** [orderBy(users.firstName)] *)
Definition byFirstName (a b : User.t) : bool :=
  collate (User.firstName a) (User.firstName b).

Definition getAllUsers (db : Db) : list User.t :=
  Sql.orderBy byFirstName (users db).

Definition getActiveUsers (db : Db) : list User.t :=
  Sql.orderBy byFirstName
    (filter (fun u => Sql.eqFlag (User.isActive u) true
                      && Sql.eqFlag (User.isAdmin u) false)
            (users db)).

End Collation.


End UserStore.

(** [add-admin-user.ts]: the one-off script that promotes the user with a
    fixed identifier. *)
Module AddAdminUser.

Import Storage.

Definition adminCpf : string := "11658845935".

(** [update(users).set({isAdmin: true, firstName, lastName})
     .where(eq(users.cpf, ...)).returning()]: the database after the update,
    and the rows it returns. *)
Definition updateUserToAdmin (db : Db) : Db * list User.t :=
  let promote (u : User.t) : User.t :=
    {| User.id := User.id u;
       User.cpf := User.cpf u;
       User.password := User.password u;
       User.firstName := "Usuário";
       User.lastName := "Admin";
       User.isAdmin := Some true;
       User.workType := User.workType u;
       User.isActive := User.isActive u;
       User.createdAt := User.createdAt u;
       User.updatedAt := User.updatedAt u |} in
  let users' :=
    map (fun u => if (User.cpf u =? adminCpf)%string then promote u else u)
        (users db) in
  ({| users := users';
      weightRecords := weightRecords db;
      users_id_seq := users_id_seq db;
      weight_records_id_seq := weight_records_id_seq db |},
   filter (fun u => (User.cpf u =? adminCpf)%string) users').

End AddAdminUser.

(** The handlers of [server/routes.ts] that the read and write handlers
    above leave out. *)
Module Api.

Import Storage UserStore Routes.

(** POST /api/logout: [req.session.destroy]. *)
Definition logout (session : Session) : Session * Response string :=
  (mkSession None, Json "Logout successful").

(** GET /api/auth/user; the body is empty when the row is gone. *)
Definition authUser (db : Db) (session : Session) : Response (option User.t) :=
  isAuthenticated session (fun currentUserId => Json (getUser db currentUserId)).

(** The fields that the public list shows of a user. *)
Record SafeUser : Type := mkSafeUser {
  safe_id : Z;
  safe_firstName : string;
  safe_lastName : string;
  safe_workType : option WorkType
}.

Definition safeUser (user : User.t) : SafeUser :=
  {| safe_id := User.id user;
     safe_firstName := User.firstName user;
     safe_lastName := User.lastName user;
     safe_workType := User.workType user |}.

Section Lists.

Variable collate : string -> string -> bool.

(** GET /api/users *)
Definition listUsers (db : Db) (session : Session) : Response (list User.t) :=
  isAuthenticated session (fun _ =>
  isAdmin db session (Json (getAllUsers collate db))).

(** GET /api/users/active *)
Definition listActiveUsers (db : Db) (session : Session) : Response (list User.t) :=
  isAuthenticated session (fun _ => Json (getActiveUsers collate db)).

(** GET /api/users/public, without any check of the session. *)
Definition listPublicUsers (db : Db) : Response (list SafeUser) :=
  Json (map safeUser (getActiveUsers collate db)).

End Lists.

Section CreateUser.

(** [insertUserSchema.parse(req.body)]: the schema is generated from the
    table by a library, so the parser of a request body is a parameter. *)
Variable Body : Type.
Variable insertUserSchema_parse : Body -> Result InsertUser.t.

(** POST /api/users *)
Definition postUser (now : Z) (db : Db) (session : Session) (body : Body)
  : Db * Response User.t :=
  match
    isAuthenticated session (fun _ => isAdmin db session (Json tt))
  with
  | Status code message => (db, Status code message)
  | Json _ =>
      match insertUserSchema_parse body with
      | Throws _ => (db, Status 400 "Invalid data")
      | Returns userData =>
          let (db', user) := createUser now db userData in
          (db', respond "Failed to create user" user)
      end
  end.

End CreateUser.

End Api.

(* ================================================================== *)
(** * client/src/pages/landing.tsx: the CPF field *)
(* ================================================================== *)

Module Cpf.

Definition isDigit (c : ascii) : bool :=
  let n := N_of_ascii c in ((48 <=? n) && (n <=? 57))%N.

(** [s.replace(/\D/g, '')] *)
Fixpoint removeNonDigits (s : string) : string :=
  match s with
  | String c s' =>
      if isDigit c then String c (removeNonDigits s') else removeNonDigits s'
  | EmptyString => EmptyString
  end.

(** [s.slice(from)] and [s.slice(from, to)] for indices within the text
    or past its end. *)
Definition sliceFrom (from : nat) (s : string) : string :=
  substring from (String.length s - from) s.

Definition slice (from to : nat) (s : string) : string :=
  substring from (to - from) s.

End Cpf.

(** The login page. *)
Module Landing.

Import Cpf.

Definition formatCPF (value : string) : string :=
  let cleaned := removeNonDigits value in
  let truncated := slice 0 11 cleaned in
  if (String.length truncated <=? 3)%nat then truncated
  else if (String.length truncated <=? 6)%nat then
    slice 0 3 truncated ++ "." ++ sliceFrom 3 truncated
  else if (String.length truncated <=? 9)%nat then
    slice 0 3 truncated ++ "." ++ slice 3 6 truncated ++ "."
    ++ sliceFrom 6 truncated
  else
    slice 0 3 truncated ++ "." ++ slice 3 6 truncated ++ "."
    ++ slice 6 9 truncated ++ "-" ++ sliceFrom 9 truncated.

Definition getCleanCPF (formattedCPF : string) : string :=
  removeNonDigits formattedCPF.

End Landing.

(** The administrator's page. *)
Module AdminDashboard.

Import Cpf.

(** Whether the text starts with [n] digits. *)
Fixpoint startsWithDigits (n : nat) (s : string) : bool :=
  match n with
  | O => true
  | S n' =>
      match s with
      | String c s' => isDigit c && startsWithDigits n' s'
      | EmptyString => false
      end
  end.

(** [cpf.replace(/(\d{3})(\d{3})(\d{3})(\d{2})/, '$1.$2.$3-$4')]: the
    leftmost run of eleven digits is rewritten, the rest is kept. *)
Fixpoint formatCPF (cpf : string) : string :=
  if startsWithDigits 11 cpf then
    slice 0 3 cpf ++ "." ++ slice 3 6 cpf ++ "." ++ slice 6 9 cpf ++ "-"
    ++ slice 9 11 cpf ++ sliceFrom 11 cpf
  else
    match cpf with
    | String c rest => String c (formatCPF rest)
    | EmptyString => EmptyString
    end.

End AdminDashboard.

(** ** Vocabulary of the further properties *)

(** A database as the server builds it from an empty one: the
    constraints of the schema hold, and the primary keys were drawn from the
    sequences (which start at 1). *)
Record Consistent (db : Storage.Db) : Prop := mkConsistent {
  user_ids_unique : NoDup (map User.id (Storage.users db));
  user_ids_issued :
    Forall (fun u => 0 < User.id u < Storage.users_id_seq db) (Storage.users db);
  users_id_seq_positive : 0 < Storage.users_id_seq db;
  cpfs_unique : NoDup (map User.cpf (Storage.users db));
  record_ids_unique : NoDup (map WeightRecord.id (Storage.weightRecords db));
  record_ids_issued :
    Forall (fun r => WeightRecord.id r < Storage.weight_records_id_seq db)
           (Storage.weightRecords db);
  records_have_users :
    Forall (fun r => In (WeightRecord.userId r) (map User.id (Storage.users db)) /\
                     In (WeightRecord.createdBy r) (map User.id (Storage.users db)))
           (Storage.weightRecords db)
}.

(** The constraints that the schema declares, which the database checks
    at every write: the two primary keys, the [unique] identifier and the two
    foreign keys. *)
Definition Constrained (db : Storage.Db) : Prop :=
  NoDup (map User.id (Storage.users db)) /\
  NoDup (map User.cpf (Storage.users db)) /\
  NoDup (map WeightRecord.id (Storage.weightRecords db)) /\
  Forall (fun r => In (WeightRecord.userId r) (map User.id (Storage.users db)) /\
                   In (WeightRecord.createdBy r) (map User.id (Storage.users db)))
         (Storage.weightRecords db).

(** The session is bound to a stored user whose admin flag is true. *)
Definition adminSession (db : Storage.Db) (session : Routes.Session) : Prop :=
  exists id user,
    Routes.userId session = Some id /\ id <> 0 /\
    Storage.getUser db id = Some user /\ User.isAdmin user = Some true.

(** The two answers of the middleware. *)
Definition refused {A : Type} (response : Routes.Response A) : Prop :=
  response = Routes.Status 401 "Unauthorized" \/
  response = Routes.Status 403 "Admin access required".

(* ================================================================== *)
(** * Facts about the query building blocks *)
(* ================================================================== *)

Section OrderByFacts.
Context {A : Type} (leb : A -> A -> bool).

Let R (a b : A) : Prop := leb a b = true.

Lemma insertSorted_perm (x : A) (l : list A) :
  Permutation (x :: l) (Sql.insertSorted leb x l).
Proof.
  induction l as [|y l IH]; simpl.
  - apply Permutation_refl.
  - destruct (leb x y).
    + apply Permutation_refl.
    + eapply perm_trans; [apply perm_swap|].
      apply perm_skip, IH.
Qed.

Lemma orderBy_perm (l : list A) : Permutation l (Sql.orderBy leb l).
Proof.
  induction l as [|x l IH]; simpl.
  - apply perm_nil.
  - eapply perm_trans; [apply perm_skip, IH|].
    apply insertSorted_perm.
Qed.

Lemma orderBy_In (x : A) (l : list A) : In x (Sql.orderBy leb l) <-> In x l.
Proof.
  split; apply Permutation_in;
    [apply Permutation_sym|]; apply orderBy_perm.
Qed.

Lemma orderBy_length (l : list A) : List.length (Sql.orderBy leb l)  = List.length l.
Proof. symmetry. apply Permutation_length, orderBy_perm. Qed.

Lemma orderBy_nil_iff (l : list A) : Sql.orderBy leb l = [] <-> l = [].
Proof.
  split; intro H.
  - apply length_zero_iff_nil. rewrite <- orderBy_length, H. reflexivity.
  - subst. reflexivity.
Qed.

Hypothesis leb_total : forall a b, leb a b = true \/ leb b a = true.
Hypothesis leb_trans : forall a b c, R a b -> R b c -> R a c.

Lemma insertSorted_sorted (x : A) (l : list A) :
  StronglySorted R l -> StronglySorted R (Sql.insertSorted leb x l).
Proof.
  induction 1 as [|y l Hl IH Hy]; simpl.
  - repeat constructor.
  - destruct (leb x y) eqn:E.
    + constructor.
      * constructor; assumption.
      * constructor; [exact E|].
        eapply Forall_impl; [|exact Hy].
        intros z Hz. eapply leb_trans; [exact E|exact Hz].
    + constructor; [exact IH|].
      assert (Hyx : R y x).
      { destruct (leb_total x y) as [H|H]; [congruence|exact H]. }
      eapply Permutation_Forall; [apply insertSorted_perm|].
      constructor; assumption.
Qed.

Lemma orderBy_sorted (l : list A) : StronglySorted R (Sql.orderBy leb l).
Proof.
  induction l as [|x l IH]; simpl.
  - constructor.
  - apply insertSorted_sorted, IH.
Qed.
End OrderByFacts.

(** Sorting on a key commutes with reading the key. *)
Lemma orderBy_map {A B : Type} (f : A -> B) (lebA : A -> A -> bool)
      (lebB : B -> B -> bool) (l : list A) :
  (forall a b, lebA a b = lebB (f a) (f b)) ->
  map f (Sql.orderBy lebA l) = Sql.orderBy lebB (map f l).
Proof.
  intro H.
  assert (Hins : forall x l, map f (Sql.insertSorted lebA x l)
                             = Sql.insertSorted lebB (f x) (map f l)).
  { intros x l0. induction l0 as [|y l0 IH]; simpl; [reflexivity|].
    rewrite <- H. destruct (lebA x y); simpl; [reflexivity|].
    now rewrite IH. }
  induction l as [|x l IH]; simpl; [reflexivity|].
  now rewrite Hins, IH.
Qed.

Lemma filter_length_perm {A : Type} (f : A -> bool) (l l' : list A) :
  Permutation l l' -> List.length (filter f l) = List.length (filter f l').
Proof.
  induction 1; simpl; try congruence.
  - destruct (f x); simpl; congruence.
  - destruct (f x), (f y); reflexivity.
Qed.

Lemma filter_filter {A : Type} (f g : A -> bool) (l : list A) :
  filter f (filter g l) = filter (fun x => g x && f x) l.
Proof.
  induction l as [|x l IH]; simpl; [reflexivity|].
  destruct (g x); simpl; [destruct (f x)|]; now rewrite IH.
Qed.

(** ** The order of date strings *)

Module StringOrder.

Lemma compare_refl (s : string) : String.compare s s = Eq.
Proof. now apply String_as_OT.cmp_eq. Qed.

Lemma compare_gt_lt (a b : string) :
  String.compare a b = Gt -> String.compare b a = Lt.
Proof.
  intro H. rewrite String.compare_antisym, H. reflexivity.
Qed.

Lemma compare_lt_trans (a b c : string) :
  String.compare a b = Lt -> String.compare b c = Lt -> String.compare a c = Lt.
Proof.
  intros H1 H2.
  apply String_as_OT.cmp_lt.
  apply String_as_OT.cmp_lt in H1. apply String_as_OT.cmp_lt in H2.
  eapply String_as_OT.lt_trans; eassumption.
Qed.

Lemma leb_trans (a b c : string) :
  String.leb a b = true -> String.leb b c = true -> String.leb a c = true.
Proof.
  unfold String.leb. intros H1 H2.
  destruct (String.compare a b) eqn:Eab; try discriminate;
    destruct (String.compare b c) eqn:Ebc; try discriminate.
  - apply String.compare_eq_iff in Eab. subst. now rewrite Ebc.
  - apply String.compare_eq_iff in Eab. subst. now rewrite Ebc.
  - apply String.compare_eq_iff in Ebc. subst. now rewrite Eab.
  - now rewrite (compare_lt_trans _ _ _ Eab Ebc).
Qed.

Lemma leb_refl (a : string) : String.leb a a = true.
Proof. unfold String.leb. now rewrite compare_refl. Qed.

Lemma ltb_leb (a b : string) : String.ltb a b = true -> String.leb a b = true.
Proof.
  unfold String.ltb, String.leb. now destruct (String.compare a b).
Qed.

Lemma leb_neq_ltb (a b : string) :
  String.leb a b = true -> a <> b -> String.ltb a b = true.
Proof.
  unfold String.ltb, String.leb. intros H Hne.
  destruct (String.compare a b) eqn:E; try discriminate; [|reflexivity].
  apply String.compare_eq_iff in E. contradiction.
Qed.

Lemma ltb_trans (a b c : string) :
  String.ltb a b = true -> String.ltb b c = true -> String.ltb a c = true.
Proof.
  unfold String.ltb. intros H1 H2.
  destruct (String.compare a b) eqn:Eab; try discriminate.
  destruct (String.compare b c) eqn:Ebc; try discriminate.
  now rewrite (compare_lt_trans _ _ _ Eab Ebc).
Qed.

Lemma ltb_irrefl (a : string) : String.ltb a a = false.
Proof. unfold String.ltb. now rewrite compare_refl. Qed.

Lemma ltb_false_leb (a b : string) : String.ltb a b = false -> String.leb b a = true.
Proof.
  unfold String.ltb, String.leb. rewrite (String.compare_antisym a b).
  now destruct (String.compare b a).
Qed.
End StringOrder.

(** ** The order of the dates *)

Module DateOrder.

Lemma dateCompare_refl (a : string) : Sql.dateCompare a a = Eq.
Proof.
  unfold Sql.dateCompare. now rewrite Z.compare_refl, StringOrder.compare_refl.
Qed.

Lemma dateCompare_antisym (a b : string) :
  Sql.dateCompare b a = CompOpp (Sql.dateCompare a b).
Proof.
  unfold Sql.dateCompare.
  rewrite (Z.compare_antisym (fst (Sql.dateKey a)) (fst (Sql.dateKey b))).
  rewrite (String.compare_antisym (snd (Sql.dateKey b)) (snd (Sql.dateKey a))).
  now destruct (fst (Sql.dateKey a) ?= fst (Sql.dateKey b)).
Qed.







Lemma dateLeb_total (a b : string) :
  Sql.dateLeb a b = true \/ Sql.dateLeb b a = true.
Proof.
  unfold Sql.dateLeb. rewrite (dateCompare_antisym a b).
  destruct (Sql.dateCompare a b); simpl; auto.
Qed.



End DateOrder.

(* ================================================================== *)
(** * Facts about time values and the calendar *)
(* ================================================================== *)

Module Calendar.

Ltac div_lia := Z.to_euclidean_division_equations; lia.

#[local] Arguments DayFromYear : simpl never.
#[local] Arguments isLeapYear : simpl never.
#[local] Arguments DaysInYear : simpl never.

Lemma isLeapYear_cases (y : Z) :
  (isLeapYear y = true /\ DaysInYear y = 366) \/
  (isLeapYear y = false /\ DaysInYear y = 365).
Proof. unfold DaysInYear. destruct (isLeapYear y); auto. Qed.

Lemma DayFromYear_succ (y : Z) :
  DayFromYear (y + 1) = DayFromYear y + DaysInYear y.
Proof.
  unfold DayFromYear, DaysInYear, isLeapYear.
  destruct (Z.eqb_spec (y mod 4) 0); cbn [negb]; [|div_lia].
  destruct (Z.eqb_spec (y mod 100) 0); cbn [negb]; [|div_lia].
  destruct (Z.eqb_spec (y mod 400) 0); cbn [negb]; div_lia.
Qed.

Lemma DayFromYear_mono (a b : Z) : a <= b -> DayFromYear a <= DayFromYear b.
Proof. unfold DayFromYear. intro H. div_lia. Qed.

(** [YearFromDay d] is the largest year that starts on or before day [d]. *)
Lemma YearFromDay_spec (d : Z) :
  DayFromYear (YearFromDay d) <= d < DayFromYear (YearFromDay d + 1).
Proof.
  unfold YearFromDay.
  set (y := 1970 + (400 * d) / 146097).
  assert (H1 : DayFromYear (y - 1) <= d) by (unfold DayFromYear, y; div_lia).
  assert (H2 : d < DayFromYear (y + 2)) by (unfold DayFromYear, y; div_lia).
  destruct (Z.leb_spec (DayFromYear (y + 1)) d).
  - replace (y + 1 + 1) with (y + 2) by lia. lia.
  - destruct (Z.leb_spec (DayFromYear y) d).
    + lia.
    + replace (y - 1 + 1) with y by lia. lia.
Qed.

Lemma YearFromDay_unique (d y : Z) :
  DayFromYear y <= d < DayFromYear (y + 1) -> YearFromDay d = y.
Proof.
  intros [Hlo Hhi].
  pose proof (YearFromDay_spec d) as [Hlo' Hhi'].
  destruct (Z.lt_trichotomy (YearFromDay d) y) as [Hlt|[Heq|Hgt]]; [|exact Heq|].
  - pose proof (DayFromYear_mono (YearFromDay d + 1) y). lia.
  - pose proof (DayFromYear_mono (y + 1) (YearFromDay d)). lia.
Qed.

Lemma Day_MakeDate (d r : Z) :
  0 <= r < msPerDay -> Day (MakeDate d r) = d.
Proof. unfold Day, MakeDate, msPerDay. intro H. div_lia. Qed.

Lemma DayWithinYear_bounds (t : Z) :
  0 <= DayWithinYear t < DaysInYear (YearFromTime t).
Proof.
  unfold DayWithinYear, YearFromTime.
  pose proof (YearFromDay_spec (Day t)) as H.
  rewrite DayFromYear_succ in H. lia.
Qed.

Lemma month_cases (mn : Z) :
  0 <= mn <= 11 ->
  mn = 0 \/ mn = 1 \/ mn = 2 \/ mn = 3 \/ mn = 4 \/ mn = 5 \/
  mn = 6 \/ mn = 7 \/ mn = 8 \/ mn = 9 \/ mn = 10 \/ mn = 11.
Proof. lia. Qed.

Lemma MonthFromTime_range (t : Z) : 0 <= MonthFromTime t <= 11.
Proof.
  unfold MonthFromTime.
  repeat match goal with
         | |- context [if ?c then _ else _] => destruct c
         end; lia.
Qed.

(** The fields read back from a time value on day [MakeDay y mn dt]. *)
Lemma fields_of_MakeDay (y mn dt r : Z) :
  0 <= mn <= 11 -> 1 <= dt <= daysInMonth y (mn + 1) -> 0 <= r < msPerDay ->
  let t := MakeDate (MakeDay y mn dt) r in
  YearFromTime t = y /\ MonthFromTime t = mn /\ DateFromTime t = dt.
Proof.
  intros Hmn Hdt Hr t.
  assert (Hday : Day t = DayFromYear y + monthStart (isLeapYear y) mn + dt - 1).
  { unfold t. rewrite Day_MakeDate by exact Hr. unfold MakeDay.
    replace (mn / 12) with 0 by div_lia.
    replace (mn mod 12) with mn by div_lia.
    now rewrite Z.add_0_r. }
  assert (Hyear : YearFromTime t = y).
  { unfold YearFromTime. apply YearFromDay_unique.
    rewrite DayFromYear_succ, Hday.
    destruct (isLeapYear_cases y) as [[El ->]|[El ->]]; rewrite El;
      destruct (month_cases mn Hmn) as
        [->|[->|[->|[->|[->|[->|[->|[->|[->|[->|[->| ->]]]]]]]]]]];
      cbn [daysInMonth monthStart Z.add Pos.add Pos.succ] in Hdt |- *;
      rewrite ?El in Hdt; lia. }
  assert (Hwithin : DayWithinYear t = monthStart (isLeapYear y) mn + dt - 1).
  { unfold DayWithinYear. rewrite Hyear, Hday. lia. }
  split; [exact Hyear|].
  unfold DateFromTime, MonthFromTime, InLeapYear.
  rewrite Hwithin, Hyear.
  destruct (isLeapYear y) eqn:Eleap;
    destruct (month_cases mn Hmn) as
      [->|[->|[->|[->|[->|[->|[->|[->|[->|[->|[->| ->]]]]]]]]]]];
    unfold daysInMonth in Hdt; cbn in Hdt; rewrite ?Eleap in Hdt; cbn [monthStart];
    repeat match goal with
           | |- context [?a <? ?b] => destruct (Z.ltb_spec a b); try lia
           end; split; lia.
Qed.

(** Conversely the fields of any time value rebuild its day. *)
Lemma MakeDay_of_fields (t : Z) :
  MakeDay (YearFromTime t) (MonthFromTime t) (DateFromTime t) = Day t /\
  1 <= DateFromTime t <= daysInMonth (YearFromTime t) (MonthFromTime t + 1).
Proof.
  pose proof (DayWithinYear_bounds t) as Hb.
  pose proof (MonthFromTime_range t) as Hm.
  unfold MakeDay.
  replace (MonthFromTime t / 12) with 0 by div_lia.
  replace (MonthFromTime t mod 12) with (MonthFromTime t) by div_lia.
  rewrite Z.add_0_r.
  assert (Hday : Day t = DayFromYear (YearFromTime t) + DayWithinYear t)
    by (unfold DayWithinYear; lia).
  rewrite Hday. clear Hday Hm.
  unfold DateFromTime, MonthFromTime, InLeapYear, DaysInYear in *.
  destruct (isLeapYear (YearFromTime t)) eqn:Eleap;
    repeat match goal with
           | |- context [?a <? ?b] => destruct (Z.ltb_spec a b)
           end; cbn; rewrite ?Eleap; lia.
Qed.

(** Day 0 of a month is the last day of the month before. *)
Lemma MakeDay_day_0 (y m : Z) :
  1 <= m <= 12 -> MakeDay y m 0 = MakeDay y (m - 1) (daysInMonth y m).
Proof.
  intro Hm. unfold MakeDay.
  destruct (Z.eq_dec m 12) as [->|Hne].
  - change (12 / 12) with 1. change (12 mod 12) with 0.
    change ((12 - 1) / 12) with 0. change ((12 - 1) mod 12) with 11.
    rewrite DayFromYear_succ, !Z.add_0_r.
    destruct (isLeapYear_cases y) as [[-> ->]|[-> ->]];
      destruct (isLeapYear (y + 1)); cbn [monthStart daysInMonth]; lia.
  - replace (m / 12) with 0 by div_lia.
    replace (m mod 12) with m by div_lia.
    replace ((m - 1) / 12) with 0 by div_lia.
    replace ((m - 1) mod 12) with (m - 1) by div_lia.
    rewrite !Z.add_0_r.
    assert (Hc : m = 1 \/ m = 2 \/ m = 3 \/ m = 4 \/ m = 5 \/ m = 6 \/
                 m = 7 \/ m = 8 \/ m = 9 \/ m = 10 \/ m = 11) by lia.
    destruct (isLeapYear y) eqn:El;
      destruct Hc as [->|[->|[->|[->|[->|[->|[->|[->|[->|[->| ->]]]]]]]]]];
      cbn; rewrite ?El; lia.
Qed.

Lemma daysInMonth_range (y m : Z) : 28 <= daysInMonth y m <= 31.
Proof.
  unfold daysInMonth.
  destruct (isLeapYear y);
    repeat match goal with
           | |- context [match ?x with _ => _ end] => destruct x
           end; lia.
Qed.

End Calendar.

(** ** The order of ISO date texts *)

Module IsoOrder.

Lemma compare_cons (a b : ascii) (s s' : string) :
  String.compare (String a s) (String b s')
  = thenCompare (Ascii.compare a b) (String.compare s s').
Proof. simpl. now destruct (Ascii.compare a b). Qed.

Lemma compare_digit (a b : Z) :
  Ascii.compare (digit a) (digit b) = (a mod 10 ?= b mod 10).
Proof.
  unfold Ascii.compare, digit.
  pose proof (Z.mod_pos_bound a 10 ltac:(lia)) as Ha.
  pose proof (Z.mod_pos_bound b 10 ltac:(lia)) as Hb.
  rewrite !N_ascii_embedding by lia.
  rewrite Z2N.inj_compare by lia.
  apply Z.add_compare_mono_l.
Qed.

Lemma append_assoc (a b c : string) : ((a ++ b) ++ c = a ++ (b ++ c))%string.
Proof. induction a as [|x a IH]; simpl; [reflexivity|now rewrite IH]. Qed.

(** Numbers written on the same number of digits compare as their texts. *)
Lemma compare_padded (w : nat) (a b : Z) (s s' : string) :
  0 <= a < 10 ^ Z.of_nat w -> 0 <= b < 10 ^ Z.of_nat w ->
  String.compare (padded w a ++ s) (padded w b ++ s')
  = thenCompare (a ?= b) (String.compare s s').
Proof.
  revert a b s s'. induction w as [|w IH]; intros a b s s' Ha Hb.
  - simpl in *. replace a with 0 by lia. replace b with 0 by lia. reflexivity.
  - rewrite Nat2Z.inj_succ, Z.pow_succ_r in Ha, Hb by lia.
    simpl padded. rewrite !append_assoc. simpl append.
    rewrite IH by (Calendar.div_lia).
    rewrite compare_cons, compare_digit.
    destruct (Z.compare_spec (a / 10) (b / 10)) as [E|E|E];
      destruct (Z.compare_spec (a mod 10) (b mod 10)) as [E'|E'|E'];
      destruct (Z.compare_spec a b) as [E''|E''|E'']; simpl; try reflexivity;
      exfalso; Calendar.div_lia.
Qed.

Lemma append_nil_r (a : string) : (a ++ "")%string = a.
Proof. induction a as [|x a IH]; simpl; [reflexivity|now rewrite IH]. Qed.

(** For four-digit years the ISO texts of two dates compare as the dates. *)
Lemma compare_isoDate (y m d y' m' d' : Z) :
  0 <= y <= 9999 -> 0 <= y' <= 9999 ->
  0 <= m <= 99 -> 0 <= m' <= 99 -> 0 <= d <= 99 -> 0 <= d' <= 99 ->
  String.compare (isoDate y m d) (isoDate y' m' d')
  = thenCompare (y ?= y') (thenCompare (m ?= m') (d ?= d')).
Proof.
  intros Hy Hy' Hm Hm' Hd Hd'. unfold isoDate, isoYear.
  replace ((0 <=? y) && (y <=? 9999)) with true
    by (symmetry; apply andb_true_iff; split; apply Z.leb_le; lia).
  replace ((0 <=? y') && (y' <=? 9999)) with true
    by (symmetry; apply andb_true_iff; split; apply Z.leb_le; lia).
  rewrite compare_padded by (simpl; lia). f_equal.
  change ("-" ++ ?s)%string with (String "-" s).
  rewrite compare_cons. change (Ascii.compare "-" "-") with Eq. cbn [thenCompare].
  rewrite compare_padded by (simpl; lia). f_equal.
  change ("-" ++ ?s)%string with (String "-" s).
  rewrite compare_cons. change (Ascii.compare "-" "-") with Eq. cbn [thenCompare].
  rewrite <- (append_nil_r (padded 2 d)), <- (append_nil_r (padded 2 d')).
  rewrite compare_padded by (simpl; lia).
  now destruct (d ?= d').
Qed.

Lemma leb_isoDate (y m d y' m' d' : Z) :
  0 <= y <= 9999 -> 0 <= y' <= 9999 ->
  0 <= m <= 99 -> 0 <= m' <= 99 -> 0 <= d <= 99 -> 0 <= d' <= 99 ->
  String.leb (isoDate y m d) (isoDate y' m' d') = true
  <-> (y < y' \/ (y = y' /\ (m < m' \/ (m = m' /\ d <= d')))).
Proof.
  intros Hy Hy' Hm Hm' Hd Hd'. unfold String.leb.
  rewrite compare_isoDate by assumption.
  destruct (Z.compare_spec y y'); destruct (Z.compare_spec m m');
    destruct (Z.compare_spec d d'); simpl; split; intro Hle;
    try reflexivity; try discriminate; lia.
Qed.

Lemma isoDate_inj (y m d y' m' d' : Z) :
  0 <= y <= 9999 -> 0 <= y' <= 9999 ->
  0 <= m <= 99 -> 0 <= m' <= 99 -> 0 <= d <= 99 -> 0 <= d' <= 99 ->
  isoDate y m d = isoDate y' m' d' -> y = y' /\ m = m' /\ d = d'.
Proof.
  intros Hy Hy' Hm Hm' Hd Hd' E.
  pose proof (compare_isoDate y m d y' m' d' Hy Hy' Hm Hm' Hd Hd') as Hc.
  rewrite E, StringOrder.compare_refl in Hc.
  destruct (Z.compare_spec y y'); destruct (Z.compare_spec m m');
    destruct (Z.compare_spec d d'); simpl in Hc; try discriminate; auto.
Qed.

End IsoOrder.

(** ** Date parameters *)

Module DateParam.
Import Calendar.

Lemma dateParam_inv (s s' : string) :
  Sql.dateParam s = Returns s' ->
  s' = s /\ String.leb "0001-01-01" s = true /\ String.leb s "9999-12-31" = true.
Proof.
  unfold Sql.dateParam.
  destruct (String.leb "0001-01-01" s) eqn:E1; [|discriminate].
  destruct (String.leb s "9999-12-31") eqn:E2; [|discriminate].
  simpl. intro H. injection H as <-. auto.
Qed.

Lemma dateParam_accepted (s : string) :
  String.leb "0001-01-01" s = true -> String.leb s "9999-12-31" = true ->
  Sql.dateParam s = Returns s.
Proof. intros E1 E2. unfold Sql.dateParam. now rewrite E1, E2. Qed.

(** The text of a date is accepted exactly when its year is one of 0001
    to 9999. *)
Lemma dateParam_isoDate (y m d : Z) :
  1 <= m <= 12 -> 1 <= d <= 31 ->
  Sql.dateParam (isoDate y m d)
  = if (1 <=? y) && (y <=? 9999) then Returns (isoDate y m d)
    else Throws DatabaseError.
Proof.
  intros Hm Hd. unfold Sql.dateParam.
  destruct (Z_lt_le_dec y 0) as [H0|H0]; [|destruct (Z_lt_le_dec 9999 y) as [H9|H9]].
  - replace ((1 <=? y) && (y <=? 9999)) with false
      by (symmetry; apply andb_false_iff; left; apply Z.leb_gt; lia).
    unfold isoDate, isoYear.
    replace ((0 <=? y) && (y <=? 9999)) with false
      by (symmetry; apply andb_false_iff; left; apply Z.leb_gt; lia).
    replace (y <? 0) with true by (symmetry; apply Z.ltb_lt; lia).
    change (("-" ++ ?a) ++ ?b)%string with (String "-" (a ++ b)).
    unfold String.leb at 1. rewrite IsoOrder.compare_cons. reflexivity.
  - replace ((1 <=? y) && (y <=? 9999)) with false
      by (symmetry; apply andb_false_iff; right; apply Z.leb_gt; lia).
    unfold isoDate, isoYear.
    replace ((0 <=? y) && (y <=? 9999)) with false
      by (symmetry; apply andb_false_iff; right; apply Z.leb_gt; lia).
    replace (y <? 0) with false by (symmetry; apply Z.ltb_ge; lia).
    change (("+" ++ ?a) ++ ?b)%string with (String "+" (a ++ b)).
    unfold String.leb at 1. rewrite IsoOrder.compare_cons. reflexivity.
  - change "0001-01-01" with (isoDate 1 1 1).
    change "9999-12-31" with (isoDate 9999 12 31).
    assert (Hhi : String.leb (isoDate y m d) (isoDate 9999 12 31) = true)
      by (apply IsoOrder.leb_isoDate; lia).
    rewrite Hhi, andb_true_r.
    replace (y <=? 9999) with true by (symmetry; apply Z.leb_le; lia).
    rewrite andb_true_r.
    destruct (Z.leb_spec 1 y) as [H1|H1].
    + assert (Hlo : String.leb (isoDate 1 1 1) (isoDate y m d) = true)
        by (apply IsoOrder.leb_isoDate; lia).
      now rewrite Hlo.
    + destruct (String.leb (isoDate 1 1 1) (isoDate y m d)) eqn:Hlo; [|reflexivity].
      apply IsoOrder.leb_isoDate in Hlo; lia.
Qed.

(** The date of a time value, as [toISODate] renders it. *)
Lemma dateParam_of_time (t : Z) :
  Sql.dateParam (isoDate (YearFromTime t) (MonthFromTime t + 1) (DateFromTime t))
  = if (1 <=? YearFromTime t) && (YearFromTime t <=? 9999)
    then Returns (isoDate (YearFromTime t) (MonthFromTime t + 1) (DateFromTime t))
    else Throws DatabaseError.
Proof.
  pose proof (MonthFromTime_range t) as Hm.
  pose proof (MakeDay_of_fields t) as [_ Hd].
  apply dateParam_isoDate; [lia|].
  assert (daysInMonth (YearFromTime t) (MonthFromTime t + 1) <= 31); [|lia].
  unfold daysInMonth.
  generalize (MonthFromTime t + 1), (isLeapYear (YearFromTime t)).
  intros mo leap.
  repeat match goal with
         | |- context [match ?x with _ => _ end] => destruct x
         end; lia.
Qed.

End DateParam.

(** ** The two orders on the texts of dates
    On the texts of the years 0000 to 9999 the order of the dates is the
    order of the characters. *)

Module IsoDates.
Import Calendar.

Lemma leadingNumber_digit (n : Z) (s : string) (acc : Z) :
  Sql.leadingNumber (String (digit n) s) acc
  = Sql.leadingNumber s (acc * 10 + n mod 10).
Proof.
  pose proof (Z.mod_pos_bound n 10 ltac:(lia)) as Hn.
  cbn [Sql.leadingNumber]. unfold Sql.isDigitChar, digit.
  rewrite !N_ascii_embedding by lia.
  replace ((48 <=? Z.to_N (48 + n mod 10))%N && (Z.to_N (48 + n mod 10) <=? 57)%N)
    with true
    by (symmetry; apply andb_true_iff; split; apply N.leb_le; lia).
  f_equal. lia.
Qed.

Lemma dateKey_isoDate (y m d : Z) :
  0 <= y <= 9999 ->
  Sql.dateKey (isoDate y m d)
  = (y, ("-" ++ padded 2 m ++ "-" ++ padded 2 d)%string).
Proof.
  intro Hy. unfold isoDate, isoYear.
  replace ((0 <=? y) && (y <=? 9999)) with true
    by (symmetry; apply andb_true_iff; split; apply Z.leb_le; lia).
  cbn [padded append]. unfold Sql.dateKey.
  rewrite !leadingNumber_digit.
  change (Sql.leadingNumber (String "-" ?s) ?a) with (a, String "-" s).
  replace (Sql.beforeCommonEra _) with false by reflexivity.
  f_equal. div_lia.
Qed.

Lemma dateCompare_isoDate (y m d y' m' d' : Z) :
  0 <= y <= 9999 -> 0 <= y' <= 9999 ->
  0 <= m <= 99 -> 0 <= m' <= 99 -> 0 <= d <= 99 -> 0 <= d' <= 99 ->
  Sql.dateCompare (isoDate y m d) (isoDate y' m' d')
  = String.compare (isoDate y m d) (isoDate y' m' d').
Proof.
  intros Hy Hy' Hm Hm' Hd Hd'.
  rewrite IsoOrder.compare_isoDate by assumption.
  unfold Sql.dateCompare. rewrite !dateKey_isoDate by assumption.
  cbn [fst snd].
  change ("-" ++ ?s)%string with (String "-" s).
  rewrite IsoOrder.compare_cons. change (Ascii.compare "-" "-") with Eq.
  cbn [thenCompare].
  rewrite IsoOrder.compare_padded by (simpl; lia).
  change ("-" ++ ?s)%string with (String "-" s).
  rewrite IsoOrder.compare_cons. change (Ascii.compare "-" "-") with Eq.
  cbn [thenCompare].
  rewrite <- (IsoOrder.append_nil_r (padded 2 d)),
    <- (IsoOrder.append_nil_r (padded 2 d')).
  rewrite IsoOrder.compare_padded by (simpl; lia).
  destruct (y ?= y'), (m ?= m'), (d ?= d'); reflexivity.
Qed.

Lemma dateLeb_isoText (a b : string) :
  isoText a -> isoText b -> Sql.dateLeb a b = String.leb a b.
Proof.
  intros (y & m & d & Hy & Hm & Hd & ->) (y' & m' & d' & Hy' & Hm' & Hd' & ->).
  unfold Sql.dateLeb, String.leb. now rewrite dateCompare_isoDate.
Qed.

(** The text of a date that the database accepts as a parameter. *)
Lemma isoText_of_time (t : Z) (s : string) :
  Sql.dateParam (isoDate (YearFromTime t) (MonthFromTime t + 1) (DateFromTime t))
  = Returns s ->
  isoText s.
Proof.
  rewrite DateParam.dateParam_of_time.
  destruct (Z.leb_spec 1 (YearFromTime t)) as [Y1|Y1]; [|discriminate].
  destruct (Z.leb_spec (YearFromTime t) 9999) as [Y2|Y2]; [|discriminate].
  cbn [andb]. intro E. injection E as <-.
  pose proof (MonthFromTime_range t) as Hm.
  pose proof (MakeDay_of_fields t) as [_ Hd].
  pose proof (daysInMonth_range (YearFromTime t) (MonthFromTime t + 1)).
  exists (YearFromTime t), (MonthFromTime t + 1), (DateFromTime t).
  repeat split; lia.
Qed.

End IsoDates.

(** ** Date objects built from local fields *)

Module LocalDates.
Import Calendar.

Lemma MakeDay_shift (y m d : Z) : MakeDay y m d = MakeDay y m 1 + (d - 1).
Proof. unfold MakeDay. lia. Qed.

Lemma YearFromDay_lower (d : Z) : -1 <= d -> 1969 <= YearFromDay d.
Proof.
  intro H. pose proof (YearFromDay_spec d) as [_ Hhi].
  destruct (Z_lt_le_dec (YearFromDay d) 1969) as [Hlt|Hge]; [|exact Hge].
  pose proof (DayFromYear_mono (YearFromDay d + 1) 1969 ltac:(lia)) as Hm.
  change (DayFromYear 1969) with (-365) in Hm. lia.
Qed.

(** Two-digit years excepted, a date built from a year, a month and a day
    of that month is valid and reads back, in local time, as given. *)
Lemma newDate_local (tza y mn dt : Z) :
  ~ (0 <= y <= 99) -> 0 <= mn <= 11 -> 1 <= dt <= daysInMonth y (mn + 1) ->
  Z.abs (MakeDate (MakeDay y mn dt) 0 - tza) <= 8640000000000000 ->
  exists t, newDate tza (Some y) (Some mn) (Some dt) = Some t /\
            LocalTime tza t = MakeDate (MakeDay y mn dt) 0 /\
            YearFromTime (LocalTime tza t) = y /\
            MonthFromTime (LocalTime tza t) = mn /\
            DateFromTime (LocalTime tza t) = dt.
Proof.
  intros Hy Hmn Hdt Hclip.
  exists (MakeDate (MakeDay y mn dt) 0 - tza).
  assert (Hloc : LocalTime tza (MakeDate (MakeDay y mn dt) 0 - tza)
                 = MakeDate (MakeDay y mn dt) 0) by (unfold LocalTime; lia).
  split; [|split; [exact Hloc|]].
  - unfold newDate, TimeClip, UTC.
    replace ((0 <=? y) && (y <=? 99)) with false by
      (symmetry; apply andb_false_iff;
       destruct (Z.leb_spec 0 y); [right; apply Z.leb_gt; lia|now left]).
    apply Z.leb_le in Hclip. now rewrite Hclip.
  - rewrite Hloc.
    apply (fields_of_MakeDay y mn dt 0 Hmn Hdt). unfold msPerDay. lia.
Qed.

(** The bounds of the current month, as the two summary queries build
    them from the clock. *)
Lemma current_month_bounds (tza now : Z) :
  0 <= now <= 253402300799999 -> - msPerDay < tza < msPerDay ->
  let y := getFullYear tza now in
  let m := getMonth tza now in
  exists t1 t2,
    newDate tza (Some y) (Some m) (Some 1) = Some t1 /\
    newDate tza (Some y) (Some (m + 1)) (Some 0) = Some t2 /\
    getDate tza (Some t2) = Some (daysInMonth y (m + 1)).
Proof.
  intros Hnow Htz y m.
  pose proof (MakeDay_of_fields (LocalTime tza now)) as [Hday Hdate].
  change (YearFromTime (LocalTime tza now)) with y in Hday, Hdate.
  change (MonthFromTime (LocalTime tza now)) with m in Hday, Hdate.
  pose proof (MonthFromTime_range (LocalTime tza now)) as Hm.
  change (MonthFromTime (LocalTime tza now)) with m in Hm.
  pose proof (daysInMonth_range y (m + 1)) as Hdim.
  assert (HD : -1 <= Day (LocalTime tza now) <= 2932897).
  { unfold Day, LocalTime, msPerDay in *. div_lia. }
  assert (Hy : ~ (0 <= y <= 99)).
  { pose proof (YearFromDay_lower (Day (LocalTime tza now)) ltac:(lia)) as Hlow.
    unfold y, getFullYear, YearFromTime. lia. }
  rewrite MakeDay_shift in Hday.
  destruct (newDate_local tza y m 1 Hy Hm) as (t1 & Ht1 & _).
  { lia. }
  { unfold MakeDate, msPerDay in *. lia. }
  destruct (newDate_local tza y m (daysInMonth y (m + 1)) Hy Hm)
    as (t2 & Ht2 & _ & _ & _ & Hd2).
  { lia. }
  { rewrite MakeDay_shift. unfold MakeDate, msPerDay in *. lia. }
  exists t1, t2. split; [exact Ht1|]. split.
  - rewrite <- Ht2. unfold newDate.
    replace (MakeDay (if (0 <=? y) && (y <=? 99) then 1900 + y else y) (m + 1) 0)
      with (MakeDay (if (0 <=? y) && (y <=? 99) then 1900 + y else y) m
                    (daysInMonth y (m + 1))); [reflexivity|].
    replace ((0 <=? y) && (y <=? 99)) with false by
      (symmetry; apply andb_false_iff;
       destruct (Z.leb_spec 0 y); [right; apply Z.leb_gt; lia|now left]).
    rewrite (MakeDay_day_0 y (m + 1)) by lia.
    now replace (m + 1 - 1) with m by lia.
  - unfold getDate. now rewrite Hd2.
Qed.

(** West of Greenwich and on it, local midnight is the same UTC day. *)
Lemma toISODate_local_midnight (tza y mn dt : Z) :
  ~ (0 <= y <= 99) -> -271000 <= y <= 275000 ->
  0 <= mn <= 11 -> 1 <= dt <= daysInMonth y (mn + 1) ->
  - msPerDay < tza <= 0 ->
  toISODate (newDate tza (Some y) (Some mn) (Some dt))
  = Returns (isoDate y (mn + 1) dt).
Proof.
  intros Hy Hrange Hmn Hdt Htz.
  assert (Hbound : -99999999 <= MakeDay y mn dt <= 99999999).
  { unfold MakeDay.
    replace (mn / 12) with 0 by div_lia.
    replace (mn mod 12) with mn by div_lia.
    rewrite Z.add_0_r.
    pose proof (DayFromYear_mono (-271000) y ltac:(lia)) as H1.
    pose proof (DayFromYear_mono y 275000 ltac:(lia)) as H2.
    change (DayFromYear (-271000)) with (-99700245) in H1.
    change (DayFromYear 275000) with 99722160 in H2.
    pose proof (daysInMonth_range y (mn + 1)).
    assert (0 <= monthStart (isLeapYear y) mn <= 335).
    { destruct (isLeapYear y);
        destruct (month_cases mn Hmn) as
          [->|[->|[->|[->|[->|[->|[->|[->|[->|[->|[->| ->]]]]]]]]]]];
        cbn; lia. }
    lia. }
  unfold newDate, TimeClip, UTC.
  replace ((0 <=? y) && (y <=? 99)) with false by
    (symmetry; apply andb_false_iff;
     destruct (Z.leb_spec 0 y); [right; apply Z.leb_gt; lia|now left]).
  replace (Z.abs (MakeDate (MakeDay y mn dt) 0 - tza) <=? 8640000000000000)
    with true by (symmetry; apply Z.leb_le; unfold MakeDate, msPerDay in *; lia).
  unfold toISODate.
  replace (MakeDate (MakeDay y mn dt) 0 - tza)
    with (MakeDate (MakeDay y mn dt) (- tza)) by (unfold MakeDate; lia).
  destruct (fields_of_MakeDay y mn dt (- tza) Hmn Hdt ltac:(lia)) as (-> & -> & ->).
  reflexivity.
Qed.

(** Within the range of time values every date built from fields is valid. *)
Lemma newDate_valid (tza y m dt : Z) :
  -271000 <= y <= 275000 -> 0 <= m <= 12 -> 0 <= dt <= 31 ->
  - msPerDay < tza < msPerDay ->
  exists t, newDate tza (Some y) (Some m) (Some dt) = Some t.
Proof.
  intros Hy Hm Hdt Htz. unfold newDate, TimeClip, UTC.
  set (yr := if (0 <=? y) && (y <=? 99) then 1900 + y else y).
  assert (Hyr : -271000 <= yr <= 275000)
    by (unfold yr; destruct (Z.leb_spec 0 y), (Z.leb_spec y 99); cbn [andb]; lia).
  assert (Hbound : -99800000 <= MakeDay yr m dt <= 99800000).
  { unfold MakeDay.
    assert (Hym : yr <= yr + m / 12 <= yr + 1) by div_lia.
    assert (Hmn : 0 <= m mod 12 <= 11) by div_lia.
    pose proof (DayFromYear_mono (-271000) (yr + m / 12) ltac:(lia)) as H1.
    pose proof (DayFromYear_mono (yr + m / 12) 275001 ltac:(lia)) as H2.
    change (DayFromYear (-271000)) with (-99700245) in H1.
    change (DayFromYear 275001) with 99722525 in H2.
    assert (0 <= monthStart (isLeapYear (yr + m / 12)) (m mod 12) <= 335).
    { destruct (isLeapYear (yr + m / 12));
        destruct (month_cases (m mod 12) Hmn) as
          [->|[->|[->|[->|[->|[->|[->|[->|[->|[->|[->| ->]]]]]]]]]]];
        cbn; lia. }
    lia. }
  replace (Z.abs (MakeDate (MakeDay yr m dt) 0 - tza) <=? 8640000000000000)
    with true by (symmetry; apply Z.leb_le; unfold MakeDate, msPerDay in *; lia).
  eauto.
Qed.

(** East of Greenwich, local midnight falls on the UTC day before. *)
Lemma local_midnight_east_of_utc (tza y mn dt : Z) :
  ~ (0 <= y <= 99) -> -271000 <= y <= 275000 -> 0 <= mn <= 11 -> 0 <= dt <= 31 ->
  0 < tza < msPerDay ->
  exists t, newDate tza (Some y) (Some mn) (Some dt) = Some t /\
            Day t = MakeDay y mn dt - 1.
Proof.
  intros Hy Hrange Hmn Hdt Htz.
  destruct (newDate_valid tza y mn dt) as (t & Ht); try lia.
  exists t. split; [exact Ht|].
  unfold newDate, TimeClip, UTC in Ht.
  replace ((0 <=? y) && (y <=? 99)) with false in Ht by
    (symmetry; apply andb_false_iff;
     destruct (Z.leb_spec 0 y); [right; apply Z.leb_gt; lia|now left]).
  destruct (_ <=? _) in Ht; [|discriminate].
  injection Ht as <-.
  replace (MakeDate (MakeDay y mn dt) 0 - tza)
    with (MakeDate (MakeDay y mn dt - 1) (msPerDay - tza))
    by (unfold MakeDate; lia).
  apply Day_MakeDate. lia.
Qed.

(** ** The years of the bounds of a month *)

Lemma YearFromDay_between (d lo hi : Z) :
  DayFromYear lo <= d < DayFromYear (hi + 1) -> lo <= YearFromDay d <= hi.
Proof.
  intros [Hlo Hhi]. pose proof (YearFromDay_spec d) as [H1 H2].
  split.
  - destruct (Z_lt_le_dec (YearFromDay d) lo) as [H|H]; [|lia].
    pose proof (DayFromYear_mono (YearFromDay d + 1) lo ltac:(lia)). lia.
  - destruct (Z_lt_le_dec hi (YearFromDay d)) as [H|H]; [|lia].
    pose proof (DayFromYear_mono (hi + 1) (YearFromDay d) ltac:(lia)). lia.
Qed.

Lemma monthStart_range (leap : bool) (mn : Z) :
  0 <= mn <= 11 -> 0 <= monthStart leap mn <= 335.
Proof.
  intro H.
  destruct leap;
    destruct (month_cases mn H) as
      [->|[->|[->|[->|[->|[->|[->|[->|[->|[->|[->| ->]]]]]]]]]]];
    cbn; lia.
Qed.

(** The first and the last day of a month are days of its year. *)
Lemma MakeDay_first_within (y mn : Z) :
  0 <= mn <= 11 ->
  DayFromYear y <= MakeDay y mn 1 < DayFromYear (y + 1).
Proof.
  intro Hm. unfold MakeDay.
  replace (mn / 12) with 0 by div_lia.
  replace (mn mod 12) with mn by div_lia.
  rewrite Z.add_0_r.
  pose proof (monthStart_range (isLeapYear y) mn Hm).
  rewrite DayFromYear_succ.
  destruct (isLeapYear_cases y) as [[_ ->]|[_ ->]]; lia.
Qed.

Lemma MakeDay_last_within (y mn : Z) :
  0 <= mn <= 11 ->
  DayFromYear y <= MakeDay y (mn + 1) 0 < DayFromYear (y + 1).
Proof.
  intro Hm. rewrite MakeDay_day_0 by lia.
  replace (mn + 1 - 1) with mn by lia.
  unfold MakeDay.
  replace (mn / 12) with 0 by div_lia.
  replace (mn mod 12) with mn by div_lia.
  rewrite Z.add_0_r, DayFromYear_succ.
  unfold daysInMonth.
  destruct (isLeapYear_cases y) as [[-> ->]|[-> ->]];
    destruct (month_cases mn Hm) as
      [->|[->|[->|[->|[->|[->|[->|[->|[->|[->|[->| ->]]]]]]]]]]];
    cbn; lia.
Qed.

(** Local midnight of a day is, in UTC, that day or the day before. *)
Lemma Day_of_local_midnight (tza d : Z) :
  - msPerDay < tza < msPerDay ->
  d - 1 <= Day (UTC tza (MakeDate d 0)) <= d.
Proof. unfold Day, UTC, MakeDate, msPerDay. intro H. div_lia. Qed.

(** A time value from 1970 to the end of the year 9999 has its year in
    that range, and so has the local date up to a day before 1970. *)
Lemma YearFromTime_of_clock (t : Z) :
  - msPerDay <= t <= 253402300799999 -> 1969 <= YearFromTime t <= 9999.
Proof.
  intro H. unfold YearFromTime. apply YearFromDay_between.
  change (DayFromYear 1969) with (-365).
  change (DayFromYear (9999 + 1)) with 2932897.
  unfold Day, msPerDay in *. div_lia.
Qed.

(** The two bounds of a month of the years 0 to 9999 (a year below 100
    is read as a year of the twentieth century) are valid dates, and their
    dates in UTC are of the years 0001 to 9999. *)
Lemma month_bounds_in_range (tza year mn : Z) :
  0 <= year <= 9999 -> 0 <= mn <= 11 -> - msPerDay < tza < msPerDay ->
  exists t1 t2,
    newDate tza (Some year) (Some mn) (Some 1) = Some t1 /\
    newDate tza (Some year) (Some (mn + 1)) (Some 0) = Some t2 /\
    1 <= YearFromTime t1 <= 9999 /\ 1 <= YearFromTime t2 <= 9999.
Proof.
  intros Hy Hm Htz. unfold newDate.
  set (yr := if (0 <=? year) && (year <=? 99) then 1900 + year else year).
  assert (Hyr : 100 <= yr <= 9999)
    by (unfold yr; destruct (Z.leb_spec 0 year), (Z.leb_spec year 99);
        cbn [andb]; lia).
  clearbody yr.
  pose proof (DayFromYear_mono 100 yr ltac:(lia)) as Hlo.
  pose proof (DayFromYear_mono (yr + 1) 10000 ltac:(lia)) as Hhi.
  change (DayFromYear 100) with (-683003) in Hlo.
  change (DayFromYear 10000) with 2932897 in Hhi.
  pose proof (MakeDay_first_within yr mn Hm) as H1.
  pose proof (MakeDay_last_within yr mn Hm) as H2.
  pose proof (Day_of_local_midnight tza (MakeDay yr mn 1) Htz) as D1.
  pose proof (Day_of_local_midnight tza (MakeDay yr (mn + 1) 0) Htz) as D2.
  exists (UTC tza (MakeDate (MakeDay yr mn 1) 0)),
         (UTC tza (MakeDate (MakeDay yr (mn + 1) 0) 0)).
  split; [|split].
  - unfold TimeClip.
    replace (Z.abs (UTC tza (MakeDate (MakeDay yr mn 1) 0)) <=? 8640000000000000)
      with true; [reflexivity|].
    symmetry; apply Z.leb_le; unfold UTC, MakeDate, msPerDay in *; lia.
  - unfold TimeClip.
    replace (Z.abs (UTC tza (MakeDate (MakeDay yr (mn + 1) 0) 0))
             <=? 8640000000000000)
      with true; [reflexivity|].
    symmetry; apply Z.leb_le; unfold UTC, MakeDate, msPerDay in *; lia.
  - unfold YearFromTime. split; apply YearFromDay_between;
      change (DayFromYear 1) with (-719162);
      change (DayFromYear (9999 + 1)) with 2932897; lia.
Qed.

End LocalDates.

(* ================================================================== *)
(** * Facts about the listing queries *)
(* ================================================================== *)

Lemma StronglySorted_weaken {A : Type} (R R' : A -> A -> Prop) (l : list A) :
  (forall a b, R a b -> R' a b) -> StronglySorted R l -> StronglySorted R' l.
Proof.
  intros HR. induction 1 as [|x l Hl IH Hx]; constructor.
  - exact IH.
  - eapply Forall_impl; [|exact Hx]. intros b. apply HR.
Qed.

Module Listing.
Import Storage.

Lemma descTimestamp_iff (a b : option Z) :
  Sql.descTimestamp a b = true <-> laterOrNull a b.
Proof.
  destruct a as [x|], b as [y|]; simpl; try (intuition (auto; discriminate)).
  apply Z.leb_le.
Qed.

Lemma descTimestamp_total (a b : option Z) :
  Sql.descTimestamp a b = true \/ Sql.descTimestamp b a = true.
Proof.
  destruct a as [x|], b as [y|]; simpl; auto.
  rewrite !Z.leb_le. lia.
Qed.

Lemma descTimestamp_trans (a b c : option Z) :
  Sql.descTimestamp a b = true -> Sql.descTimestamp b c = true ->
  Sql.descTimestamp a c = true.
Proof.
  destruct a as [x|], b as [y|], c as [z|]; simpl; auto; try discriminate.
  rewrite !Z.leb_le. lia.
Qed.

Lemma byCreatedAtDesc_iff (a b : WeightRecord.t) :
  Sql.byCreatedAtDesc a b = true <-> createdAtDescending a b.
Proof. apply descTimestamp_iff. Qed.





Lemma daily_sorted (l : list WeightRecord.t) :
  StronglySorted createdAtDescending (Sql.orderBy Sql.byCreatedAtDesc l).
Proof.
  eapply StronglySorted_weaken;
    [|apply (orderBy_sorted Sql.byCreatedAtDesc)].
  - intros a b. apply byCreatedAtDesc_iff.
  - intros a b. apply descTimestamp_total.
  - intros a b c. apply descTimestamp_trans.
Qed.

(** What the two listing queries return, case by case. *)
Lemma getUserWeightRecords_unbounded (db : Db) (userId : Z) (s e : option Date) :
  s = None \/ e = None ->
  getUserWeightRecords db userId s e
  = if Sql.int4 userId
    then Returns (Sql.orderBy Sql.byDateDescCreatedAtDesc
                    (filter (fun r => WeightRecord.userId r =? userId)
                            (weightRecords db)))
    else Throws DatabaseError.
Proof. intros [->| ->]; [|destruct s]; reflexivity. Qed.


(** With both bounds, the texts of the two dates are the parameters when
    the database accepts them. *)
Lemma getUserWeightRecords_bounded (db : Db) (userId : Z) (s e : Date)
      (lo hi : string) :
  toISODate s = Returns lo -> toISODate e = Returns hi ->
  getUserWeightRecords db userId (Some s) (Some e)
  = if String.leb "0001-01-01" lo && String.leb lo "9999-12-31"
       && (String.leb "0001-01-01" hi && String.leb hi "9999-12-31")
       && Sql.int4 userId
    then Returns
           (Sql.orderBy Sql.byDateDescCreatedAtDesc
              (filter (fun r => (WeightRecord.userId r =? userId)
                                && Sql.gte (WeightRecord.date r) lo
                                && Sql.lte (WeightRecord.date r) hi)
                      (weightRecords db)))
    else Throws DatabaseError.
Proof.
  intros Hs He. unfold getUserWeightRecords. rewrite Hs, He.
  unfold bind, Sql.dateParam.
  destruct (String.leb "0001-01-01" lo && String.leb lo "9999-12-31");
    [|reflexivity].
  destruct (String.leb "0001-01-01" hi && String.leb hi "9999-12-31");
    reflexivity.
Qed.


(** Two dates of the years 0001 to 9999 are bounds that the database
    reads. *)
Lemma getAllWeightRecords_returns (db : Db) (t1 t2 : Z) :
  1 <= YearFromTime t1 <= 9999 -> 1 <= YearFromTime t2 <= 9999 ->
  exists l,
    getAllWeightRecords db (@Some Date (Some t1)) (@Some Date (Some t2))
    = Returns l.
Proof.
  intros Y1 Y2. unfold getAllWeightRecords. cbn [toISODate bind].
  rewrite !DateParam.dateParam_of_time.
  replace ((1 <=? YearFromTime t1) && (YearFromTime t1 <=? 9999)) with true
    by (symmetry; apply andb_true_iff; split; apply Z.leb_le; lia).
  replace ((1 <=? YearFromTime t2) && (YearFromTime t2 <=? 9999)) with true
    by (symmetry; apply andb_true_iff; split; apply Z.leb_le; lia).
  cbn [bind]. eauto.
Qed.

Lemma getUserWeightRecords_returns (db : Db) (userId t1 t2 : Z) :
  Sql.int4 userId = true ->
  1 <= YearFromTime t1 <= 9999 -> 1 <= YearFromTime t2 <= 9999 ->
  exists l,
    getUserWeightRecords db userId (@Some Date (Some t1)) (@Some Date (Some t2))
    = Returns l.
Proof.
  intros Hid Y1 Y2. unfold getUserWeightRecords. cbn [toISODate bind].
  rewrite !DateParam.dateParam_of_time.
  replace ((1 <=? YearFromTime t1) && (YearFromTime t1 <=? 9999)) with true
    by (symmetry; apply andb_true_iff; split; apply Z.leb_le; lia).
  replace ((1 <=? YearFromTime t2) && (YearFromTime t2 <=? 9999)) with true
    by (symmetry; apply andb_true_iff; split; apply Z.leb_le; lia).
  cbn [bind]. rewrite Hid. eauto.
Qed.



(** The rows of a bounded listing are of the user and lie between the
    bounds, which are texts of dates of the years 0001 to 9999. *)
Lemma getUserWeightRecords_between (db : Db) (userId : Z) (s e : Date)
      (lo hi : string) (records : list WeightRecord.t) :
  getUserWeightRecords db userId (Some s) (Some e) = Returns records ->
  toISODate s = Returns lo -> toISODate e = Returns hi ->
  isoText lo /\ isoText hi /\
  Forall (fun r => WeightRecord.userId r = userId /\
                   Sql.gte (WeightRecord.date r) lo = true /\
                   Sql.lte (WeightRecord.date r) hi = true)
         records.
Proof.
  intros Hfetch Hs He. revert Hfetch.
  rewrite (getUserWeightRecords_bounded db userId s e lo hi Hs He).
  destruct (String.leb "0001-01-01" lo && String.leb lo "9999-12-31") eqn:Hlo;
    [|discriminate].
  destruct (String.leb "0001-01-01" hi && String.leb hi "9999-12-31") eqn:Hhi;
    [|discriminate].
  destruct (Sql.int4 userId); [|discriminate].
  cbn [andb]. intro H. injection H as <-.
  apply andb_true_iff in Hlo, Hhi.
  destruct s as [ts|]; [|discriminate]. destruct e as [te|]; [|discriminate].
  cbn [toISODate] in Hs, He. injection Hs as Hs. injection He as He.
  split; [|split].
  - apply (IsoDates.isoText_of_time ts). rewrite Hs.
    now apply DateParam.dateParam_accepted.
  - apply (IsoDates.isoText_of_time te). rewrite He.
    now apply DateParam.dateParam_accepted.
  - apply Forall_forall. intros r Hr.
    apply orderBy_In, filter_In in Hr. destruct Hr as [_ Hr].
    apply andb_true_iff in Hr. destruct Hr as [Hr Hle].
    apply andb_true_iff in Hr. destruct Hr as [Hid Hge].
    apply Z.eqb_eq in Hid. auto.
Qed.

End Listing.

(* ================================================================== *)
(** * Facts about the monthly reduction *)
(* ================================================================== *)

Module Grouping.
Import Storage.

Lemma firstDates_snoc (l : list WeightRecord.t) (r : WeightRecord.t) :
  firstDates (l ++ [r]) =
  if existsb (fun k => (k =? WeightRecord.date r)%string) (firstDates l)
  then firstDates l
  else (firstDates l ++ [WeightRecord.date r])%list.
Proof. unfold firstDates. now rewrite fold_left_app. Qed.

Lemma existsb_eqb_In (d : string) (ks : list string) :
  existsb (fun k => (k =? d)%string) ks = true <-> In d ks.
Proof.
  rewrite existsb_exists. split.
  - intros (k & Hk & E). apply String.eqb_eq in E. now subst.
  - intro H. exists d. split; [exact H|apply String.eqb_refl].
Qed.

Lemma firstDates_In (l : list WeightRecord.t) (d : string) :
  In d (firstDates l) <-> exists r, In r l /\ WeightRecord.date r = d.
Proof.
  induction l as [|r l IH] using rev_ind.
  - simpl. split; [tauto|]. intros (r & [] & _).
  - rewrite firstDates_snoc.
    assert (Hstep : In d (firstDates l ++ [WeightRecord.date r])
                    <-> exists x, In x (l ++ [r]) /\ WeightRecord.date x = d).
    { rewrite in_app_iff, IH. simpl. split.
      - intros [(x & Hx & E)|[E|[]]].
        + exists x. rewrite in_app_iff. auto.
        + exists r. rewrite in_app_iff. simpl. auto.
      - intros (x & Hx & E). apply in_app_iff in Hx.
        destruct Hx as [Hx|[->|[]]]; [left; eauto|right; auto]. }
    destruct (existsb _ (firstDates l)) eqn:Ex; [|exact Hstep].
    apply existsb_eqb_In in Ex.
    rewrite <- Hstep, in_app_iff. simpl.
    split; [auto|]. intros [H|[<-|[]]]; assumption.
Qed.

Lemma firstDates_NoDup (l : list WeightRecord.t) : NoDup (firstDates l).
Proof.
  induction l as [|r l IH] using rev_ind.
  - constructor.
  - rewrite firstDates_snoc.
    destruct (existsb _ (firstDates l)) eqn:Ex; [exact IH|].
    apply NoDup_app; [exact IH|repeat constructor; simpl; tauto|].
    intros x Hx [<-|[]].
    apply existsb_eqb_In in Hx. congruence.
Qed.

Lemma onDate_snoc (d : string) (l : list WeightRecord.t) (r : WeightRecord.t) :
  onDate d (l ++ [r]) =
  if (WeightRecord.date r =? d)%string then (onDate d l ++ [r])%list else onDate d l.
Proof.
  unfold onDate. rewrite filter_app. simpl.
  destruct (WeightRecord.date r =? d)%string; [reflexivity|apply app_nil_r].
Qed.

Lemma onDate_nil_iff (d : string) (l : list WeightRecord.t) :
  onDate d l = [] <-> ~ In d (firstDates l).
Proof.
  rewrite firstDates_In. unfold onDate. split.
  - intros H (r & Hr & E).
    assert (Hin : In r (filter (fun r => (WeightRecord.date r =? d)%string) l)).
    { apply filter_In. split; [exact Hr|now apply String.eqb_eq]. }
    rewrite H in Hin. exact Hin.
  - intro H.
    destruct (filter _ l) as [|r l'] eqn:E; [reflexivity|exfalso].
    assert (Hin : In r (filter (fun r => (WeightRecord.date r =? d)%string) l))
      by (rewrite E; now left).
    apply filter_In in Hin. destruct Hin as [Hr Hd].
    apply H. exists r. split; [exact Hr|now apply String.eqb_eq].
Qed.

Section Generic.
Context {N : Type} (zero : N) (add : N -> N -> N)
        (value : WeightRecord.t -> N).

Lemma sumWeights_snoc (l : list WeightRecord.t) (r : WeightRecord.t) :
  sumWeights zero add value (l ++ [r])
  = add (sumWeights zero add value l) (value r).
Proof. unfold sumWeights. now rewrite fold_left_app. Qed.

Lemma entryOf_snoc_same (l : list WeightRecord.t) (r : WeightRecord.t) :
  entryOf zero add value (l ++ [r]) (WeightRecord.date r)
  = DayEntry.mk (WeightRecord.date r)
      (add (DayEntry.weight (entryOf zero add value l (WeightRecord.date r))) (value r))
      (DayEntry.recordCount (entryOf zero add value l (WeightRecord.date r)) + 1).
Proof.
  unfold entryOf. rewrite onDate_snoc, String.eqb_refl. simpl.
  rewrite sumWeights_snoc, length_app. simpl. f_equal. lia.
Qed.

Lemma entryOf_snoc_other (l : list WeightRecord.t) (r : WeightRecord.t)
      (d : string) :
  d <> WeightRecord.date r ->
  entryOf zero add value (l ++ [r]) d = entryOf zero add value l d.
Proof.
  intro H. unfold entryOf. rewrite onDate_snoc.
  destruct (String.eqb_spec (WeightRecord.date r) d); [congruence|reflexivity].
Qed.

Lemma hasKey_map (d : string) (f : string -> DayEntry.t N) (ks : list string) :
  hasKey d (map (fun k => (k, f k)) ks)
  = existsb (fun k => (k =? d)%string) ks.
Proof.
  unfold hasKey. induction ks as [|k ks IH]; simpl; [reflexivity|].
  now rewrite IH.
Qed.

(** The accumulator holds, for each date seen so far, the sum and the
    count of the rows of that date. *)
Lemma groupByDate_entries (records : list WeightRecord.t) :
  groupByDate zero add value records
  = map (fun d => (d, entryOf zero add value records d)) (firstDates records).
Proof.
  induction records as [|r l IH] using rev_ind; [reflexivity|].
  unfold groupByDate in *. rewrite fold_left_app. simpl. rewrite IH.
  unfold groupStep. rewrite hasKey_map, firstDates_snoc.
  destruct (existsb _ (firstDates l)) eqn:Ex; cbn [negb].
  - unfold updateKey. rewrite map_map. apply map_ext. intros k. simpl.
    destruct (String.eqb_spec k (WeightRecord.date r)) as [->|Hk].
    + now rewrite entryOf_snoc_same.
    + now rewrite entryOf_snoc_other.
  - assert (Hnew : ~ In (WeightRecord.date r) (firstDates l)).
    { rewrite <- existsb_eqb_In. congruence. }
    unfold updateKey. rewrite !map_app, map_map. f_equal.
    + apply map_ext_in. intros k Hk. simpl.
      destruct (String.eqb_spec k (WeightRecord.date r)) as [->|Hne];
        [contradiction|].
      now rewrite entryOf_snoc_other.
    + simpl. rewrite String.eqb_refl, entryOf_snoc_same. simpl.
      unfold entryOf.
      apply onDate_nil_iff in Hnew. now rewrite Hnew.
Qed.

Lemma sortedValues_entries (records : list WeightRecord.t) :
  sortedValues (groupByDate zero add value records)
  = Sql.orderBy byDate (map (entryOf zero add value records) (firstDates records)).
Proof.
  unfold sortedValues. rewrite groupByDate_entries, map_map. reflexivity.
Qed.

Lemma sortedValues_dates (records : list WeightRecord.t) :
  map DayEntry.date (sortedValues (groupByDate zero add value records))
  = Sql.orderBy String.leb (firstDates records).
Proof.
  rewrite sortedValues_entries.
  rewrite (orderBy_map DayEntry.date byDate String.leb) by reflexivity.
  rewrite map_map. simpl. now rewrite map_id.
Qed.

Lemma sortedValues_counts (records : list WeightRecord.t) :
  map (fun e => (DayEntry.date e, DayEntry.recordCount e))
      (sortedValues (groupByDate zero add value records))
  = Sql.orderBy (fun a b => String.leb (fst a) (fst b))
      (map (fun d => (d, Z.of_nat (List.length (onDate d records))))
           (firstDates records)).
Proof.
  rewrite sortedValues_entries.
  rewrite (orderBy_map (fun e => (DayEntry.date e, DayEntry.recordCount e))
             byDate (fun a b => String.leb (fst a) (fst b))) by reflexivity.
  now rewrite map_map.
Qed.

Lemma sortedValues_Forall (records : list WeightRecord.t) :
  Forall (fun e => In (DayEntry.date e) (firstDates records) /\
                   e = entryOf zero add value records (DayEntry.date e))
         (sortedValues (groupByDate zero add value records)).
Proof.
  rewrite sortedValues_entries.
  eapply Permutation_Forall; [apply orderBy_perm|].
  apply Forall_forall. intros e He.
  apply in_map_iff in He. destruct He as (d & <- & Hd). simpl. auto.
Qed.

(** ** When the addition is that of a commutative monoid *)

Hypothesis add_assoc : forall a b c, add a (add b c) = add (add a b) c.
Hypothesis add_comm : forall a b, add a b = add b a.
Hypothesis add_zero : forall a, add zero a = a.

Let total (xs : list N) : N := fold_left add xs zero.

Lemma fold_add_from (xs : list N) (a : N) :
  fold_left add xs a = add a (fold_left add xs zero).
Proof.
  revert a. induction xs as [|x xs IH]; intro a; simpl.
  - now rewrite add_comm, add_zero.
  - rewrite IH, (IH (add zero x)), add_zero, add_assoc. reflexivity.
Qed.

Lemma total_cons (x : N) (xs : list N) : total (x :: xs) = add x (total xs).
Proof. unfold total. simpl. now rewrite fold_add_from, add_zero. Qed.

Lemma total_perm (xs ys : list N) : Permutation xs ys -> total xs = total ys.
Proof.
  induction 1 as [|x xs ys _ IH|x y xs|xs ys zs _ IH1 _ IH2].
  - reflexivity.
  - now rewrite !total_cons, IH.
  - rewrite !total_cons, !add_assoc, (add_comm y x). reflexivity.
  - congruence.
Qed.

Lemma sumWeights_total (l : list WeightRecord.t) :
  sumWeights zero add value l = total (map value l).
Proof.
  unfold sumWeights, total. generalize zero.
  induction l as [|r l IH]; intro a; simpl; [reflexivity|apply IH].
Qed.

Lemma sumEntries_total (es : list (DayEntry.t N)) :
  sumEntries zero add es = total (map DayEntry.weight es).
Proof.
  unfold sumEntries, total. generalize zero.
  induction es as [|e es IH]; intro a; simpl; [reflexivity|apply IH].
Qed.

(** Adding [v] to the term of one key adds [v] to the total. *)
Lemma total_bump (g : string -> N) (d : string) (v : N) (ks : list string) :
  NoDup ks -> In d ks ->
  total (map (fun k => if (d =? k)%string then add v (g k) else g k) ks)
  = add v (total (map g ks)).
Proof.
  induction 1 as [|k ks Hk Hnd IH]; intros Hin; [destruct Hin|].
  simpl map. rewrite !total_cons.
  destruct (String.eqb_spec d k) as [->|Hne].
  - rewrite <- add_assoc. do 3 f_equal.
    apply map_ext_in. intros k' Hk'.
    destruct (String.eqb_spec k k') as [->|]; [contradiction|reflexivity].
  - destruct Hin as [->|Hin]; [congruence|].
    rewrite IH by exact Hin.
    rewrite !add_assoc, (add_comm (g k) v). reflexivity.
Qed.

Lemma total_zero (ks : list string) : total (map (fun _ => zero) ks) = zero.
Proof.
  induction ks as [|k ks IH]; [reflexivity|].
  simpl map. now rewrite total_cons, IH, add_zero.
Qed.

(** Over any duplicate-free list of dates that covers the rows, the
    per-date sums add up to the sum of all rows. *)
Lemma total_by_date (ks : list string) (l : list WeightRecord.t) :
  NoDup ks -> (forall r, In r l -> In (WeightRecord.date r) ks) ->
  total (map (fun k => sumWeights zero add value (onDate k l)) ks)
  = sumWeights zero add value l.
Proof.
  intros Hnd. induction l as [|r l IH]; intro Hcover.
  - simpl. apply total_zero.
  - rewrite (sumWeights_total (r :: l)). simpl map. rewrite total_cons.
    rewrite <- sumWeights_total, <- IH by (intros x Hx; apply Hcover; now right).
    rewrite <- (total_bump _ (WeightRecord.date r) (value r) ks Hnd)
      by (apply Hcover; now left).
    f_equal. apply map_ext. intros k. unfold onDate. simpl.
    destruct (WeightRecord.date r =? k)%string; [|reflexivity].
    rewrite (sumWeights_total (r :: _)). simpl map.
    now rewrite total_cons, <- sumWeights_total.
Qed.

(** The entries of the monthly report add up to the total of the rows. *)
Lemma sumEntries_sortedValues (records : list WeightRecord.t) :
  sumEntries zero add (sortedValues (groupByDate zero add value records))
  = sumWeights zero add value records.
Proof.
  rewrite sumEntries_total, sortedValues_entries.
  rewrite <- (total_perm _ _
               (Permutation_map DayEntry.weight
                  (orderBy_perm byDate
                     (map (entryOf zero add value records) (firstDates records))))).
  rewrite map_map. simpl.
  apply total_by_date; [apply firstDates_NoDup|].
  intros r Hr. apply firstDates_In. eauto.
Qed.
End Generic.

End Grouping.

(* ================================================================== *)
(** * Credentials and access policy *)
(* ================================================================== *)

Section AccessPolicy.
Import Storage Routes.

Lemma getUser_id (db : Db) (id : Z) (u : User.t) :
  getUser db id = Some u -> User.id u = id /\ In u (users db).
Proof.
  unfold getUser. intro H. apply find_some in H.
  destruct H as [Hin E]. apply Z.eqb_eq in E. auto.
Qed.

Lemma isAuthenticated_pass {A : Type} (session : Session) (id : Z)
      (next : Z -> Response A) :
  userId session = Some id -> id <> 0 -> isAuthenticated session next = next id.
Proof.
  intros Hs Hid. unfold isAuthenticated, truthyNumber. rewrite Hs.
  destruct (Z.eqb_spec id 0); [contradiction|reflexivity].
Qed.

Lemma respond_not_forbidden {A : Type} (failure : string) (r : Result A) :
  respond failure r <> Status 403 "Access denied".
Proof. destruct r; discriminate. Qed.

(** The guard of the read handlers is the negation of the contract. *)
Lemma accessDenied_iff (db : Db) (userIdParam : string) (caller : User.t) :
  getUser db (User.id caller) = Some caller ->
  accessDenied db userIdParam (User.id caller) = true
  <-> ~ selfOrAdmin caller (parseInt userIdParam).
Proof.
  intro Hu. unfold accessDenied, selfOrAdmin, strictNotEqual, optionalIsAdmin.
  rewrite Hu, andb_true_iff, negb_true_iff.
  destruct (parseInt userIdParam) as [t|].
  - rewrite negb_true_iff, Z.eqb_neq.
    destruct (User.isAdmin caller) as [[|]|]; simpl;
      split; try (intros [H1 H2]; intros [H|H]; congruence);
      intro H; try (exfalso; apply H; now right);
      (split; [|reflexivity]); intros ->; apply H; now left.
  - destruct (User.isAdmin caller) as [[|]|]; simpl;
      split; try (intros [H1 H2]; intros [H|H]; congruence);
      intro H; try (exfalso; apply H; now right); auto.
Qed.

Lemma option_eq_dec_Z (a b : option Z) : {a = b} + {a <> b}.
Proof. decide equality. apply Z.eq_dec. Qed.

Lemma selfOrAdmin_dec (caller : User.t) (target : option Z) :
  selfOrAdmin caller target \/ ~ selfOrAdmin caller target.
Proof.
  unfold selfOrAdmin.
  destruct (option_eq_dec_Z target (Some (User.id caller))) as [Ht|Ht];
    [now left; left|].
  destruct (User.isAdmin caller) as [[|]|];
    [now left; right|right; intros [?|?]; congruence..].
Qed.

Lemma accessDenied_self (db : Db) (userIdParam : string) (id : Z) :
  parseInt userIdParam = Some id -> accessDenied db userIdParam id = false.
Proof.
  intro H. unfold accessDenied, strictNotEqual. rewrite H, Z.eqb_refl. reflexivity.
Qed.



(** C1: on each of the four read requests (list records, daily stats,
    monthly stats, user summary) made with a resolved caller identity,
    access is allowed if and only if the caller's id equals the target id or
    the caller's admin flag is true: an allowed request is answered with
    what the storage query yields, and every other request is answered 403
    "Access denied" without any query on the records. *)
Theorem read_access_iff_self_or_admin
        (Date_parse : string -> Date) (tza now : Z) (db : Db) (session : Session)
        (caller : User.t) (userIdParam : string)
        (startDate endDate : option string) (date year month : string) :
  userId session = Some (User.id caller) ->
  User.id caller <> 0 ->
  getUser db (User.id caller) = Some caller ->
  let target := parseInt userIdParam in
  let records := getUserRecords Date_parse db session userIdParam startDate endDate in
  let daily := getDaily Date_parse db session userIdParam date in
  let monthly := getMonthly tza db session userIdParam year month in
  let summary := getSummary tza now db session userIdParam in
  (selfOrAdmin caller target ->
   records = respond "Failed to fetch weight records"
               (withId target (fun id =>
                  getUserWeightRecords db id (optionalDate Date_parse startDate)
                                       (optionalDate Date_parse endDate))) /\
   daily = respond "Failed to fetch daily stats"
             (withId target (fun id => getUserDailyStats db id (Date_parse date))) /\
   monthly = respond "Failed to fetch monthly stats"
               (withId target (fun id =>
                  getUserMonthlyStats tza db id (parseInt year) (parseInt month))) /\
   summary = respond "Failed to fetch user summary stats"
               (withId target (fun id => getUserSummaryStats tza now db id))) /\
  (~ selfOrAdmin caller target ->
   records = Status 403 "Access denied" /\
   daily = Status 403 "Access denied" /\
   monthly = Status 403 "Access denied" /\
   summary = Status 403 "Access denied") /\
  ((records <> Status 403 "Access denied" <-> selfOrAdmin caller target) /\
   (daily <> Status 403 "Access denied" <-> selfOrAdmin caller target) /\
   (monthly <> Status 403 "Access denied" <-> selfOrAdmin caller target) /\
   (summary <> Status 403 "Access denied" <-> selfOrAdmin caller target)).
Proof.
  intros Hs Hid Hu target records daily monthly summary.
  pose proof (accessDenied_iff db userIdParam caller Hu) as Hguard.
  assert (Hallow : selfOrAdmin caller target ->
                   accessDenied db userIdParam (User.id caller) = false).
  { intro H. destruct (accessDenied db userIdParam (User.id caller)) eqn:E;
      [|reflexivity].
    exfalso. exact (proj1 Hguard eq_refl H). }
  assert (Hyes : selfOrAdmin caller target ->
     records = respond "Failed to fetch weight records"
               (withId target (fun id =>
                  getUserWeightRecords db id (optionalDate Date_parse startDate)
                                       (optionalDate Date_parse endDate))) /\
     daily = respond "Failed to fetch daily stats"
             (withId target (fun id => getUserDailyStats db id (Date_parse date))) /\
     monthly = respond "Failed to fetch monthly stats"
               (withId target (fun id =>
                  getUserMonthlyStats tza db id (parseInt year) (parseInt month))) /\
     summary = respond "Failed to fetch user summary stats"
               (withId target (fun id => getUserSummaryStats tza now db id))).
  { intro H. apply Hallow in H.
    unfold records, daily, monthly, summary,
      getUserRecords, getDaily, getMonthly, getSummary.
    rewrite !(isAuthenticated_pass session _ _ Hs Hid), H. auto. }
  assert (Hno : ~ selfOrAdmin caller target ->
     records = Status 403 "Access denied" /\
     daily = Status 403 "Access denied" /\
     monthly = Status 403 "Access denied" /\
     summary = Status 403 "Access denied").
  { intro H. apply Hguard in H.
    unfold records, daily, monthly, summary,
      getUserRecords, getDaily, getMonthly, getSummary.
    rewrite !(isAuthenticated_pass session _ _ Hs Hid), H. auto. }
  pose proof (selfOrAdmin_dec caller target) as Hdec.
  split; [exact Hyes|split; [exact Hno|]].
  repeat split; intro H;
    try (destruct Hdec as [Hd|Hd]; [exact Hd|];
         exfalso; apply H; now apply Hno);
    destruct (Hyes H) as (-> & -> & -> & ->); apply respond_not_forbidden.
Qed.

(** Beto reads his own March records; his request for Caio's day is
    answered 403; Ana, an administrator, reads Caio's day. *)
Lemma read_access_examples :
  getMonthly 0 Sample.march (mkSession (Some 2)) "2" "2024" "3"
  = respond "Failed to fetch monthly stats"
      (getUserMonthlyStats 0 Sample.march 2 (Some 2024) (Some 3)) /\
  getDaily Sample.Date_parse Sample.march (mkSession (Some 2)) "3" "2024-02-29"
  = Status 403 "Access denied" /\
  getDaily Sample.Date_parse Sample.march (mkSession (Some 1)) "3" "2024-02-29"
  <> Status 403 "Access denied".
Proof.
  pose proof (read_access_iff_self_or_admin Sample.Date_parse 0 0 Sample.march
                (mkSession (Some 2)) Sample.beto "2" None None
                "2024-03-01" "2024" "3" eq_refl ltac:(discriminate) eq_refl)
    as (Hown & _ & _).
  pose proof (read_access_iff_self_or_admin Sample.Date_parse 0 0 Sample.march
                (mkSession (Some 2)) Sample.beto "3" None None
                "2024-02-29" "2024" "2" eq_refl ltac:(discriminate) eq_refl)
    as (_ & Hother & _).
  pose proof (read_access_iff_self_or_admin Sample.Date_parse 0 0 Sample.march
                (mkSession (Some 1)) Sample.ana "3" None None
                "2024-02-29" "2024" "2" eq_refl ltac:(discriminate) eq_refl)
    as (_ & _ & _ & Hadmin & _).
  split; [|split].
  - apply Hown. left. reflexivity.
  - apply Hother. intros [H|H]; discriminate.
  - apply Hadmin. right. reflexivity.
Defined.

(** C10: a caller whose session id equals the target id passes the check
    of each of the four read handlers whatever the [users] table holds: the
    answer is what the storage query yields, also when the caller's row is
    missing or has its active flag off. *)
Theorem self_access_ignores_user_row
        (Date_parse : string -> Date) (tza now : Z) (db : Db) (session : Session)
        (currentUserId : Z) (userIdParam : string)
        (startDate endDate : option string) (date year month : string) :
  userId session = Some currentUserId ->
  currentUserId <> 0 ->
  parseInt userIdParam = Some currentUserId ->
  getUserRecords Date_parse db session userIdParam startDate endDate
  = respond "Failed to fetch weight records"
      (withId (Some currentUserId) (fun id =>
         getUserWeightRecords db id (optionalDate Date_parse startDate)
                              (optionalDate Date_parse endDate))) /\
  getDaily Date_parse db session userIdParam date
  = respond "Failed to fetch daily stats"
      (withId (Some currentUserId) (fun id =>
         getUserDailyStats db id (Date_parse date))) /\
  getMonthly tza db session userIdParam year month
  = respond "Failed to fetch monthly stats"
      (withId (Some currentUserId) (fun id =>
         getUserMonthlyStats tza db id (parseInt year) (parseInt month))) /\
  getSummary tza now db session userIdParam
  = respond "Failed to fetch user summary stats"
      (withId (Some currentUserId) (fun id => getUserSummaryStats tza now db id)) /\
  getUserRecords Date_parse db session userIdParam startDate endDate
  <> Status 403 "Access denied" /\
  getDaily Date_parse db session userIdParam date <> Status 403 "Access denied" /\
  getMonthly tza db session userIdParam year month <> Status 403 "Access denied" /\
  getSummary tza now db session userIdParam <> Status 403 "Access denied".
Proof.
  intros Hs Hid Hp.
  pose proof (accessDenied_self db userIdParam currentUserId Hp) as Hok.
  unfold getUserRecords, getDaily, getMonthly, getSummary.
  rewrite !(isAuthenticated_pass session _ _ Hs Hid), Hok, Hp.
  repeat split; apply respond_not_forbidden.
Qed.

(** Caio's account is deactivated, and in the second database his row is
    gone altogether; his session still reads his own day and records. *)
Lemma self_access_deactivated :
  getDaily Sample.Date_parse Sample.march (mkSession (Some 3)) "3" "2024-02-29"
  = Json {| DailyStats.totalWeight := 7;
            DailyStats.recordCount := 1;
            DailyStats.records := [Sample.row 4 3 700 "2024-02-29" 1709200000000] |} /\
  getUserRecords Sample.Date_parse
    (mkDb [] (weightRecords Sample.march) 4 5) (mkSession (Some 3)) "3" None None
  = Json [Sample.row 4 3 700 "2024-02-29" 1709200000000].
Proof.
  split.
  - destruct (self_access_ignores_user_row Sample.Date_parse 0 0 Sample.march
                (mkSession (Some 3)) 3 "3" None None "2024-02-29" "2024" "2"
                eq_refl ltac:(discriminate) eq_refl) as (_ & -> & _).
    reflexivity.
  - destruct (self_access_ignores_user_row Sample.Date_parse 0 0
                (mkDb [] (weightRecords Sample.march) 4 5)
                (mkSession (Some 3)) 3 "3" None None "2024-02-29" "2024" "2"
                eq_refl ltac:(discriminate) eq_refl) as (-> & _).
    reflexivity.
Defined.

End AccessPolicy.

(* ================================================================== *)
(** * Mutations: user updates and record creation *)
(* ================================================================== *)

Section Mutations.
Import Storage Routes.




(** A PATCH request either leaves the database as it is or performs one
    [updateUser]. *)
Lemma patchUser_db (now : Z) (db : Db) (session : Session) (idParam : string)
      (updates : UpdateUser.t) :
  fst (patchUser now db session idParam updates) = db \/
  exists id r, updateUser now db id updates
               = Returns (fst (patchUser now db session idParam updates), r).
Proof.
  unfold patchUser, isAuthenticated, isAdmin.
  destruct (userId session) as [sid|]; [|now left].
  destruct (negb (truthyNumber sid)); [now left|].
  destruct (getUser db sid) as [user|]; [|now left].
  destruct (negb (truthyFlag (User.isAdmin user))); [now left|].
  unfold withId. destruct (parseInt idParam) as [id|]; [|now left].
  destruct (_ && _); [|now left].
  destruct (updateUser now db id updates) as [[db' r]|e] eqn:E; [|now left].
  right. exists id, r. exact E.
Qed.




(** C6, evaluated: Ana records 12.5 kg for Beto, a "filetagem" worker, on
    2024-03-15.  The query of that day returns the one row, with the weight
    12.5 and Ana as its creator; the row has no [workType] key, because the
    table has no such column and the schema drops the key the handler adds. *)
Theorem created_record_has_no_workType :
  let body :=
    mkBody (Some "2") (Some (Decimal.mk 125 1)) (Some "2024-03-15") None
           (Some filetagem) in
  let created := Sample.row 1 2 1250 "2024-03-15" 1710500000000 in
  postWeightRecord Sample.date_in 1710500000000 Sample.empty
                   (mkSession (Some 1)) body
  = (mkDb (users Sample.empty) [created] 4 2, Json created) /\
  getDaily Sample.Date_parse (mkDb (users Sample.empty) [created] 4 2)
           (mkSession (Some 2)) "2" "2024-03-15"
  = Json {| DailyStats.totalWeight := 12.5;
            DailyStats.recordCount := 1;
            DailyStats.records := [created] |} /\
  parseFloat (WeightRecord.weight created) = 12.5%float /\
  WeightRecord.createdBy created = 1 /\
  User.workType Sample.beto = Some filetagem /\
  ~ In "workType" WeightRecord.columns.
Proof.
  repeat split; try reflexivity.
  simpl. intros H. repeat (destruct H as [H|H]; [discriminate H|]). exact H.
Qed.

End Mutations.

(* ================================================================== *)
(** * Listings and daily statistics *)
(* ================================================================== *)

Section Reports.
Import Storage.

(** C2, as the code has it: for a user id that is a 32-bit integer, a
    date of the years 0001 to 9999 and any stored records,
    [getUserDailyStats] returns the records whose [userId] matches and whose
    [date] is the calendar date of the argument, and no other, ordered by
    creation time descending; [totalWeight] is the sum of their weights,
    added in that order as doubles from 0, and [recordCount] is their number;
    when no record matches the result is [{0, 0, []}].  A date of another
    year or a user id that is no 32-bit integer is refused by the database,
    and the call fails. *)
Theorem daily_stats_sum_and_count (db : Db) (userId t : Z) :
  let dateStr := isoDate (YearFromTime t) (MonthFromTime t + 1) (DateFromTime t) in
  let matching :=
    filter (fun r => (WeightRecord.userId r =? userId)
                     && (WeightRecord.date r =? dateStr)%string)
           (weightRecords db) in
  (Sql.int4 userId = true -> 1 <= YearFromTime t <= 9999 ->
   exists stats,
     getUserDailyStats db userId (Some t) = Returns stats /\
     Permutation (DailyStats.records stats) matching /\
     StronglySorted createdAtDescending (DailyStats.records stats) /\
     DailyStats.totalWeight stats
     = fold_left (fun sum record =>
                    PrimFloat.add sum (parseFloat (WeightRecord.weight record)))
                 (DailyStats.records stats) 0%float /\
     DailyStats.recordCount stats = Z.of_nat (List.length matching) /\
     (matching = [] ->
      stats = {| DailyStats.totalWeight := 0;
                 DailyStats.recordCount := 0;
                 DailyStats.records := [] |})) /\
  (Sql.int4 userId = false \/ YearFromTime t < 1 \/ 9999 < YearFromTime t ->
   getUserDailyStats db userId (Some t) = Throws DatabaseError).
Proof.
  intros dateStr matching.
  unfold getUserDailyStats. cbn [toISODate bind].
  rewrite DateParam.dateParam_of_time. fold dateStr.
  split.
  - intros Hid Hy.
    replace ((1 <=? YearFromTime t) && (YearFromTime t <=? 9999)) with true
      by (symmetry; apply andb_true_iff; split; apply Z.leb_le; lia).
    cbn [bind]. rewrite Hid. fold matching.
    eexists. split; [reflexivity|]. cbn [DailyStats.records DailyStats.totalWeight
                                          DailyStats.recordCount].
    split; [apply Permutation_sym, orderBy_perm|].
    split; [apply Listing.daily_sorted|].
    split; [reflexivity|].
    split; [now rewrite orderBy_length|].
    intros ->. reflexivity.
  - intros [Hid|Hy].
    + destruct ((1 <=? YearFromTime t) && (YearFromTime t <=? 9999));
        cbn [bind]; [now rewrite Hid|reflexivity].
    + replace ((1 <=? YearFromTime t) && (YearFromTime t <=? 9999)) with false
        by (symmetry; apply andb_false_iff; rewrite !Z.leb_gt; lia).
      reflexivity.
Qed.

(** Beto's first of March: 0.30 then 0.20, latest first; nobody has a
    record on the third. *)
Lemma daily_stats_examples :
  getUserDailyStats Sample.march 2 (Sample.Date_parse "2024-03-01")
  = Returns {| DailyStats.totalWeight := 0.5;
               DailyStats.recordCount := 2;
               DailyStats.records :=
                 [Sample.row 2 2 30 "2024-03-01" 1709310000000;
                  Sample.row 1 2 20 "2024-03-01" 1709300000000] |} /\
  getUserDailyStats Sample.march 2 (Sample.Date_parse "2024-03-03")
  = Returns {| DailyStats.totalWeight := 0;
               DailyStats.recordCount := 0;
               DailyStats.records := [] |}.
Proof.
  split; [vm_compute; reflexivity|].
  destruct (daily_stats_sum_and_count Sample.march 2 1709424000000) as [H _].
  destruct (H eq_refl ltac:(vm_compute; split; discriminate))
    as (stats & Hret & _ & _ & _ & _ & Hempty).
  change (Sample.Date_parse "2024-03-03") with (Some 1709424000000).
  rewrite Hret, (Hempty eq_refl). reflexivity.
Defined.

(** The claim as the specification words it fails: the call is an error
    for the first day of the year 10000, whose text ['+010000-01-01'] the
    database does not read, for the first day of the year 0000, which the
    database does not have, for an invalid Date object, on which
    [toISOString] throws, and for the user id 2^31. *)
Lemma daily_stats_can_fail :
  YearFromTime 253402300800000 = 10000 /\
  getUserDailyStats Sample.march 2 (Some 253402300800000) = Throws DatabaseError /\
  toISODate (Some (-62167219200000)) = Returns "0000-01-01" /\
  getUserDailyStats Sample.march 2 (Some (-62167219200000))
  = Throws DatabaseError /\
  getUserDailyStats Sample.march 2 None = Throws RangeError /\
  getUserDailyStats Sample.march 2147483648 (Sample.Date_parse "2024-03-01")
  = Throws DatabaseError /\
  ~ (forall db userId date,
        exists stats, getUserDailyStats db userId date = Returns stats).
Proof.
  do 6 (split; [vm_compute; reflexivity|]).
  intro H. destruct (H Sample.march 2 None) as [stats Hstats].
  discriminate Hstats.
Qed.

(** An invalid Date object makes [toISOString] throw, whatever is stored. *)
Lemma daily_stats_invalid_date (db : Db) (userId : Z) :
  getUserDailyStats db userId None = Throws RangeError.
Proof. reflexivity. Qed.



(** A bound that the database does not read as a date fails the call: the
    first day of the year 10000 as the end of the range. *)
Lemma range_filter_refused :
  getUserWeightRecords Sample.march 2 (Some (Sample.Date_parse "2024-03-01"))
                       (Some (Some 253402300800000))
  = Throws DatabaseError /\
  getAllWeightRecords Sample.march (Some (Sample.Date_parse "2024-03-01"))
                      (Some (Some 253402300800000))
  = Throws DatabaseError.
Proof. split; vm_compute; reflexivity. Qed.

End Reports.

(* ================================================================== *)
(** * Monthly statistics *)
(* ================================================================== *)

Section Monthly.
Import Storage.

Lemma StronglySorted_map_inv {A B : Type} (f : A -> B) (R : B -> B -> Prop)
      (l : list A) :
  StronglySorted R (map f l) -> StronglySorted (fun a b => R (f a) (f b)) l.
Proof.
  induction l as [|x l IH]; simpl; intro H; [constructor|].
  inversion H as [|? ? Hl Hx]; subst. constructor; [now apply IH|].
  apply Forall_forall. intros y Hy.
  rewrite Forall_forall in Hx. apply Hx. now apply in_map.
Qed.

(** A list without duplicates that is sorted is strictly sorted. *)
Lemma sorted_NoDup_strict (l : list string) :
  NoDup l -> StronglySorted (fun a b => String.leb a b = true) l ->
  StronglySorted (fun a b => String.ltb a b = true) l.
Proof.
  induction 1 as [|x l Hx Hnd IH]; intro H; [constructor|].
  inversion H as [|? ? Hl Hall]; subst. constructor; [now apply IH|].
  apply Forall_forall. intros y Hy.
  rewrite Forall_forall in Hall.
  apply StringOrder.leb_neq_ltb; [now apply Hall|].
  intros ->. contradiction.
Qed.

Lemma sortedValues_strictly_ascending {N : Type} (zero : N) (add : N -> N -> N)
      (value : WeightRecord.t -> N) (records : list WeightRecord.t) :
  StronglySorted
    (fun a b => String.ltb (DayEntry.date a) (DayEntry.date b) = true)
    (sortedValues (groupByDate zero add value records)).
Proof.
  apply StronglySorted_map_inv with
    (f := DayEntry.date) (R := fun a b => String.ltb a b = true).
  apply sorted_NoDup_strict.
  - rewrite Grouping.sortedValues_dates.
    eapply Permutation_NoDup; [apply orderBy_perm|apply Grouping.firstDates_NoDup].
  - rewrite Grouping.sortedValues_dates.
    apply (orderBy_sorted String.leb String.leb_total StringOrder.leb_trans).
Qed.

(** The rows fetched for a month are the user's rows within the bounds,
    so the rows of one date among them are all the user's rows of that date. *)
Lemma onDate_fetched (db : Db) (userId : Z) (startDate endDate : Date)
      (records : list WeightRecord.t) (d : string) :
  getUserWeightRecords db userId (Some startDate) (Some endDate) = Returns records ->
  In d (firstDates records) ->
  List.length (onDate d records)
  = List.length (filter (fun r => (WeightRecord.userId r =? userId)
                                  && (WeightRecord.date r =? d)%string)
                        (weightRecords db)).
Proof.
  destruct (toISODate startDate) as [lo|err] eqn:Hs;
    [|unfold getUserWeightRecords; rewrite Hs; discriminate].
  destruct (toISODate endDate) as [hi|err] eqn:He;
    [|unfold getUserWeightRecords; rewrite Hs, He; discriminate].
  rewrite (Listing.getUserWeightRecords_bounded db userId _ _ lo hi Hs He).
  match goal with |- context [if ?c then _ else _] => destruct c end;
    [|discriminate].
  intro H. injection H as Hrec. subst records. intro Hd.
  apply Grouping.firstDates_In in Hd. destruct Hd as (x & Hx & Ex).
  apply orderBy_In in Hx. apply filter_In in Hx.
  destruct Hx as [_ Hx]. apply andb_true_iff in Hx. destruct Hx as [Hx Hhi].
  apply andb_true_iff in Hx. destruct Hx as [_ Hlo]. rewrite Ex in Hlo, Hhi.
  unfold onDate.
  rewrite <- (filter_length_perm _ _ _ (orderBy_perm Sql.byDateDescCreatedAtDesc _)).
  rewrite filter_filter. f_equal. apply filter_ext. intro r.
  destruct (String.eqb_spec (WeightRecord.date r) d) as [->|];
    [rewrite Hlo, Hhi|]; now rewrite ?andb_true_r, ?andb_false_r.
Qed.

(** What the monthly query hands to the listing query, for a month of the
    years 0 to 9999. *)
Lemma monthly_bounds_accepted (tza year month : Z) :
  0 <= year <= 9999 -> 1 <= month <= 12 -> - msPerDay < tza < msPerDay ->
  exists lo hi,
    toISODate (monthStartDate tza (Some year) (Some month)) = Returns lo /\
    toISODate (monthEndDate tza (Some year) (Some month)) = Returns hi /\
    Sql.dateParam lo = Returns lo /\ Sql.dateParam hi = Returns hi.
Proof.
  intros Hy Hm Htz. unfold monthStartDate, monthEndDate. cbn [option_map].
  destruct (LocalDates.month_bounds_in_range tza year (month - 1) Hy
              ltac:(lia) Htz) as (t1 & t2 & H1 & H2 & Y1 & Y2).
  replace (month - 1 + 1) with month in H2 by lia.
  rewrite H1, H2. cbn [toISODate].
  eexists. eexists. split; [reflexivity|]. split; [reflexivity|].
  rewrite !DateParam.dateParam_of_time.
  replace ((1 <=? YearFromTime t1) && (YearFromTime t1 <=? 9999)) with true
    by (symmetry; apply andb_true_iff; split; apply Z.leb_le; lia).
  replace ((1 <=? YearFromTime t2) && (YearFromTime t2 <=? 9999)) with true
    by (symmetry; apply andb_true_iff; split; apply Z.leb_le; lia).
  split; reflexivity.
Qed.

(** For a month of the years 0 to 9999 the monthly query does return. *)
Lemma getUserMonthlyStats_returns (tza : Z) (db : Db) (userId year month : Z) :
  0 <= year <= 9999 -> 1 <= month <= 12 -> - msPerDay < tza < msPerDay ->
  Sql.int4 userId = true ->
  exists stats,
    getUserMonthlyStats tza db userId (Some year) (Some month) = Returns stats.
Proof.
  intros Hy Hm Htz Hid. unfold getUserMonthlyStats.
  destruct (monthly_bounds_accepted tza year month Hy Hm Htz)
    as (lo & hi & Hs & He & Hlo & Hhi).
  rewrite (Listing.getUserWeightRecords_bounded db userId _ _ lo hi Hs He).
  apply DateParam.dateParam_inv in Hlo. destruct Hlo as (_ & L1 & L2).
  apply DateParam.dateParam_inv in Hhi. destruct Hhi as (_ & H1 & H2).
  rewrite L1, L2, H1, H2, Hid. cbn [andb bind]. eauto.
Qed.

(** C3, as the code has it: for every month of the years 0 to 9999 and a
    user id that is a 32-bit integer [getUserMonthlyStats] returns, and
    whenever it returns, its entries are sorted strictly ascending by date
    string, one for each date among the fetched rows; the [recordCount] of an
    entry counts the user's stored rows of that exact date, and its [weight]
    is the sum of their weights added as doubles in listing order, as
    [totalWeight] is for all the fetched rows.  Added exactly, in hundredths,
    the weights of the same groups sum to the total of the fetched rows. *)
Theorem monthly_entries_grouping (tza : Z) (db : Db) (userId : Z) :
  (forall year month,
      0 <= year <= 9999 -> 1 <= month <= 12 ->
      - msPerDay < tza < msPerDay -> Sql.int4 userId = true ->
      exists stats,
        getUserMonthlyStats tza db userId (Some year) (Some month) = Returns stats) /\
  (forall year month stats,
      getUserMonthlyStats tza db userId year month = Returns stats ->
      exists records,
        getUserWeightRecords db userId (Some (monthStartDate tza year month))
                             (Some (monthEndDate tza year month)) = Returns records /\
        MonthlyStats.totalWeight stats = totalOf records /\
        MonthlyStats.recordCount stats = Z.of_nat (List.length records) /\
        StronglySorted
          (fun a b => String.ltb (DayEntry.date a) (DayEntry.date b) = true)
          (MonthlyStats.dailyStats stats) /\
        (forall d, In d (map DayEntry.date (MonthlyStats.dailyStats stats))
                   <-> exists r, In r records /\ WeightRecord.date r = d) /\
        Forall
          (fun e =>
             DayEntry.recordCount e
             = Z.of_nat
                 (List.length
                    (filter (fun r => (WeightRecord.userId r =? userId)
                                      && (WeightRecord.date r =? DayEntry.date e)%string)
                            (weightRecords db))) /\
             DayEntry.weight e = totalOf (onDate (DayEntry.date e) records))
          (MonthlyStats.dailyStats stats) /\
        let exact :=
          sortedValues (groupByDate 0 Z.add WeightRecord.weight records) in
        map (fun e => (DayEntry.date e, DayEntry.recordCount e)) exact
        = map (fun e => (DayEntry.date e, DayEntry.recordCount e))
              (MonthlyStats.dailyStats stats) /\
        sumEntries 0 Z.add exact = sumWeights 0 Z.add WeightRecord.weight records).
Proof.
  split; [intros year month; apply getUserMonthlyStats_returns|].
  intros year month stats.
  unfold getUserMonthlyStats.
  destruct (getUserWeightRecords db userId _ _) as [records|e] eqn:Hfetch;
    [|discriminate].
  cbn [bind]. intro H. inversion H; subst; clear H.
  cbn [MonthlyStats.totalWeight MonthlyStats.recordCount MonthlyStats.dailyStats].
  exists records. split; [reflexivity|].
  split; [reflexivity|]. split; [reflexivity|].
  split; [apply sortedValues_strictly_ascending|].
  split.
  { intro d. rewrite Grouping.sortedValues_dates, orderBy_In.
    apply Grouping.firstDates_In. }
  split.
  { eapply Forall_impl; [|apply Grouping.sortedValues_Forall].
    intros e [Hin He]. split.
    - rewrite He at 1. simpl.
      f_equal. eapply onDate_fetched; [exact Hfetch|exact Hin].
    - rewrite He at 1. reflexivity. }
  split.
  - now rewrite !Grouping.sortedValues_counts.
  - apply Grouping.sumEntries_sortedValues; intros; lia.
Qed.

(** Beto's March 2024: two entries, 1 March with two rows before 2 March
    with one. *)
Lemma monthly_entries_example :
  exists stats,
    getUserMonthlyStats 0 Sample.march 2 (Some 2024) (Some 3) = Returns stats /\
    map (fun e => (DayEntry.date e, DayEntry.recordCount e))
        (MonthlyStats.dailyStats stats)
    = [("2024-03-01", 2); ("2024-03-02", 1)] /\
    MonthlyStats.recordCount stats = 3 /\
    StronglySorted
      (fun a b => String.ltb (DayEntry.date a) (DayEntry.date b) = true)
      (MonthlyStats.dailyStats stats).
Proof.
  destruct (monthly_entries_grouping 0 Sample.march 2) as [Hreturns Hgroups].
  destruct (Hreturns 2024 3) as [stats Hstats];
    [lia|lia|unfold msPerDay; lia|reflexivity|].
  exists stats. split; [exact Hstats|].
  destruct (Hgroups (Some 2024) (Some 3) stats Hstats)
    as (records & _ & _ & _ & Hsorted & _).
  assert (E : Returns stats
              = getUserMonthlyStats 0 Sample.march 2 (Some 2024) (Some 3))
    by (symmetry; exact Hstats).
  vm_compute in E. injection E as ->.
  split; [reflexivity|]. split; [reflexivity|]. exact Hsorted.
Defined.

(** The year 10000 and the year before the year 0 are refused: the texts
    of their dates are ['+010000-03-01'] and ['-000001-03-01']. *)
Lemma monthly_entries_refused :
  getUserMonthlyStats 0 Sample.march 2 (Some 10000) (Some 3)
  = Throws DatabaseError /\
  getUserMonthlyStats 0 Sample.march 2 (Some (-1)) (Some 3)
  = Throws DatabaseError.
Proof. split; vm_compute; reflexivity. Qed.

(** The claim as the specification words it fails on the same month: the
    rows are listed 0.10, 0.30, 0.20 and [totalWeight] is the double
    (0.1 + 0.3) + 0.2 = 0.6000000000000001, while the entries hold 0.5 and
    0.1, whose sum is the double 0.6. *)
Lemma monthly_entries_do_not_sum_to_total :
  exists stats,
    getUserMonthlyStats 0 Sample.march 2 (Some 2024) (Some 3) = Returns stats /\
    map DayEntry.weight (MonthlyStats.dailyStats stats) = [0.5; 0.1]%float /\
    sumEntries PrimFloat.zero PrimFloat.add (MonthlyStats.dailyStats stats)
    = 0.6%float /\
    MonthlyStats.totalWeight stats = 0.6000000000000001%float /\
    PrimFloat.ltb
      (sumEntries PrimFloat.zero PrimFloat.add (MonthlyStats.dailyStats stats))
      (MonthlyStats.totalWeight stats) = true /\
    sumEntries PrimFloat.zero PrimFloat.add (MonthlyStats.dailyStats stats)
    <> MonthlyStats.totalWeight stats.
Proof.
  eexists. split; [vm_compute; reflexivity|].
  do 4 (split; [vm_compute; reflexivity|]).
  intro H.
  apply (f_equal (fun x => PrimFloat.ltb x 0.6000000000000001%float)) in H.
  vm_compute in H. discriminate H.
Qed.

End Monthly.

(* ================================================================== *)
(** * Month bounds and daily averages *)
(* ================================================================== *)

Section MonthBounds.
Import Storage.

(** On a server at UTC or west of it, the bounds handed to the monthly
    query are the first and the last calendar day of the month, for every
    month of every year from 100 on. *)
Lemma month_bounds_at_or_west_of_utc (tza year month : Z) :
  - msPerDay < tza <= 0 -> 100 <= year <= 275000 -> 1 <= month <= 12 ->
  toISODate (monthStartDate tza (Some year) (Some month))
  = Returns (isoDate year month 1) /\
  toISODate (monthEndDate tza (Some year) (Some month))
  = Returns (isoDate year month (daysInMonth year month)).
Proof.
  intros Htz Hy Hm. split.
  - unfold monthStartDate. simpl option_map.
    rewrite LocalDates.toISODate_local_midnight; try lia.
    + now replace (month - 1 + 1) with month by lia.
    + pose proof (Calendar.daysInMonth_range year (month - 1 + 1)). lia.
  - unfold monthEndDate, newDate.
    replace ((0 <=? year) && (year <=? 99)) with false by
      (symmetry; apply andb_false_iff; right; apply Z.leb_gt; lia).
    rewrite Calendar.MakeDay_day_0 by exact Hm.
    pose proof (LocalDates.toISODate_local_midnight tza year (month - 1)
                  (daysInMonth year month)) as H.
    unfold newDate in H.
    replace ((0 <=? year) && (year <=? 99)) with false in H by
      (symmetry; apply andb_false_iff; right; apply Z.leb_gt; lia).
    replace (month - 1 + 1) with month in H by lia.
    apply H; try lia.
    pose proof (Calendar.daysInMonth_range year month). lia.
Qed.

Lemma month_bounds_february_2024_utc :
  toISODate (monthStartDate 0 (Some 2024) (Some 2)) = Returns "2024-02-01" /\
  toISODate (monthEndDate 0 (Some 2024) (Some 2)) = Returns "2024-02-29".
Proof.
  apply (month_bounds_at_or_west_of_utc 0 2024 2); unfold msPerDay; lia.
Defined.

(** East of UTC the defect is systematic: for every month the lower bound
    of the monthly query is not the first day of the month. *)
Lemma month_start_east_of_utc (tza year month : Z) :
  0 < tza < msPerDay -> 1000 <= year <= 9999 -> 1 <= month <= 12 ->
  toISODate (monthStartDate tza (Some year) (Some month))
  <> Returns (isoDate year month 1).
Proof.
  intros Htz Hy Hm. unfold monthStartDate. simpl option_map.
  destruct (LocalDates.local_midnight_east_of_utc tza year (month - 1) 1)
    as (t & -> & Hday); try lia.
  pose proof (Calendar.MakeDay_of_fields t) as [Hfields Hdate].
  pose proof (Calendar.MonthFromTime_range t) as Hmonth.
  pose proof (Calendar.daysInMonth_range (YearFromTime t) (MonthFromTime t + 1)).
  assert (Hyear : year - 1 <= YearFromTime t <= year).
  { pose proof (Calendar.YearFromDay_spec (Day t)) as [Hlo Hhi].
    fold (YearFromTime t) in Hlo, Hhi.
    assert (Hin : DayFromYear year - 1 <= Day t < DayFromYear (year + 1)).
    { rewrite Hday, Calendar.DayFromYear_succ. unfold MakeDay.
      replace ((month - 1) / 12) with 0 by Calendar.div_lia.
      replace ((month - 1) mod 12) with (month - 1) by Calendar.div_lia.
      rewrite Z.add_0_r.
      assert (0 <= monthStart (isLeapYear year) (month - 1) <= 335).
      { assert (Hc : 0 <= month - 1 <= 11) by lia.
        destruct (isLeapYear year);
          destruct (Calendar.month_cases (month - 1) Hc) as
            [->|[->|[->|[->|[->|[->|[->|[->|[->|[->|[->| ->]]]]]]]]]]];
          cbn; lia. }
      destruct (Calendar.isLeapYear_cases year) as [[_ ->]|[_ ->]]; lia. }
    destruct (Z_lt_le_dec (YearFromTime t) (year - 1)) as [Hlt|Hge].
    - pose proof (Calendar.DayFromYear_mono (YearFromTime t + 1) (year - 1)
                    ltac:(lia)) as Hmono.
      pose proof (Calendar.DayFromYear_succ (year - 1)) as Hs.
      replace (year - 1 + 1) with year in Hs by lia.
      destruct (Calendar.isLeapYear_cases (year - 1)) as [[_ E]|[_ E]];
        rewrite E in Hs; lia.
    - destruct (Z_lt_le_dec year (YearFromTime t)) as [Hgt|Hle]; [|lia].
      pose proof (Calendar.DayFromYear_mono (year + 1) (YearFromTime t)
                    ltac:(lia)). lia. }
  unfold toISODate. intro E. injection E as E.
  apply IsoOrder.isoDate_inj in E; try lia.
  destruct E as (Ey & Em & Ed).
  rewrite Ey, Ed in Hfields.
  replace (MonthFromTime t) with (month - 1) in Hfields by lia.
  lia.
Qed.
(** C5, evaluated one hour east of UTC: the two dates are local midnights,
    [toISOString] renders them in UTC, and the query for February 2024 runs
    from 31 January to 28 February.  Caio's record of 29 February is not in
    the report of his February. *)
Theorem month_bounds_east_of_utc :
  let tza := 3600000 in
  getDate tza (monthStartDate tza (Some 2024) (Some 2)) = Some 1 /\
  getDate tza (monthEndDate tza (Some 2024) (Some 2)) = Some 29 /\
  toISODate (monthStartDate tza (Some 2024) (Some 2)) = Returns "2024-01-31" /\
  toISODate (monthEndDate tza (Some 2024) (Some 2)) = Returns "2024-02-28" /\
  getUserMonthlyStats tza Sample.march 3 (Some 2024) (Some 2)
  = Returns {| MonthlyStats.totalWeight := 0;
               MonthlyStats.recordCount := 0;
               MonthlyStats.dailyStats := [] |} /\
  getUserMonthlyStats 0 Sample.march 3 (Some 2024) (Some 2)
  = Returns {| MonthlyStats.totalWeight := 7;
               MonthlyStats.recordCount := 1;
               MonthlyStats.dailyStats := [DayEntry.mk "2024-02-29" 7%float 1] |}.
Proof. cbv zeta. do 5 (split; [vm_compute; reflexivity|]). vm_compute. reflexivity. Qed.

(** C4: in the dashboard statistics and in the summary of a user,
    [avgDaily] is [totalMonth] divided by the number of calendar days of the
    current month of the server's clock: 28, 29, 30 or 31 by the Gregorian
    rule, read off the month-end date, whatever the day of the month.  The
    two queries return while the local date is of a year up to 9999 (and the
    user id is a 32-bit integer). *)
Theorem avgDaily_divides_by_days_in_month (tza now : Z) (db : Db) (userId : Z) :
  0 <= now <= 253402300799999 ->
  - msPerDay < tza < msPerDay ->
  let days := daysInMonth (getFullYear tza now) (getMonth tza now + 1) in
  (forall stats,
      getDashboardStats tza now db = Returns stats ->
      DashboardStats.avgDaily stats
      = PrimFloat.div (DashboardStats.totalMonth stats) (float_of_Z days)) /\
  (forall stats,
      getUserSummaryStats tza now db userId = Returns stats ->
      SummaryStats.avgDaily stats
      = PrimFloat.div (SummaryStats.totalMonth stats) (float_of_Z days)) /\
  (now + tza <= 253402300799999 ->
   exists stats, getDashboardStats tza now db = Returns stats) /\
  (now + tza <= 253402300799999 -> Sql.int4 userId = true ->
   exists stats, getUserSummaryStats tza now db userId = Returns stats) /\
  28 <= days <= 31 /\
  (getMonth tza now + 1 = 2 ->
   days = if isLeapYear (getFullYear tza now) then 29 else 28).
Proof.
  intros Hnow Htz days.
  destruct (LocalDates.current_month_bounds tza now Hnow Htz)
    as (t1 & t2 & H1 & H2 & Hdays).
  pose proof (LocalDates.YearFromTime_of_clock now
                ltac:(unfold msPerDay; lia)) as Ynow.
  assert (Htoday :
            Sql.dateParam (isoDate (YearFromTime now) (MonthFromTime now + 1)
                                   (DateFromTime now))
            = Returns (isoDate (YearFromTime now) (MonthFromTime now + 1)
                               (DateFromTime now))).
  { rewrite DateParam.dateParam_of_time.
    replace ((1 <=? YearFromTime now) && (YearFromTime now <=? 9999)) with true
      by (symmetry; apply andb_true_iff; split; apply Z.leb_le; lia).
    reflexivity. }
  split; [|split; [|split; [|split; [|split]]]].
  - intro stats. unfold getDashboardStats. cbn [toISODate bind].
    rewrite Htoday, H1, H2, Hdays. cbn [bind].
    destruct (getAllWeightRecords db _ _) as [monthRecords|e]; cbn [bind];
      [|discriminate].
    intro H. injection H as <-. reflexivity.
  - intro stats. unfold getUserSummaryStats. cbn [toISODate bind].
    rewrite Htoday, H1, H2, Hdays. cbn [bind].
    destruct (Sql.int4 userId); [|discriminate].
    destruct (getUserWeightRecords db userId _ _) as [monthRecords|e];
      cbn [bind]; [|discriminate].
    intro H. injection H as <-. reflexivity.
  - intro Hlocal.
    pose proof (LocalDates.YearFromTime_of_clock (LocalTime tza now)
                  ltac:(unfold LocalTime, msPerDay in *; lia)) as Ylocal.
    pose proof (Calendar.MonthFromTime_range (LocalTime tza now)) as Hm.
    destruct (LocalDates.month_bounds_in_range tza (getFullYear tza now)
                (getMonth tza now) ltac:(unfold getFullYear; lia) Hm Htz)
      as (t1' & t2' & H1' & H2' & Y1 & Y2).
    rewrite H1 in H1'. injection H1' as <-.
    rewrite H2 in H2'. injection H2' as <-.
    destruct (Listing.getAllWeightRecords_returns db t1 t2 Y1 Y2) as [l Hl].
    unfold getDashboardStats. cbn [toISODate bind].
    rewrite Htoday, H1, H2, Hl. cbn [bind]. eauto.
  - intros Hlocal Hid.
    pose proof (LocalDates.YearFromTime_of_clock (LocalTime tza now)
                  ltac:(unfold LocalTime, msPerDay in *; lia)) as Ylocal.
    pose proof (Calendar.MonthFromTime_range (LocalTime tza now)) as Hm.
    destruct (LocalDates.month_bounds_in_range tza (getFullYear tza now)
                (getMonth tza now) ltac:(unfold getFullYear; lia) Hm Htz)
      as (t1' & t2' & H1' & H2' & Y1 & Y2).
    rewrite H1 in H1'. injection H1' as <-.
    rewrite H2 in H2'. injection H2' as <-.
    destruct (Listing.getUserWeightRecords_returns db userId t1 t2 Hid Y1 Y2)
      as [l Hl].
    unfold getUserSummaryStats. cbn [toISODate bind].
    rewrite Htoday, H1, H2, Hid, Hl. cbn [bind]. eauto.
  - apply Calendar.daysInMonth_range.
  - unfold days. intros ->. reflexivity.
Qed.

(** On 2 March 2024 the month has 0.60 kg so far and the average divides
    by 31; on 15 February 2024, a leap year, it divides by 29. *)
Lemma avgDaily_examples :
  (exists stats,
      getDashboardStats 0 1709380000000 Sample.march = Returns stats /\
      DashboardStats.avgDaily stats
      = PrimFloat.div (DashboardStats.totalMonth stats) 31) /\
  (exists stats,
      getUserSummaryStats 0 1707955200000 Sample.march 3 = Returns stats /\
      SummaryStats.totalMonth stats = 7%float /\
      SummaryStats.avgDaily stats = PrimFloat.div 7 29).
Proof.
  split.
  - destruct (avgDaily_divides_by_days_in_month 0 1709380000000 Sample.march 2)
      as (Havg & _ & Hret & _).
    + lia.
    + unfold msPerDay. lia.
    + destruct (Hret ltac:(lia)) as [stats Hstats].
      exists stats. split; [exact Hstats|]. exact (Havg stats Hstats).
  - destruct (avgDaily_divides_by_days_in_month 0 1707955200000 Sample.march 3)
      as (_ & Havg & _ & Hret & _).
    + lia.
    + unfold msPerDay. lia.
    + destruct (Hret ltac:(lia) eq_refl) as [stats Hstats].
      exists stats. split; [exact Hstats|].
      pose proof (Havg stats Hstats) as Ha.
      assert (E : Returns stats
                  = getUserSummaryStats 0 1707955200000 Sample.march 3)
        by (symmetry; exact Hstats).
      vm_compute in E. injection E as ->. split; vm_compute; reflexivity.
Defined.

(** In the last hours of the year 9999 of a server east of UTC the local
    month is January 10000, and the database refuses its last day. *)
Lemma avgDaily_year_10000 :
  getDashboardStats 3600000 253402300799999 Sample.march = Throws DatabaseError.
Proof. vm_compute. reflexivity. Qed.

End MonthBounds.

(* ================================================================== *)
(** * Further properties: the constraints of the schema *)
(* ================================================================== *)

Section Consistency.
Import Storage UserStore Routes.

Ltac concrete_list :=
  repeat (apply NoDup_cons || apply NoDup_nil || apply Forall_cons
          || apply Forall_nil);
  simpl; intuition (try discriminate; try lia).

Lemma sample_consistent : Consistent Sample.march.
Proof. constructor; simpl; try lia; concrete_list. Qed.

Lemma empty_consistent : Consistent Sample.empty.
Proof. constructor; simpl; try lia; concrete_list. Qed.

Lemma Consistent_Constrained (db : Db) : Consistent db -> Constrained db.
Proof.
  intros [Hids Hissued Hseq Hcpfs Hrids Hrissued Hfk].
  split; [|split; [|split]]; assumption.
Qed.



(** In a table with unique keys the lookup by key returns the row asked. *)
Lemma getUser_In (db : Db) (u : User.t) :
  NoDup (map User.id (users db)) -> In u (users db) ->
  getUser db (User.id u) = Some u.
Proof.
  unfold getUser. induction (users db) as [|x l IH]; simpl; intros Hnd Hin;
    [contradiction|].
  inversion Hnd as [|? ? Hx Hl]; subst.
  destruct Hin as [->|Hin]; [now rewrite Z.eqb_refl|].
  destruct (Z.eqb_spec (User.id x) (User.id u)) as [E|E]; [|now apply IH].
  exfalso. apply Hx. rewrite E. now apply in_map.
Qed.

Lemma existsb_id_In (l : list User.t) (id : Z) :
  existsb (fun u => User.id u =? id) l = true <-> In id (map User.id l).
Proof.
  rewrite existsb_exists, in_map_iff. split.
  - intros (u & Hu & E). apply Z.eqb_eq in E. eauto.
  - intros (u & E & Hu). exists u. split; [exact Hu|now apply Z.eqb_eq].
Qed.

Lemma existsb_cpf_In (l : list User.t) (c : string) :
  existsb (fun u => (User.cpf u =? c)%string) l = true <-> In c (map User.cpf l).
Proof.
  rewrite existsb_exists, in_map_iff. split.
  - intros (u & Hu & E). apply String.eqb_eq in E. eauto.
  - intros (u & E & Hu). exists u. split; [exact Hu|now apply String.eqb_eq].
Qed.

Lemma existsb_record_id_In (l : list WeightRecord.t) (id : Z) :
  existsb (fun r => WeightRecord.id r =? id) l = true
  <-> In id (map WeightRecord.id l).
Proof.
  rewrite existsb_exists, in_map_iff. split.
  - intros (u & Hu & E). apply Z.eqb_eq in E. eauto.
  - intros (u & E & Hu). exists u. split; [exact Hu|now apply Z.eqb_eq].
Qed.

(** Replacing a column of the rows with one key by a fresh value keeps
    the values of the column distinct. *)
Lemma NoDup_after_update {K : Type} (key : User.t -> K) (f : User.t -> User.t)
      (id : Z) (c : K) (l : list User.t) :
  (forall u, key (f u) = if User.id u =? id then c else key u) ->
  NoDup (map User.id l) -> NoDup (map key l) ->
  (forall u, In u l -> User.id u <> id -> key u <> c) ->
  NoDup (map key (map f l)).
Proof.
  intros Hf. induction l as [|x l IH]; simpl; intros Hid Hkey Hfresh;
    [constructor|].
  inversion Hid as [|? ? Hx Hl]; subst.
  inversion Hkey as [|? ? Hcx Hcl]; subst.
  constructor.
  - rewrite map_map, in_map_iff. intros (y & Ey & Hy).
    rewrite !Hf in Ey.
    destruct (Z.eqb_spec (User.id x) id) as [Ex|Ex];
      destruct (Z.eqb_spec (User.id y) id) as [Eyid|Eyid].
    + apply Hx. rewrite Ex, <- Eyid. now apply in_map.
    + apply (Hfresh y); auto.
    + apply (Hfresh x); auto.
    + apply Hcx. rewrite <- Ey. now apply in_map.
  - apply IH; auto.
Qed.

Lemma map_id_same (f : User.t -> User.t) (l : list User.t) :
  (forall u, User.id (f u) = User.id u) -> map User.id (map f l) = map User.id l.
Proof.
  intro H. rewrite map_map. apply map_ext. exact H.
Qed.

(** ** The three outcomes of an insert into [users] *)

Lemma createUser_cases (now : Z) (db : Db) (userData : InsertUser.t) :
  let user :=
    {| User.id := users_id_seq db;
       User.cpf := InsertUser.cpf userData;
       User.password := InsertUser.password userData;
       User.firstName := InsertUser.firstName userData;
       User.lastName := InsertUser.lastName userData;
       User.isAdmin := orDefault (InsertUser.isAdmin userData) (Some false);
       User.workType := orDefault (InsertUser.workType userData) None;
       User.isActive := orDefault (InsertUser.isActive userData) (Some true);
       User.createdAt := Some now;
       User.updatedAt := Some now |} in
  ((Sql.charLength (InsertUser.cpf userData) <= 11)%nat /\
   ~ In (users_id_seq db) (map User.id (users db)) /\
   ~ In (InsertUser.cpf userData) (map User.cpf (users db)) /\
   createUser now db userData
   = ({| users := (users db ++ [user])%list;
         weightRecords := weightRecords db;
         users_id_seq := users_id_seq db + 1;
         weight_records_id_seq := weight_records_id_seq db |},
      Returns user)) \/
  ((Sql.charLength (InsertUser.cpf userData) <= 11)%nat /\
   (In (users_id_seq db) (map User.id (users db)) \/
    In (InsertUser.cpf userData) (map User.cpf (users db))) /\
   createUser now db userData
   = ({| users := users db;
         weightRecords := weightRecords db;
         users_id_seq := users_id_seq db + 1;
         weight_records_id_seq := weight_records_id_seq db |},
      Throws DatabaseError)) \/
  ((11 < Sql.charLength (InsertUser.cpf userData))%nat /\
   createUser now db userData = (db, Throws DatabaseError)).
Proof.
  intro user. unfold createUser. fold user.
  destruct (Nat.leb_spec (Sql.charLength (InsertUser.cpf userData)) 11) as [Hlen|Hlen];
    [|right; right; split; [exact Hlen|reflexivity]].
  destruct (existsb (fun u => User.id u =? users_id_seq db) (users db)) eqn:Hid.
  { right; left. split; [exact Hlen|]. split; [|reflexivity].
    left. now apply existsb_id_In. }
  destruct (existsb (fun u => (User.cpf u =? InsertUser.cpf userData)%string)
                    (users db)) eqn:Hcpf.
  { right; left. split; [exact Hlen|]. split; [|reflexivity].
    right. now apply existsb_cpf_In. }
  left. split; [exact Hlen|]. split; [|split; [|reflexivity]].
  - rewrite <- existsb_id_In. congruence.
  - rewrite <- existsb_cpf_In. congruence.
Qed.

Lemma createUser_constrained (now : Z) (db : Db) (userData : InsertUser.t) :
  Constrained db -> Constrained (fst (createUser now db userData)).
Proof.
  intros (Hids & Hcpfs & Hrids & Hfk).
  destruct (createUser_cases now db userData)
    as [(_ & Hid & Hcpf & ->)|[(_ & _ & ->)|(_ & ->)]];
    cbn [fst]; unfold Constrained; cbn [users weightRecords];
    try (split; [|split; [|split]]; assumption).
  rewrite !map_app. cbn [map User.id User.cpf].
  split; [|split; [|split]].
  - apply NoDup_app; [exact Hids|repeat constructor; simpl; tauto|].
    intros x Hx [<-|[]]. contradiction.
  - apply NoDup_app; [exact Hcpfs|repeat constructor; simpl; tauto|].
    intros x Hx [<-|[]]. contradiction.
  - exact Hrids.
  - eapply Forall_impl; [|exact Hfk]. simpl. intros r [H1 H2].
    rewrite !in_app_iff. auto.
Qed.

Lemma createUser_consistent (now : Z) (db : Db) (userData : InsertUser.t) :
  Consistent db -> Consistent (fst (createUser now db userData)).
Proof.
  intros Hdb.
  pose proof (createUser_constrained now db userData (Consistent_Constrained db Hdb))
    as (Hids' & Hcpfs' & Hrids' & Hfk').
  destruct Hdb as [Hids Hissued Hseq Hcpfs Hrids Hrissued Hfk].
  destruct (createUser_cases now db userData)
    as [(_ & Hid & Hcpf & E)|[(_ & _ & E)|(_ & E)]];
    rewrite E in Hids', Hcpfs', Hrids', Hfk' |- *; cbn [fst] in *;
    constructor; cbn [users weightRecords users_id_seq weight_records_id_seq] in *;
    try assumption; try lia.
  - apply Forall_app. split.
    + eapply Forall_impl; [|exact Hissued]. simpl. intros. lia.
    + repeat constructor; simpl; lia.
  - eapply Forall_impl; [|exact Hissued]. simpl. intros. lia.
Qed.

(** ** An update that returns *)

Lemma updateUser_returns (now : Z) (db db' : Db) (id : Z) (updates : UpdateUser.t)
      (r : option User.t) :
  updateUser now db id updates = Returns (db', r) ->
  db' = {| users := map (fun u => if User.id u =? id
                                  then applyUpdates now updates u else u)
                        (users db);
           weightRecords := weightRecords db;
           users_id_seq := users_id_seq db;
           weight_records_id_seq := weight_records_id_seq db |} /\
  r = option_map (applyUpdates now updates) (getUser db id) /\
  valuesAccepted id updates = Returns tt /\
  (In id (map User.id (users db)) ->
   cpfAccepted db id updates = true /\ idAccepted db id updates = true).
Proof.
  unfold updateUser, bind.
  destruct (valuesAccepted id updates) as [[]|e]; [|discriminate].
  destruct (existsb (fun u => User.id u =? id) (users db)) eqn:Hex.
  - destruct (cpfAccepted db id updates && idAccepted db id updates) eqn:Hacc;
      cbn [andb negb]; [|discriminate].
    intro H. injection H as <- <-.
    apply andb_true_iff in Hacc. auto.
  - cbn [andb]. intro H. injection H as <- <-.
    repeat split; try reflexivity;
      apply existsb_id_In in H; congruence.
Qed.


(** An update of an id that no row has changes no row. *)
Lemma update_of_missing (now : Z) (updates : UpdateUser.t) (id : Z)
      (l : list User.t) :
  ~ In id (map User.id l) ->
  map (fun u => if User.id u =? id then applyUpdates now updates u else u) l = l.
Proof.
  intro H. rewrite <- (map_id l) at 2. apply map_ext_in.
  intros u Hu. destruct (Z.eqb_spec (User.id u) id) as [E|E]; [|reflexivity].
  exfalso. apply H. rewrite <- E. now apply in_map.
Qed.

Lemma updateUser_constrained (now : Z) (db db' : Db) (id : Z)
      (updates : UpdateUser.t) (r : option User.t) :
  Constrained db -> updateUser now db id updates = Returns (db', r) ->
  Constrained db'.
Proof.
  intros (Hids & Hcpfs & Hrids & Hfk) H.
  apply updateUser_returns in H. destruct H as (-> & _ & _ & Hacc).
  unfold Constrained. cbn [users weightRecords].
  destruct (in_dec Z.eq_dec id (map User.id (users db))) as [Hin|Hout];
    [|rewrite update_of_missing by exact Hout;
      split; [|split; [|split]]; assumption].
  destruct (Hacc Hin) as [Hcpf Hid]. clear Hacc.
  set (f := fun u => if User.id u =? id then applyUpdates now updates u else u).
  assert (Hfresh : forall n, UpdateUser.id updates = Some n ->
                             forall u, In u (users db) -> User.id u <> id ->
                                       User.id u <> n).
  { intros n Hn u Hu Hne E. unfold idAccepted in Hid. rewrite Hn in Hid.
    apply orb_true_iff in Hid. destruct Hid as [Hid|Hid].
    - apply Z.eqb_eq in Hid. congruence.
    - apply andb_true_iff in Hid. destruct Hid as [Hid _].
      apply negb_true_iff in Hid.
      assert (existsb (fun u => User.id u =? n) (users db) = true); [|congruence].
      apply existsb_id_In. rewrite <- E. now apply in_map. }
  assert (Hkeep : forall x, In x (map User.id (users db)) ->
                            x <> id \/ UpdateUser.id updates = None
                            \/ UpdateUser.id updates = Some id ->
                            In x (map User.id (map f (users db)))).
  { intros x Hx Hwhy. apply in_map_iff in Hx. destruct Hx as (u & <- & Hu).
    rewrite map_map. apply in_map_iff. exists u. split; [|exact Hu].
    unfold f. destruct (Z.eqb_spec (User.id u) id) as [E|E]; [|reflexivity].
    cbn [applyUpdates User.id].
    destruct Hwhy as [Hne|[-> | ->]]; [contradiction|reflexivity|].
    simpl. congruence. }
  split; [|split; [|split]].
  - destruct (UpdateUser.id updates) as [n|] eqn:Hn.
    + apply (NoDup_after_update User.id f id n); auto.
      intro u. unfold f. destruct (User.id u =? id); [|reflexivity].
      simpl. now rewrite Hn.
    + rewrite map_id_same; [exact Hids|].
      intro u. unfold f. destruct (User.id u =? id); [|reflexivity].
      simpl. now rewrite Hn.
  - destruct (UpdateUser.cpf updates) as [c|] eqn:Hc.
    + apply (NoDup_after_update User.cpf f id c); auto.
      * intro u. unfold f. destruct (User.id u =? id); [|reflexivity].
        simpl. now rewrite Hc.
      * intros u Hu Hne Heq. unfold cpfAccepted in Hcpf. rewrite Hc in Hcpf.
        apply negb_true_iff in Hcpf.
        assert (existsb (fun u => negb (User.id u =? id) && (User.cpf u =? c)%string)
                        (users db) = true); [|congruence].
        apply existsb_exists. exists u. split; [exact Hu|].
        apply andb_true_iff. split.
        -- apply negb_true_iff. now apply Z.eqb_neq.
        -- now apply String.eqb_eq.
    + replace (map User.cpf (map f (users db))) with (map User.cpf (users db));
        [exact Hcpfs|].
      rewrite map_map. apply map_ext. intro u. unfold f.
      destruct (User.id u =? id); [|reflexivity]. simpl. now rewrite Hc.
  - exact Hrids.
  - apply Forall_forall. intros rec Hrec.
    rewrite Forall_forall in Hfk. destruct (Hfk rec Hrec) as [H1 H2].
    assert (Hrefs : (WeightRecord.userId rec <> id /\ WeightRecord.createdBy rec <> id)
                    \/ UpdateUser.id updates = None
                    \/ UpdateUser.id updates = Some id).
    { unfold idAccepted in Hid.
      destruct (UpdateUser.id updates) as [n|]; [|auto].
      apply orb_true_iff in Hid. destruct Hid as [Hid|Hid].
      - apply Z.eqb_eq in Hid. subst n. auto.
      - apply andb_true_iff in Hid. destruct Hid as [_ Hid].
        apply negb_true_iff in Hid. left.
        destruct (Z.eqb_spec (WeightRecord.userId rec) id) as [E1|E1];
          destruct (Z.eqb_spec (WeightRecord.createdBy rec) id) as [E2|E2];
          try (split; assumption); exfalso;
          (assert (existsb (fun r => (WeightRecord.userId r =? id)
                                     || (WeightRecord.createdBy r =? id))
                           (weightRecords db) = true); [|congruence]);
          apply existsb_exists; exists rec; (split; [exact Hrec|]);
          apply orb_true_iff; rewrite !Z.eqb_eq; auto. }
    split; apply Hkeep; auto; tauto.
Qed.

(** Without a new [id], or with one that the sequence has issued, the
    keys stay below the sequence. *)
Lemma updateUser_consistent (now : Z) (db db' : Db) (id : Z)
      (updates : UpdateUser.t) (r : option User.t) :
  Consistent db ->
  match UpdateUser.id updates with
  | Some n => 0 < n < users_id_seq db
  | None => True
  end ->
  updateUser now db id updates = Returns (db', r) -> Consistent db'.
Proof.
  intros Hdb Hn H.
  pose proof (updateUser_constrained now db db' id updates r
                (Consistent_Constrained db Hdb) H) as (Hids' & Hcpfs' & Hrids' & Hfk').
  destruct Hdb as [Hids Hissued Hseq Hcpfs Hrids Hrissued Hfk].
  apply updateUser_returns in H. destruct H as (-> & _).
  constructor; cbn [users weightRecords users_id_seq weight_records_id_seq] in *;
    try assumption.
  apply Forall_forall. intros x Hx. apply in_map_iff in Hx.
  destruct Hx as (u & <- & Hu).
  rewrite Forall_forall in Hissued. specialize (Hissued u Hu).
  destruct (User.id u =? id); [|exact Hissued].
  cbn [applyUpdates User.id]. destruct (UpdateUser.id updates); simpl; assumption.
Qed.

(** ** The outcomes of an insert into [weight_records] *)

Lemma createWeightRecord_cases (date_in : string -> option string) (now : Z)
      (db : Db) (data : InsertWeightRecord.t) :
  (exists row,
      createWeightRecord date_in now db data
      = ({| users := users db;
            weightRecords := (weightRecords db ++ [row])%list;
            users_id_seq := users_id_seq db;
            weight_records_id_seq := weight_records_id_seq db + 1 |},
         Returns row) /\
      WeightRecord.id row = weight_records_id_seq db /\
      WeightRecord.userId row = InsertWeightRecord.userId data /\
      WeightRecord.createdBy row = InsertWeightRecord.createdBy data /\
      WeightRecord.createdAt row = Some now /\
      WeightRecord.notes row = InsertWeightRecord.notes data /\
      date_in (InsertWeightRecord.date data) = Some (WeightRecord.date row) /\
      Decimal.toNumeric_10_2 (InsertWeightRecord.weight data)
      = Some (WeightRecord.weight row) /\
      ~ In (WeightRecord.id row) (map WeightRecord.id (weightRecords db)) /\
      In (WeightRecord.userId row) (map User.id (users db)) /\
      In (WeightRecord.createdBy row) (map User.id (users db))) \/
  (exists db',
      createWeightRecord date_in now db data = (db', Throws DatabaseError) /\
      users db' = users db /\ weightRecords db' = weightRecords db /\
      users_id_seq db' = users_id_seq db /\
      weight_records_id_seq db <= weight_records_id_seq db'
      <= weight_records_id_seq db + 1).
Proof.
  unfold createWeightRecord.
  destruct (Decimal.toNumeric_10_2 (InsertWeightRecord.weight data)) as [w|];
    [|right; exists db; repeat split; lia].
  destruct (date_in (InsertWeightRecord.date data)) as [d|];
    [|right; exists db; repeat split; lia].
  destruct (Sql.int4 (InsertWeightRecord.userId data)
            && Sql.int4 (InsertWeightRecord.createdBy data));
    [|right; exists db; repeat split; lia].
  destruct (existsb (fun r => WeightRecord.id r =? weight_records_id_seq db)
                    (weightRecords db)) eqn:Hid;
    [right; eexists; split; [reflexivity|]; cbn; repeat split; lia|].
  destruct (existsb (fun u => User.id u =? InsertWeightRecord.userId data)
                    (users db)) eqn:Hu;
    [|right; eexists; split; [reflexivity|]; cbn; repeat split; lia].
  destruct (existsb (fun u => User.id u =? InsertWeightRecord.createdBy data)
                    (users db)) eqn:Hc;
    [|right; eexists; split; [reflexivity|]; cbn; repeat split; lia].
  left. eexists. split; [reflexivity|]. cbn.
  repeat split.
  - rewrite <- existsb_record_id_In. congruence.
  - now apply existsb_id_In.
  - now apply existsb_id_In.
Qed.

Lemma createWeightRecord_constrained (date_in : string -> option string)
      (now : Z) (db : Db) (record : InsertWeightRecord.t) :
  Constrained db -> Constrained (fst (createWeightRecord date_in now db record)).
Proof.
  intros (Hids & Hcpfs & Hrids & Hfk).
  destruct (createWeightRecord_cases date_in now db record)
    as [(row & -> & Hid & _ & _ & _ & _ & _ & _ & Hfresh & Hu & Hc)
       |(db' & -> & Eu & Er & _)];
    cbn [fst]; unfold Constrained;
    [cbn [users weightRecords]|rewrite Eu, Er];
    try (split; [|split; [|split]]; assumption).
  split; [exact Hids|]. split; [exact Hcpfs|]. split.
  - rewrite map_app. cbn [map].
    apply NoDup_app; [exact Hrids|repeat constructor; simpl; tauto|].
    intros x Hx [<-|[]]. contradiction.
  - apply Forall_app. split; [exact Hfk|]. repeat constructor; assumption.
Qed.

Lemma createWeightRecord_consistent (date_in : string -> option string)
      (now : Z) (db : Db) (record : InsertWeightRecord.t) :
  Consistent db -> Consistent (fst (createWeightRecord date_in now db record)).
Proof.
  intros Hdb.
  pose proof (createWeightRecord_constrained date_in now db record
                (Consistent_Constrained db Hdb)) as (Hids' & Hcpfs' & Hrids' & Hfk').
  destruct Hdb as [Hids Hissued Hseq Hcpfs Hrids Hrissued Hfk].
  destruct (createWeightRecord_cases date_in now db record)
    as [(row & E & Hid & _)|(db' & E & Eu & Er & Es & Ew)];
    rewrite E in Hids', Hcpfs', Hrids', Hfk' |- *; cbn [fst] in *.
  - constructor; cbn [users weightRecords users_id_seq weight_records_id_seq] in *;
      try assumption.
    apply Forall_app. split.
    + eapply Forall_impl; [|exact Hrissued]. simpl. intros. lia.
    + repeat constructor. lia.
  - constructor; rewrite ?Eu, ?Er, ?Es in *; try assumption.
    eapply Forall_impl; [|exact Hrissued]. simpl. intros. lia.
Qed.

Lemma updateUserToAdmin_constrained (db : Db) :
  Constrained db -> Constrained (fst (AddAdminUser.updateUserToAdmin db)).
Proof.
  intros (Hids & Hcpfs & Hrids & Hfk).
  unfold AddAdminUser.updateUserToAdmin. cbn [fst].
  match goal with |- context [map ?g (users db)] => set (f := g) end.
  assert (Hfid : forall u, User.id (f u) = User.id u)
    by (intro u; unfold f; now destruct (_ =? _)%string).
  assert (Hfcpf : forall u, User.cpf (f u) = User.cpf u)
    by (intro u; unfold f; now destruct (_ =? _)%string).
  unfold Constrained. cbn [users weightRecords].
  rewrite map_id_same by exact Hfid.
  split; [exact Hids|]. split; [|split; assumption].
  rewrite map_map. erewrite map_ext; [exact Hcpfs|exact Hfcpf].
Qed.

Lemma updateUserToAdmin_consistent (db : Db) :
  Consistent db -> Consistent (fst (AddAdminUser.updateUserToAdmin db)).
Proof.
  intros Hdb.
  pose proof (updateUserToAdmin_constrained db (Consistent_Constrained db Hdb))
    as (Hids' & Hcpfs' & Hrids' & Hfk').
  destruct Hdb as [Hids Hissued Hseq Hcpfs Hrids Hrissued Hfk].
  unfold AddAdminUser.updateUserToAdmin in *. cbn [fst] in *.
  constructor; cbn [users weightRecords users_id_seq weight_records_id_seq] in *;
    try assumption.
  apply Forall_forall. intros x Hx. apply in_map_iff in Hx.
  destruct Hx as (y & <- & Hy).
  rewrite Forall_forall in Hissued. specialize (Hissued y Hy).
  now destruct (_ =? _)%string.
Qed.
End Consistency.

(* ================================================================== *)
(** * Further properties: the administrator's routes *)
(* ================================================================== *)

Section AdminRoutes.
Import Storage UserStore Routes Api.

(** The chain [isAuthenticated, isAdmin] lets a request through exactly
    for an administrator's session. *)
Lemma admin_gate {A : Type} (db : Db) (session : Session) (next : Z -> Response A) :
  let gate := isAuthenticated session (fun id => isAdmin db session (next id)) in
  (exists id user,
      userId session = Some id /\ id <> 0 /\ getUser db id = Some user /\
      User.isAdmin user = Some true /\ gate = next id) \/
  (~ adminSession db session /\ refused gate).
Proof.
  unfold isAuthenticated, isAdmin, adminSession, refused, truthyNumber.
  destruct (userId session) as [id|] eqn:Hs.
  - destruct (Z.eqb_spec id 0) as [->|Hid]; simpl.
    + right. split; [|now left].
      intros (i & u & E & Hne & _). congruence.
    + destruct (getUser db id) as [user|] eqn:Hu.
      * destruct (User.isAdmin user) as [[|]|] eqn:Ha; simpl.
        -- left. exists id, user. auto.
        -- right. split; [|now right].
           intros (i & u & E & _ & Hu' & Ha'). congruence.
        -- right. split; [|now right].
           intros (i & u & E & _ & Hu' & Ha'). congruence.
      * right. split; [|now right].
        intros (i & u & E & _ & Hu' & _). congruence.
  - right. split; [|now left].
    intros (i & u & E & _). discriminate.
Qed.

Lemma refused_not_json {A : Type} (response : Response A) (a : A) :
  refused response -> response <> Json a.
Proof. intros [->| ->]; discriminate. Qed.

(** What a POST of a weight record does to the database: nothing, or the
    insert of the record that the handler builds. *)
Lemma postWeightRecord_effect (date_in : string -> option string) (now : Z)
      (db : Db) (session : Session) (body : WeightRecordBody) :
  let result := postWeightRecord date_in now db session body in
  (exists code message, result = (db, Status code message)) \/
  (exists id admin uid target data,
      userId session = Some id /\ id <> 0 /\ getUser db id = Some admin /\
      User.isAdmin admin = Some true /\
      body_userId body = Some uid /\ parseInt uid = Some (User.id target) /\
      getUser db (User.id target) = Some target /\
      InsertWeightRecord.userId data = User.id target /\
      InsertWeightRecord.createdBy data = id /\
      body_date body = Some (InsertWeightRecord.date data) /\
      body_weight body = Some (InsertWeightRecord.weight data) /\
      0 < Decimal.digits (InsertWeightRecord.weight data) /\
      result = (fst (createWeightRecord date_in now db data),
                respond "Failed to create weight record"
                        (snd (createWeightRecord date_in now db data)))).
Proof.
  intro result. unfold result, postWeightRecord, isAuthenticated, isAdmin.
  destruct (userId session) as [id|] eqn:Hs; [|left; eauto].
  destruct (negb (truthyNumber id)) eqn:Hnz; [left; eauto|].
  assert (Hz : id <> 0) by (intros ->; discriminate Hnz).
  destruct (getUser db id) as [admin|] eqn:Hu; [|left; eauto].
  destruct (User.isAdmin admin) as [[|]|] eqn:Ha; cbn [truthyFlag negb];
    [|left; eauto..].
  destruct (body_userId body) as [uid|] eqn:Hb; [|left; eauto].
  destruct (body_weight body) as [w|] eqn:Hw; [|left; eauto].
  destruct (body_date body) as [d|] eqn:Hbd; [|left; eauto].
  destruct (_ || _); [left; eauto|].
  unfold withId. destruct (parseInt uid) as [t|] eqn:Hp; [|left; eauto].
  destruct (_ && _); [|left; eauto].
  destruct (getUser db t) as [target|] eqn:Ht; [|left; eauto].
  unfold insertWeightRecordSchema_parse.
  cbn [WeightRecordInput.userId WeightRecordInput.weight WeightRecordInput.date
       WeightRecordInput.notes WeightRecordInput.createdBy].
  destruct (Z.ltb_spec 0 (Decimal.digits w)) as [Hpos|Hpos]; [|left; eauto].
  right.
  assert (Et : User.id target = t).
  { unfold getUser in Ht. apply find_some in Ht. now apply Z.eqb_eq. }
  exists id, admin, uid, target,
    {| InsertWeightRecord.userId := t;
       InsertWeightRecord.weight := w;
       InsertWeightRecord.date := d;
       InsertWeightRecord.notes := body_notes body;
       InsertWeightRecord.createdBy := id |}.
  cbn [InsertWeightRecord.userId InsertWeightRecord.createdBy
       InsertWeightRecord.date InsertWeightRecord.weight].
  rewrite Et.
  do 11 (split; [first [assumption|reflexivity]|]).
  split; [exact Hpos|].
  now destruct (createWeightRecord date_in now db _).
Qed.

Lemma postUser_db (Body : Type) (parse : Body -> Result InsertUser.t)
      (now : Z) (db : Db) (session : Session) (body : Body) :
  fst (postUser Body parse now db session body) = db \/
  exists userData,
    fst (postUser Body parse now db session body)
    = fst (createUser now db userData).
Proof.
  unfold postUser, isAuthenticated, isAdmin.
  destruct (userId session) as [sid|]; [|now left].
  destruct (negb (truthyNumber sid)); [now left|].
  destruct (getUser db sid) as [user|]; [|now left].
  destruct (negb (truthyFlag (User.isAdmin user))); [now left|].
  destruct (parse body) as [userData|e]; [|now left].
  right. exists userData. now destruct (createUser now db userData).
Qed.

(** X1: the constraints of the schema are an invariant of the server: from
    a database in which keys and identifiers are unique and records point to
    existing users, every write of the storage layer, every request to a
    writing route and the admin script lead to such a database again,
    whether the write succeeds or is refused.  If moreover the keys were
    drawn from the sequences, they are so afterwards, for an update provided
    that its body carries no [id]. *)
Theorem writes_keep_the_constraints (date_in : string -> option string)
        (db : Db) :
  (Constrained db ->
   (forall now userData, Constrained (fst (createUser now db userData))) /\
   (forall now id updates db' user,
       updateUser now db id updates = Returns (db', user) -> Constrained db') /\
   (forall now record,
       Constrained (fst (createWeightRecord date_in now db record))) /\
   (forall now session body,
       Constrained (fst (postWeightRecord date_in now db session body))) /\
   (forall now session idParam updates,
       Constrained (fst (patchUser now db session idParam updates))) /\
   (forall (Body : Type) (parse : Body -> Result InsertUser.t) now session body,
       Constrained (fst (postUser Body parse now db session body))) /\
   Constrained (fst (AddAdminUser.updateUserToAdmin db))) /\
  (Consistent db ->
   (forall now userData, Consistent (fst (createUser now db userData))) /\
   (forall now id updates db' user,
       UpdateUser.id updates = None ->
       updateUser now db id updates = Returns (db', user) -> Consistent db') /\
   (forall now record,
       Consistent (fst (createWeightRecord date_in now db record))) /\
   (forall now session body,
       Consistent (fst (postWeightRecord date_in now db session body))) /\
   (forall now session idParam updates,
       UpdateUser.id updates = None ->
       Consistent (fst (patchUser now db session idParam updates))) /\
   (forall (Body : Type) (parse : Body -> Result InsertUser.t) now session body,
       Consistent (fst (postUser Body parse now db session body))) /\
   Consistent (fst (AddAdminUser.updateUserToAdmin db))).
Proof.
  split; intro Hdb.
  - split; [intros; now apply createUser_constrained|].
    split; [intros now id updates db' user;
            now apply updateUser_constrained|].
    split; [intros; now apply createWeightRecord_constrained|].
    split; [|split; [|split]].
    + intros now session body.
      destruct (postWeightRecord_effect date_in now db session body)
        as [(c & m & ->)|(? & ? & ? & ? & data & H)]; [exact Hdb|].
      do 12 destruct H as [_ H]. rewrite H. cbn [fst].
      now apply createWeightRecord_constrained.
    + intros now session idParam updates.
      destruct (patchUser_db now db session idParam updates) as [->|(id & r & H)];
        [exact Hdb|].
      eapply updateUser_constrained; eassumption.
    + intros Body parse now session body.
      destruct (postUser_db Body parse now db session body) as [->|(d & ->)];
        [exact Hdb|].
      now apply createUser_constrained.
    + now apply updateUserToAdmin_constrained.
  - split; [intros; now apply createUser_consistent|].
    split; [intros now id updates db' user Hid;
            apply updateUser_consistent; [exact Hdb|now rewrite Hid]|].
    split; [intros; now apply createWeightRecord_consistent|].
    split; [|split; [|split]].
    + intros now session body.
      destruct (postWeightRecord_effect date_in now db session body)
        as [(c & m & ->)|(? & ? & ? & ? & data & H)]; [exact Hdb|].
      do 12 destruct H as [_ H]. rewrite H. cbn [fst].
      now apply createWeightRecord_consistent.
    + intros now session idParam updates Hid.
      destruct (patchUser_db now db session idParam updates) as [->|(id & r & H)];
        [exact Hdb|].
      eapply updateUser_consistent; [exact Hdb| |exact H]. now rewrite Hid.
    + intros Body parse now session body.
      destruct (postUser_db Body parse now db session body) as [->|(d & ->)];
        [exact Hdb|].
      now apply createUser_consistent.
    + now apply updateUserToAdmin_consistent.
Qed.

(** Ana records a weight for Beto in the sample database: the constraints
    still hold, and the keys are below the sequences. *)
Lemma writes_keep_the_constraints_example :
  Consistent
    (fst (postWeightRecord Sample.date_in 1710500000000 Sample.march
            (mkSession (Some 1))
            (mkBody (Some "2") (Some (Decimal.mk 125 1)) (Some "2024-03-15")
                    None None))) /\
  Constrained
    (fst (patchUser 1710000000000 Sample.empty (mkSession (Some 1)) "2"
            (UpdateUser.mk None None None None None None None (Some 7) None))).
Proof.
  destruct (writes_keep_the_constraints Sample.date_in Sample.march) as [_ H].
  destruct (H sample_consistent) as (_ & _ & _ & Hpost & _).
  destruct (writes_keep_the_constraints Sample.date_in Sample.empty) as [H' _].
  destruct (H' (Consistent_Constrained _ empty_consistent))
    as (_ & _ & _ & _ & Hpatch & _).
  split; [apply Hpost|apply Hpatch].
Defined.

(** A PATCH whose body carries an [id] may set a key that the sequence has
    not issued: Ana gives Beto the key 7 while the sequence stands at 4.
    The next three inserts into [users] take the keys 4, 5 and 6; the one
    after is refused, the key 7 being taken. *)
Lemma patch_sets_a_key_not_issued :
  let db' :=
    fst (patchUser 1710000000000 Sample.empty (mkSession (Some 1)) "2"
           (UpdateUser.mk None None None None None None None (Some 7) None)) in
  map User.id (users db') = [1; 7; 3] /\ users_id_seq db' = 4 /\
  ~ Consistent db'.
Proof.
  split; [vm_compute; reflexivity|]. split; [vm_compute; reflexivity|].
  intros [_ Hissued _ _ _ _ _]. vm_compute in Hissued.
  inversion Hissued as [|? ? _ Hrest]. inversion Hrest as [|? ? [_ Hlt] _].
  vm_compute in Hlt. discriminate Hlt.
Qed.

(** X2: the routes behind [isAdmin] do nothing for a session that is not
    an administrator's: creating a record, updating a user, creating a user,
    listing all users and the dashboard each answer 401 or 403, and the
    database is left as it was. *)
Theorem admin_routes_refuse_other_sessions
        (collate : string -> string -> bool)
        (Body : Type) (parse : Body -> Result InsertUser.t)
        (date_in : string -> option string)
        (tza now : Z) (db : Db) (session : Session) :
  ~ adminSession db session ->
  (forall body,
      exists response,
        postWeightRecord date_in now db session body = (db, response) /\
        refused response) /\
  (forall idParam updates,
      exists response,
        patchUser now db session idParam updates = (db, response) /\
        refused response) /\
  (forall body,
      exists response,
        postUser Body parse now db session body = (db, response) /\
        refused response) /\
  refused (listUsers collate db session) /\
  refused (getDashboard tza now db session).
Proof.
  intro Hno.
  assert (Hcases :
            userId session = None \/
            (exists id, userId session = Some id /\ negb (truthyNumber id) = true) \/
            (exists id, userId session = Some id /\ negb (truthyNumber id) = false /\
                        getUser db id = None) \/
            (exists id user,
                userId session = Some id /\ negb (truthyNumber id) = false /\
                getUser db id = Some user /\
                negb (truthyFlag (User.isAdmin user)) = true)).
  { destruct (userId session) as [id|] eqn:Hs; [|now left].
    right. destruct (negb (truthyNumber id)) eqn:Hid; [left; eauto|].
    right. destruct (getUser db id) as [user|] eqn:Hu; [|left; eauto].
    right. exists id, user. repeat split; auto.
    destruct (User.isAdmin user) as [[|]|] eqn:Ha; try reflexivity.
    exfalso. apply Hno. exists id, user. repeat split; auto.
    intros ->. discriminate Hid. }
  unfold postWeightRecord, patchUser, postUser, listUsers, getDashboard,
    isAuthenticated, isAdmin, refused.
  destruct Hcases as [Hs|[(id & Hs & Hid)|[(id & Hs & Hid & Hu)
                                          |(id & user & Hs & Hid & Hu & Ha)]]];
    rewrite Hs, ?Hid, ?Hu, ?Ha; repeat split; intros; eauto.
Qed.

(** Beto is no administrator: his attempt to promote himself is refused
    and changes nothing. *)
Lemma admin_routes_refuse_example :
  exists response,
    patchUser 1710000000000 Sample.march (mkSession (Some 2)) "2"
              (UpdateUser.mk None None None None (Some (Some true)) None None
                             None None)
    = (Sample.march, response) /\ refused response.
Proof.
  destruct (admin_routes_refuse_other_sessions String.leb unit
              (fun _ => Throws ZodError) Sample.date_in 0 1710000000000
              Sample.march
              (mkSession (Some 2)))
    as (_ & Hpatch & _).
  - intros (id & user & Hs & _ & Hu & Ha).
    injection Hs as <-. vm_compute in Hu. injection Hu as <-. discriminate Ha.
  - apply Hpatch.
Defined.

(** X3: a POST of a weight record that is answered with a record was sent
    by an administrator; the record is the only row added, it names that
    administrator as its creator and an existing user as its owner, its date
    is what the database reads in the text of the body, and it carries the
    next id of the sequence and the time of the request.  Any other answer
    leaves the rows of the two tables as they were; an insert that the
    database refuses may use up an id of the sequence. *)
Theorem postWeightRecord_adds_one_record (date_in : string -> option string)
        (now : Z) (db db' : Db) (session : Session) (body : WeightRecordBody)
        (response : Response WeightRecord.t) :
  postWeightRecord date_in now db session body = (db', response) ->
  users db' = users db /\ users_id_seq db' = users_id_seq db /\
  match response with
  | Json record =>
      adminSession db session /\
      userId session = Some (WeightRecord.createdBy record) /\
      (exists target, getUser db (WeightRecord.userId record) = Some target) /\
      option_map parseInt (body_userId body)
      = Some (Some (WeightRecord.userId record)) /\
      (exists text, body_date body = Some text /\
                    date_in text = Some (WeightRecord.date record)) /\
      weightRecords db' = (weightRecords db ++ [record])%list /\
      WeightRecord.id record = weight_records_id_seq db /\
      weight_records_id_seq db' = weight_records_id_seq db + 1 /\
      WeightRecord.createdAt record = Some now
  | Status _ _ =>
      weightRecords db' = weightRecords db /\
      weight_records_id_seq db <= weight_records_id_seq db'
      <= weight_records_id_seq db + 1
  end.
Proof.
  intro H.
  destruct (postWeightRecord_effect date_in now db session body)
    as [(c & m & E)|(id & admin & uid & target & data & Hs & Hnz & Hu & Ha
                     & Hb & Hp & Ht & Hd & Hc & Hbd & Hbw & Hpos & E)].
  - rewrite E in H. injection H as <- <-. repeat split; lia.
  - rewrite E in H. clear E.
    destruct (createWeightRecord_cases date_in now db data)
      as [(row & E & Hid & Huid & Hby & Hat & _ & Hdate & _)
         |(db1 & E & Eu & Er & Es & Ew)];
      rewrite E in H; cbn [fst snd respond] in H; injection H as <- <-.
    + cbn [users users_id_seq weightRecords weight_records_id_seq].
      split; [reflexivity|]. split; [reflexivity|].
      split; [exists id, admin; auto|].
      split; [now rewrite Hby, Hc|].
      split; [exists target; now rewrite Huid, Hd|].
      split; [rewrite Hb, Huid, Hd; cbn [option_map]; now rewrite Hp|].
      split; [exists (InsertWeightRecord.date data); auto|].
      auto.
    + auto.
Qed.

(** Ana's request of the sample: the answer is the new row, created by user
    1 for user 2. *)
Lemma postWeightRecord_adds_one_record_example :
  let body :=
    mkBody (Some "2") (Some (Decimal.mk 125 1)) (Some "2024-03-15") None None in
  exists db' record,
    postWeightRecord Sample.date_in 1710500000000 Sample.march
                     (mkSession (Some 1)) body
    = (db', Json record) /\
    weightRecords db' = (weightRecords Sample.march ++ [record])%list /\
    WeightRecord.id record = 5.
Proof.
  intro body. eexists. eexists. split; [vm_compute; reflexivity|].
  pose proof (postWeightRecord_adds_one_record Sample.date_in 1710500000000
                Sample.march _ (mkSession (Some 1)) body _
                ltac:(vm_compute; reflexivity)) as H.
  destruct H as (_ & _ & _ & _ & _ & _ & _ & Hrows & Hid & _).
  split; [exact Hrows|exact Hid].
Defined.

End AdminRoutes.

(* ================================================================== *)
(** * Further properties: users, credentials and sessions *)
(* ================================================================== *)

Section UsersAndSessions.
Import Storage UserStore Routes Api.



Lemma login_rows (db : Db) (session : Session) (cpf password : string)
      (session' : Session) (user : User.t) :
  login db session cpf password = (session', Json user) ->
  session' = mkSession (Some (User.id user)) /\ In user (users db).
Proof.
  unfold login. destruct (loginSchema_parse cpf password) as [[c p]|e];
    [|discriminate].
  destruct (validateUser db c p) as [u|] eqn:Hv; [|discriminate].
  intro H. injection H as <- <-. split; [reflexivity|].
  unfold validateUser in Hv. now apply find_some in Hv.
Qed.





(** An identifier of eleven characters one of which takes two bytes is
    stored; the count is of characters, not of bytes. *)
Lemma createUser_counts_characters :
  let cpf := "1234567890é" in
  String.length cpf = 12%nat /\ Sql.charLength cpf = 11%nat /\
  exists user,
    snd (createUser 1710000000000 Sample.march
           (InsertUser.mk cpf "x" "Outro" "Beto" None None None))
    = Returns user.
Proof.
  split; [vm_compute; reflexivity|]. split; [vm_compute; reflexivity|].
  eexists. vm_compute. reflexivity.
Qed.




(** X7: after a login that is answered with a user row, the current-user
    route answers with that same row and the summary route accepts the
    user's own id; after a logout the current-user route, the list of active
    users and the listing of records answer 401. *)
Theorem session_round_trip
        (collate : string -> string -> bool) (Date_parse : string -> Date)
        (tza now : Z) (db : Db) (session session' : Session)
        (cpf password : string) (user : User.t) :
  Consistent db ->
  login db session cpf password = (session', Json user) ->
  authUser db session' = Json (Some user) /\
  (forall userIdParam,
      parseInt userIdParam = Some (User.id user) ->
      getSummary tza now db session' userIdParam
      = respond "Failed to fetch user summary stats"
          (withId (Some (User.id user)) (fun id => getUserSummaryStats tza now db id))) /\
  authUser db (fst (logout session')) = Status 401 "Unauthorized" /\
  listActiveUsers collate db (fst (logout session')) = Status 401 "Unauthorized" /\
  (forall userIdParam startDate endDate,
      getUserRecords Date_parse db (fst (logout session')) userIdParam
                     startDate endDate
      = Status 401 "Unauthorized").
Proof.
  intros Hdb Hlogin.
  destruct (login_rows db session cpf password session' user Hlogin)
    as (-> & Hin).
  pose proof (user_ids_issued db Hdb) as Hissued.
  rewrite Forall_forall in Hissued. specialize (Hissued user Hin).
  assert (Hid : User.id user <> 0) by lia.
  split; [|split; [|repeat split]].
  - unfold authUser. rewrite (isAuthenticated_pass _ (User.id user)) by auto.
    f_equal. apply getUser_In; [apply (user_ids_unique db Hdb)|exact Hin].
  - intros userIdParam Hp. unfold getSummary.
    rewrite (isAuthenticated_pass _ (User.id user)) by auto.
    now rewrite accessDenied_self, Hp.
Qed.

(** Beto logs in, asks who he is, and logs out. *)
Lemma session_round_trip_example :
  authUser Sample.march (fst (login Sample.march (mkSession None)
                                    "22222222222" "peixe"))
  = Json (Some Sample.beto).
Proof.
  destruct (session_round_trip String.leb Sample.Date_parse 0 0 Sample.march
              (mkSession None) (mkSession (Some 2)) "22222222222" "peixe"
              Sample.beto sample_consistent eq_refl) as (H & _).
  exact H.
Defined.

End UsersAndSessions.

(* ================================================================== *)
(** * Further properties: what an update changes *)
(* ================================================================== *)

Section Updates.
Import Storage UserStore Routes Api.

Lemma NoDup_map_inj {A B : Type} (f : A -> B) (l : list A) (x y : A) :
  NoDup (map f l) -> In x l -> In y l -> f x = f y -> x = y.
Proof.
  induction l as [|z l IH]; simpl; intros Hnd Hx Hy E; [contradiction|].
  inversion Hnd as [|? ? Hz Hl]; subst.
  destruct Hx as [->|Hx], Hy as [->|Hy]; auto.
  - exfalso. apply Hz. rewrite E. now apply in_map.
  - exfalso. apply Hz. rewrite <- E. now apply in_map.
Qed.





Lemma getUser_Some (db : Db) (id : Z) (user : User.t) :
  getUser db id = Some user -> User.id user = id /\ In user (users db).
Proof.
  unfold getUser. intro H. apply find_some in H.
  destruct H as [Hin E]. apply Z.eqb_eq in E. auto.
Qed.


(** The rows after an update of a stored id. *)
Lemma updateUser_found (now : Z) (db db' : Db) (id : Z) (updates : UpdateUser.t)
      (user : User.t) (r : option User.t) :
  Constrained db ->
  getUser db id = Some user ->
  updateUser now db id updates = Returns (db', r) ->
  let user' := applyUpdates now updates user in
  r = Some user' /\
  Constrained db' /\
  In user' (users db') /\
  getUser db' (User.id user') = Some user' /\
  (forall u, In u (users db') ->
             u = user' \/ (In u (users db) /\ User.id u <> id)).
Proof.
  intros Hdb Hu Hupd user'.
  pose proof (updateUser_constrained now db db' id updates r Hdb Hupd) as Hdb'.
  destruct (getUser_Some db id user Hu) as [Hid Hin].
  apply updateUser_returns in Hupd. destruct Hupd as (-> & -> & _ & _).
  rewrite Hu. cbn [option_map].
  assert (Hin' : In user'
                    (map (fun u => if User.id u =? id
                                   then applyUpdates now updates u else u)
                         (users db))).
  { apply in_map_iff. exists user. split; [|exact Hin].
    now rewrite Hid, Z.eqb_refl. }
  split; [reflexivity|]. split; [exact Hdb'|]. split; [exact Hin'|]. split.
  - apply getUser_In; [apply Hdb'|exact Hin'].
  - cbn [users]. intros u Hu'. apply in_map_iff in Hu'.
    destruct Hu' as (x & E & Hx).
    destruct (Z.eqb_spec (User.id x) id) as [Ex|Ex].
    + left. subst u. unfold user'. f_equal.
      apply (NoDup_map_inj User.id (users db)); auto; [apply Hdb|congruence].
    + right. subst u. auto.
Qed.



(** X9: the flags take effect at the next request.  Once an update has
    set the active flag of a user to anything but true, no password logs that
    user in; once it has set the admin flag to anything but true, a session of
    that user is refused by the administrator's routes. *)
Theorem flags_take_effect (now : Z) (db db' : Db) (id : Z)
        (updates : UpdateUser.t) (user : User.t) (r : option User.t) :
  Consistent db ->
  getUser db id = Some user ->
  updateUser now db id updates = Returns (db', r) ->
  (forall flag,
      UpdateUser.isActive updates = Some flag -> flag <> Some true ->
      forall password session,
        validateUser db' (User.cpf (applyUpdates now updates user)) password = None /\
        exists code message,
          login db' session (User.cpf (applyUpdates now updates user)) password
          = (session, Status code message)) /\
  (forall flag,
      UpdateUser.isAdmin updates = Some flag -> flag <> Some true ->
      ~ adminSession db' (mkSession (Some id))).
Proof.
  intros Hdb Hu Hupd.
  destruct (updateUser_found now db db' id updates user r
              (Consistent_Constrained db Hdb) Hu Hupd)
    as (-> & Hdb' & Hin' & Hget & Hrows).
  split.
  - intros flag Hflag Hne password session.
    assert (Hval : validateUser db' (User.cpf (applyUpdates now updates user))
                                password = None).
    { destruct (validateUser db' _ password) as [u|] eqn:Hv; [|reflexivity].
      exfalso. unfold validateUser in Hv. apply find_some in Hv.
      destruct Hv as [Hin Hc]. rewrite !andb_true_iff, !String.eqb_eq in Hc.
      destruct Hc as [[Hc _] Ha].
      assert (Hsame : u = applyUpdates now updates user).
      { apply (NoDup_map_inj User.cpf (users db')); auto. apply Hdb'. }
      subst u. cbn [applyUpdates User.isActive] in Ha. rewrite Hflag in Ha.
      cbn [orElse] in Ha.
      unfold Sql.eqFlag in Ha. destruct flag as [[|]|]; try discriminate.
      now apply Hne. }
    split; [exact Hval|].
    unfold login. destruct (loginSchema_parse _ password) as [[c p]|e] eqn:P.
    + unfold loginSchema_parse in P. destruct (_ && _) in P; [|discriminate].
      injection P as <- <-.
      change (orElse (UpdateUser.cpf updates) (User.cpf user))
        with (User.cpf (applyUpdates now updates user)).
      rewrite Hval. eauto.
    + eauto.
  - intros flag Hflag Hne (sid & u & Hs & _ & Hu' & Ha).
    injection Hs as <-.
    destruct (getUser_Some db' id u Hu') as [Hid Hin].
    destruct (Hrows u Hin) as [->|[_ Hother]]; [|contradiction].
    cbn [applyUpdates User.isAdmin] in Ha. rewrite Hflag in Ha.
    cbn [orElse] in Ha. now apply Hne.
Qed.

(** Once Beto is deactivated the password no longer validates; once Ana
    is demoted the session of id 1 is no longer an administrator's. *)
Lemma flags_take_effect_example :
  (exists db',
      updateUser 1710000000000 Sample.march 2
        (UpdateUser.mk None None None None None None (Some (Some false)) None None)
      = Returns (db', Some (applyUpdates 1710000000000
          (UpdateUser.mk None None None None None None (Some (Some false))
                         None None)
          Sample.beto)) /\
      validateUser Sample.march "22222222222" "peixe" = Some Sample.beto /\
      validateUser db' "22222222222" "peixe" = None) /\
  (exists db',
      updateUser 1710000000000 Sample.march 1
        (UpdateUser.mk None None None None (Some (Some false)) None None None None)
      = Returns (db', Some (applyUpdates 1710000000000
          (UpdateUser.mk None None None None (Some (Some false)) None None
                         None None)
          Sample.ana)) /\
      adminSession Sample.march (mkSession (Some 1)) /\
      ~ adminSession db' (mkSession (Some 1))).
Proof.
  split.
  - eexists. split; [reflexivity|]. split; [reflexivity|].
    destruct (flags_take_effect 1710000000000 Sample.march _ 2
                (UpdateUser.mk None None None None None None (Some (Some false))
                               None None)
                Sample.beto _ sample_consistent eq_refl eq_refl) as [Hactive _].
    destruct (Hactive (Some false) eq_refl ltac:(discriminate)
                      "peixe" (mkSession None)) as [Hval _].
    exact Hval.
  - eexists. split; [reflexivity|]. split.
    + exists 1, Sample.ana. repeat split. discriminate.
    + destruct (flags_take_effect 1710000000000 Sample.march _ 1
                  (UpdateUser.mk None None None None (Some (Some false)) None None
                                 None None)
                  Sample.ana _ sample_consistent eq_refl eq_refl) as [_ Hadmin].
      exact (Hadmin (Some false) eq_refl ltac:(discriminate)).
Defined.
End Updates.

(* ================================================================== *)
(** * Further properties: the listings *)
(* ================================================================== *)

Section FilterOrderBy.
Context {A : Type} (leb : A -> A -> bool) (p : A -> bool).
Hypothesis leb_total : forall a b, leb a b = true \/ leb b a = true.
Hypothesis leb_trans :
  forall a b c, leb a b = true -> leb b c = true -> leb a c = true.

Lemma insertSorted_least (x : A) (l : list A) :
  Forall (fun z => leb x z = true) l -> Sql.insertSorted leb x l = x :: l.
Proof.
  destruct 1 as [|z l Hz _]; simpl; [reflexivity|]. now rewrite Hz.
Qed.

Lemma filter_insertSorted (x : A) (l : list A) :
  StronglySorted (fun a b => leb a b = true) l ->
  filter p (Sql.insertSorted leb x l)
  = if p x then Sql.insertSorted leb x (filter p l) else filter p l.
Proof.
  induction 1 as [|y l Hl IH Hy]; simpl.
  - destruct (p x); reflexivity.
  - destruct (leb x y) eqn:E; simpl.
    + destruct (p x) eqn:Px, (p y) eqn:Py; simpl; rewrite ?E; try reflexivity.
      symmetry. apply insertSorted_least.
      apply Forall_forall. intros z Hz. apply filter_In in Hz.
      destruct Hz as [Hz _]. rewrite Forall_forall in Hy.
      eapply leb_trans; [exact E|now apply Hy].
    + rewrite IH. destruct (p x), (p y); simpl; rewrite ?E; reflexivity.
Qed.

(** A WHERE clause may be applied before or after the ORDER BY. *)
Lemma filter_orderBy (l : list A) :
  filter p (Sql.orderBy leb l) = Sql.orderBy leb (filter p l).
Proof.
  induction l as [|x l IH]; simpl; [reflexivity|].
  rewrite filter_insertSorted by (apply orderBy_sorted; assumption).
  rewrite IH. destruct (p x); reflexivity.
Qed.
End FilterOrderBy.

Lemma filter_none {A : Type} (f : A -> bool) (l : list A) :
  (forall x, In x l -> f x = false) -> filter f l = [].
Proof.
  induction l as [|x l IH]; simpl; intro H; [reflexivity|].
  rewrite (H x) by now left. apply IH. intros y Hy. apply H. now right.
Qed.

Lemma String_leb_total (a b : string) : String.leb a b = true \/ String.leb b a = true.
Proof.
  destruct (String.ltb a b) eqn:L.
  - left. now apply StringOrder.ltb_leb.
  - right. now apply StringOrder.ltb_false_leb.
Qed.

Section Listings.
Import Storage UserStore Routes Api.



(** X10: the list of all users is the table rearranged in the order of the
    first names; the list of active users has the rows of that list whose
    active flag is true and whose admin flag is false, in the order of the
    first names too, so a row whose admin flag is null is left out of the
    list of active users although its session is not an administrator's
    either. *)
Theorem user_lists (collate : string -> string -> bool) (db : Db) :
  (forall a b, collate a b = true \/ collate b a = true) ->
  (forall a b c, collate a b = true -> collate b c = true -> collate a c = true) ->
  Permutation (users db) (getAllUsers collate db) /\
  StronglySorted
    (fun a b => collate (User.firstName a) (User.firstName b) = true)
    (getAllUsers collate db) /\
  Permutation
    (getActiveUsers collate db)
    (filter (fun u => Sql.eqFlag (User.isActive u) true
                      && Sql.eqFlag (User.isAdmin u) false)
            (getAllUsers collate db)) /\
  StronglySorted
    (fun a b => collate (User.firstName a) (User.firstName b) = true)
    (getActiveUsers collate db) /\
  (forall u, In u (getActiveUsers collate db) <->
             In u (users db) /\ User.isActive u = Some true /\
             User.isAdmin u = Some false) /\
  (forall u, In u (users db) -> User.id u <> 0 -> User.isAdmin u = None ->
             ~ In u (getActiveUsers collate db) /\
             (getUser db (User.id u) = Some u ->
              ~ adminSession db (mkSession (Some (User.id u))))).
Proof.
  intros Htotal Htrans.
  assert (Ht : forall a b : User.t,
             byFirstName collate a b = true \/ byFirstName collate b a = true).
  { intros a b. apply Htotal. }
  assert (Hr : forall a b c : User.t,
             byFirstName collate a b = true -> byFirstName collate b c = true ->
             byFirstName collate a c = true).
  { intros a b c. apply Htrans. }
  assert (Hin : forall u, In u (getActiveUsers collate db) <->
                          In u (users db) /\ User.isActive u = Some true /\
                          User.isAdmin u = Some false).
  { intro u. unfold getActiveUsers. rewrite orderBy_In, filter_In, andb_true_iff.
    unfold Sql.eqFlag.
    destruct (User.isActive u) as [[|]|], (User.isAdmin u) as [[|]|]; simpl;
      intuition (auto; discriminate). }
  split; [apply orderBy_perm|].
  split; [apply (orderBy_sorted (byFirstName collate) Ht Hr)|].
  split; [unfold getActiveUsers, getAllUsers;
          rewrite (filter_orderBy (byFirstName collate) _ Ht Hr);
          apply Permutation_refl|].
  split; [apply (orderBy_sorted (byFirstName collate) Ht Hr)|].
  split; [exact Hin|].
  intros u Hu Hid Ha. split.
  - rewrite Hin. intros (_ & _ & Ha'). congruence.
  - intros Hget (sid & admin & Hs & _ & Hadmin & Hflag).
    injection Hs as <-. rewrite Hget in Hadmin. injection Hadmin as <-.
    congruence.
Qed.

(** In the order of the character codes the sample lists Ana, Beto, Caio;
    the only active worker is Beto. *)
Lemma user_lists_example :
  Permutation [Sample.ana; Sample.beto; Sample.caio]
              (getAllUsers String.leb Sample.march) /\
  (forall u, In u (getActiveUsers String.leb Sample.march) <-> u = Sample.beto).
Proof.
  destruct (user_lists String.leb Sample.march String_leb_total
                       StringOrder.leb_trans) as (Hperm & _ & _ & _ & Hin & _).
  split; [exact Hperm|].
  intro u. rewrite Hin. split.
  - intros ([<-|[<-|[<-|[]]]] & Hactive & Hadmin);
      try reflexivity; discriminate.
  - intros ->. split; [simpl; auto|]. split; reflexivity.
Defined.

(** X11: the dashboard counts the users whose active flag is true,
    administrators and rows with a null admin flag included: its count is the
    length of the list of active users plus the number of active rows whose
    admin flag is not false. *)
Theorem dashboard_counts_active_admins (collate : string -> string -> bool)
        (tza now : Z) (db : Db) (stats : DashboardStats.t) :
  getDashboardStats tza now db = Returns stats ->
  DashboardStats.activeUsers stats
  = Z.of_nat (List.length (getActiveUsers collate db))
    + Z.of_nat (List.length
                  (filter (fun u => Sql.eqFlag (User.isActive u) true
                                    && negb (Sql.eqFlag (User.isAdmin u) false))
                          (users db))) /\
  Z.of_nat (List.length (getActiveUsers collate db))
  <= DashboardStats.activeUsers stats <= Z.of_nat (List.length (users db)).
Proof.
  intro H.
  assert (Hcount : DashboardStats.activeUsers stats
                   = Z.of_nat (List.length
                       (filter (fun u => Sql.eqFlag (User.isActive u) true)
                               (users db)))).
  { revert H. unfold getDashboardStats.
    destruct (toISODate (Some now)) as [todayStr|]; [|discriminate].
    cbv beta iota delta [bind].
    set (monthStart := newDate tza _ _ (Some 1)).
    set (monthEnd := newDate tza _ _ (Some 0)).
    clearbody monthStart monthEnd.
    destruct (Sql.dateParam todayStr) as [today|]; [|discriminate].
    destruct (getAllWeightRecords db (Some monthStart) (Some monthEnd))
      as [monthRecords|]; [|discriminate].
    generalize (getDate tza monthEnd). intros days.
    generalize (totalOf monthRecords). intros totalMonth.
    generalize (toNumber days). intros n.
    intro H. injection H as <-. reflexivity. }
  rewrite Hcount. clear H Hcount.
  unfold getActiveUsers. rewrite orderBy_length.
  assert (Hsplit : forall l : list User.t,
             List.length (filter (fun u => Sql.eqFlag (User.isActive u) true) l)
             = (List.length
                  (filter (fun u => Sql.eqFlag (User.isActive u) true
                                    && Sql.eqFlag (User.isAdmin u) false) l)
                + List.length
                    (filter (fun u => Sql.eqFlag (User.isActive u) true
                                      && negb (Sql.eqFlag (User.isAdmin u) false))
                            l))%nat).
  { induction l as [|u l IH]; simpl; [reflexivity|].
    destruct (Sql.eqFlag (User.isActive u) true),
             (Sql.eqFlag (User.isAdmin u) false); simpl; lia. }
  pose proof (filter_length_le (fun u => Sql.eqFlag (User.isActive u) true)
                               (users db)) as Hle.
  rewrite Hsplit in *. lia.
Qed.

(** Of Ana, Beto and Caio two are active, Ana the administrator among
    them; the list of active users has Beto alone. *)
Lemma dashboard_counts_active_admins_example :
  exists stats,
    getDashboardStats 0 1709900000000 Sample.march = Returns stats /\
    DashboardStats.activeUsers stats = 2 /\
    List.length (getActiveUsers String.leb Sample.march) = 1%nat.
Proof.
  destruct (getDashboardStats 0 1709900000000 Sample.march) as [stats|e] eqn:E;
    [|vm_compute in E; discriminate E].
  exists stats. split; [reflexivity|].
  destruct (dashboard_counts_active_admins String.leb 0 1709900000000
              Sample.march stats E) as [H _].
  split; [rewrite H; vm_compute; reflexivity|vm_compute; reflexivity].
Defined.


End Listings.

(* ================================================================== *)
(** * Further properties: a new record and the reports *)
(* ================================================================== *)

Section NewRecord.
Import Storage UserStore Routes Api.

Lemma filter_snoc_out {A : Type} (p : A -> bool) (l : list A) (x : A) :
  p x = false -> filter p (l ++ [x]) = filter p l.
Proof.
  intro H. rewrite filter_app. simpl. rewrite H. apply app_nil_r.
Qed.

Lemma filter_snoc_in {A : Type} (p : A -> bool) (l : list A) (x : A) :
  p x = true -> filter p (l ++ [x]) = (filter p l ++ [x])%list.
Proof.
  intro H. rewrite filter_app. simpl. now rewrite H.
Qed.

Lemma createWeightRecord_row (date_in : string -> option string) (now : Z)
      (db db' : Db) (data : InsertWeightRecord.t) (row : WeightRecord.t) :
  createWeightRecord date_in now db data = (db', Returns row) ->
  weightRecords db' = (weightRecords db ++ [row])%list /\
  users db' = users db /\
  Decimal.toNumeric_10_2 (InsertWeightRecord.weight data)
  = Some (WeightRecord.weight row) /\
  date_in (InsertWeightRecord.date data) = Some (WeightRecord.date row).
Proof.
  destruct (createWeightRecord_cases date_in now db data)
    as [(row' & -> & _ & _ & _ & _ & _ & Hdate & Hweight & _)|(db1 & -> & _)];
    [|discriminate].
  intro H. injection H as <- <-. auto.
Qed.

Lemma getUserWeightRecords_frame (db db' : Db) (row : WeightRecord.t) (other : Z) :
  weightRecords db' = (weightRecords db ++ [row])%list ->
  other <> WeightRecord.userId row ->
  forall s e,
    getUserWeightRecords db' other s e = getUserWeightRecords db other s e.
Proof.
  intros Hw Hne s e.
  assert (Hout : (WeightRecord.userId row =? other) = false)
    by (apply Z.eqb_neq; congruence).
  unfold getUserWeightRecords. rewrite Hw.
  destruct s as [s|], e as [e|];
    try (rewrite filter_snoc_out by exact Hout; reflexivity).
  destruct (toISODate s) as [lo|]; [|reflexivity].
  destruct (toISODate e) as [hi|]; [|reflexivity].
  cbn [bind].
  destruct (Sql.dateParam lo) as [lo'|]; [|reflexivity].
  destruct (Sql.dateParam hi) as [hi'|]; [|reflexivity].
  cbn [bind].
  rewrite filter_snoc_out; [reflexivity|]. now rewrite Hout.
Qed.

(** X13: a record that [createWeightRecord] returns is stored with the
    weight in hundredths and is in the listing of its user at once, which has
    this one row more; the daily statistics of its user and date count one
    record more and hold the row.  Nothing changes for another user: the
    listings, the daily, the monthly and the summary statistics of every
    other user are as before, and so are the daily statistics of every other
    date. *)
Theorem created_record_is_listed (date_in : string -> option string)
        (now : Z) (db db' : Db)
        (record : InsertWeightRecord.t) (row : WeightRecord.t) :
  createWeightRecord date_in now db record = (db', Returns row) ->
  Decimal.toNumeric_10_2 (InsertWeightRecord.weight record)
  = Some (WeightRecord.weight row) /\
  (forall l,
      getUserWeightRecords db (WeightRecord.userId row) None None = Returns l ->
      exists l',
        getUserWeightRecords db' (WeightRecord.userId row) None None = Returns l' /\
        Permutation (row :: l) l') /\
  (forall date stats,
      toISODate date = Returns (WeightRecord.date row) ->
      getUserDailyStats db (WeightRecord.userId row) date = Returns stats ->
      exists stats',
        getUserDailyStats db' (WeightRecord.userId row) date = Returns stats' /\
        DailyStats.recordCount stats' = DailyStats.recordCount stats + 1 /\
        Permutation (row :: DailyStats.records stats) (DailyStats.records stats')) /\
  (forall other,
      other <> WeightRecord.userId row ->
      (forall s e,
          getUserWeightRecords db' other s e = getUserWeightRecords db other s e) /\
      (forall date, getUserDailyStats db' other date = getUserDailyStats db other date) /\
      (forall tza year month,
          getUserMonthlyStats tza db' other year month
          = getUserMonthlyStats tza db other year month) /\
      (forall tza now',
          getUserSummaryStats tza now' db' other
          = getUserSummaryStats tza now' db other)) /\
  (forall userId date d,
      toISODate date = Returns d -> d <> WeightRecord.date row ->
      getUserDailyStats db' userId date = getUserDailyStats db userId date).
Proof.
  intro Hcreate.
  destruct (createWeightRecord_row _ _ _ _ _ _ Hcreate) as (Hw & _ & Hweight & _).
  split; [exact Hweight|]. split; [|split; [|split]].
  - intros l. rewrite !Listing.getUserWeightRecords_unbounded by auto.
    destruct (Sql.int4 (WeightRecord.userId row)); [|discriminate].
    intro Hl. injection Hl as <-.
    eexists. split; [reflexivity|]. rewrite Hw.
    rewrite filter_snoc_in by apply Z.eqb_refl.
    eapply perm_trans; [|apply orderBy_perm].
    eapply perm_trans; [|apply Permutation_cons_append].
    apply perm_skip, Permutation_sym, orderBy_perm.
  - intros date stats Hdate. unfold getUserDailyStats. rewrite Hdate.
    cbn [bind].
    destruct (Sql.dateParam (WeightRecord.date row)) as [d|] eqn:Hd;
      [|discriminate].
    apply DateParam.dateParam_inv in Hd. destruct Hd as [-> _].
    cbn [bind].
    destruct (Sql.int4 (WeightRecord.userId row)); [|discriminate].
    intro H. injection H as <-. eexists. split; [reflexivity|].
    cbn [DailyStats.recordCount DailyStats.records].
    rewrite Hw, filter_snoc_in
      by (now rewrite Z.eqb_refl, String.eqb_refl).
    rewrite !orderBy_length, length_app. simpl. split; [lia|].
    eapply perm_trans; [|apply orderBy_perm].
    eapply perm_trans; [|apply Permutation_cons_append].
    apply perm_skip, Permutation_sym, orderBy_perm.
  - intros other Hne.
    assert (Hout : (WeightRecord.userId row =? other) = false)
      by (apply Z.eqb_neq; congruence).
    pose proof (getUserWeightRecords_frame db db' row other Hw Hne) as Hlist.
    split; [exact Hlist|]. split; [|split].
    + intro date. unfold getUserDailyStats.
      destruct (toISODate date) as [dateStr|]; [|reflexivity].
      cbn [bind]. destruct (Sql.dateParam dateStr) as [d|]; [|reflexivity].
      cbn [bind].
      rewrite Hw, filter_snoc_out; [reflexivity|]. now rewrite Hout.
    + intros tza year month. unfold getUserMonthlyStats. now rewrite Hlist.
    + intros tza now'. unfold getUserSummaryStats.
      destruct (toISODate (Some now')) as [todayStr|]; [|reflexivity].
      cbv beta iota delta [bind].
      destruct (Sql.dateParam todayStr) as [d|]; [|reflexivity].
      rewrite Hlist.
      rewrite Hw, filter_snoc_out; [reflexivity|]. now rewrite Hout.
  - intros userId date d Hdate Hne. unfold getUserDailyStats.
    rewrite Hdate. cbn [bind].
    destruct (Sql.dateParam d) as [d'|] eqn:Hd; [|reflexivity].
    apply DateParam.dateParam_inv in Hd. destruct Hd as [-> _].
    cbn [bind].
    rewrite Hw, filter_snoc_out; [reflexivity|].
    apply andb_false_iff. right. apply String.eqb_neq. congruence.
Qed.

(** A fifth record, 1.50 kg for Beto on 2 March 2024: the day has two
    records now, and Caio's listing is as it was. *)
Lemma created_record_is_listed_example :
  let record :=
    InsertWeightRecord.mk 2 (Decimal.mk 150 2) "2024-03-02" None 1 in
  exists db' row,
    createWeightRecord Sample.date_in 1710000000000 Sample.march record
    = (db', Returns row) /\
    WeightRecord.weight row = 150 /\
    (exists stats',
        getUserDailyStats db' 2 (Some 1709337600000) = Returns stats' /\
        DailyStats.recordCount stats' = 2) /\
    getUserWeightRecords db' 3 None None
    = getUserWeightRecords Sample.march 3 None None.
Proof.
  intro record. eexists. eexists. split; [vm_compute; reflexivity|].
  destruct (created_record_is_listed Sample.date_in 1710000000000 Sample.march
              _ record _ ltac:(vm_compute; reflexivity))
    as (_ & _ & Hdaily & Hframe & _).
  split; [reflexivity|]. split.
  - destruct (Hdaily (Some 1709337600000) _ ltac:(vm_compute; reflexivity)
                     ltac:(vm_compute; reflexivity))
      as (stats' & Hret & Hcount & _).
    exists stats'. split; [exact Hret|]. rewrite Hcount. reflexivity.
  - destruct (Hframe 3 ltac:(discriminate)) as [Hlist _]. apply Hlist.
Defined.
End NewRecord.

(* ================================================================== *)
(** * Further properties: the counts of the monthly report *)
(* ================================================================== *)

Section MonthlyCounts.
Import Storage.

Lemma fold_left_add_from (xs : list Z) (a : Z) :
  fold_left Z.add xs a = a + fold_right Z.add 0 xs.
Proof.
  revert a. induction xs as [|x xs IH]; intro a; simpl; [lia|].
  rewrite IH. lia.
Qed.

Lemma sum_perm (xs ys : list Z) :
  Permutation xs ys -> fold_right Z.add 0 xs = fold_right Z.add 0 ys.
Proof. induction 1; simpl; lia. Qed.

Lemma sumWeights_ones (l : list WeightRecord.t) :
  sumWeights 0 Z.add (fun _ => 1) l = Z.of_nat (List.length l).
Proof.
  induction l as [|r l IH] using rev_ind; [reflexivity|].
  rewrite Grouping.sumWeights_snoc, IH, length_app. simpl List.length. lia.
Qed.

Lemma firstDates_nil_iff (records : list WeightRecord.t) :
  firstDates records = [] <-> records = [].
Proof.
  split; [|intros ->; reflexivity].
  destruct records as [|r records]; [reflexivity|]. intro H.
  assert (Hin : In (WeightRecord.date r) (firstDates (r :: records))).
  { apply Grouping.firstDates_In. exists r. split; [now left|reflexivity]. }
  rewrite H in Hin. destruct Hin.
Qed.

Section Counts.
Context {N : Type} (zero : N) (add : N -> N -> N) (value : WeightRecord.t -> N).

Lemma entry_counts_sum (records : list WeightRecord.t) :
  fold_right Z.add 0
    (map DayEntry.recordCount (sortedValues (groupByDate zero add value records)))
  = Z.of_nat (List.length records).
Proof.
  rewrite Grouping.sortedValues_entries.
  rewrite <- (sum_perm _ _
                (Permutation_map DayEntry.recordCount
                   (orderBy_perm (byDate (N:=N))
                      (map (entryOf zero add value records) (firstDates records))))).
  rewrite map_map. simpl.
  rewrite <- sumWeights_ones.
  rewrite <- (Grouping.total_by_date 0 Z.add (fun _ => 1))
    with (ks := firstDates records).
  - rewrite fold_left_add_from. simpl. f_equal. apply map_ext.
    intro d. now rewrite sumWeights_ones.
  - intros; lia.
  - intros; lia.
  - intros; lia.
  - apply Grouping.firstDates_NoDup.
  - intros r Hr. apply Grouping.firstDates_In. eauto.
Qed.

Lemma entry_counts_positive (records : list WeightRecord.t) :
  Forall (fun e => 1 <= DayEntry.recordCount e)
         (sortedValues (groupByDate zero add value records)).
Proof.
  eapply Forall_impl; [|apply Grouping.sortedValues_Forall].
  intros e [Hin ->]. simpl.
  destruct (onDate (DayEntry.date e) records) eqn:E; [|simpl List.length; lia].
  apply Grouping.onDate_nil_iff in E. exfalso. apply E.
  now apply Grouping.firstDates_In.
Qed.
End Counts.

Lemma sum_at_least_length (xs : list Z) :
  Forall (fun x => 1 <= x) xs ->
  Z.of_nat (List.length xs) <= fold_right Z.add 0 xs.
Proof.
  induction 1 as [|x xs Hx _ IH]; simpl fold_right; simpl List.length; lia.
Qed.

(** X14: in a monthly report every entry counts at least one record, the
    counts of the entries add up to the [recordCount] of the report, so there
    are no more entries than records, and the list of entries is empty
    exactly when [recordCount] is 0, in which case [totalWeight] is 0; the
    date of every entry lies between the two bounds of the query, in the
    order of the dates, which for the text of a date of the years 0000 to
    9999 is the order of the characters. *)
Theorem monthly_counts (tza : Z) (db : Db) (userId : Z) (year month : option Z)
        (stats : MonthlyStats.t) :
  getUserMonthlyStats tza db userId year month = Returns stats ->
  Forall (fun e => 1 <= DayEntry.recordCount e) (MonthlyStats.dailyStats stats) /\
  fold_right Z.add 0 (map DayEntry.recordCount (MonthlyStats.dailyStats stats))
  = MonthlyStats.recordCount stats /\
  Z.of_nat (List.length (MonthlyStats.dailyStats stats))
  <= MonthlyStats.recordCount stats /\
  (MonthlyStats.dailyStats stats = [] <-> MonthlyStats.recordCount stats = 0) /\
  (MonthlyStats.recordCount stats = 0 ->
   MonthlyStats.totalWeight stats = PrimFloat.zero) /\
  (forall lo hi,
      toISODate (monthStartDate tza year month) = Returns lo ->
      toISODate (monthEndDate tza year month) = Returns hi ->
      Forall (fun e => Sql.gte (DayEntry.date e) lo = true /\
                       Sql.lte (DayEntry.date e) hi = true /\
                       (isoText (DayEntry.date e) ->
                        String.leb lo (DayEntry.date e) = true /\
                        String.leb (DayEntry.date e) hi = true))
             (MonthlyStats.dailyStats stats)).
Proof.
  unfold getUserMonthlyStats.
  set (startDate := monthStartDate tza year month).
  set (endDate := monthEndDate tza year month).
  clearbody startDate endDate.
  destruct (getUserWeightRecords db userId (Some startDate) (Some endDate))
    as [records|] eqn:Hfetch; [|discriminate].
  cbv beta iota delta [bind]. intro H. injection H as <-.
  cbn [MonthlyStats.dailyStats MonthlyStats.recordCount MonthlyStats.totalWeight].
  pose proof (entry_counts_positive PrimFloat.zero PrimFloat.add weightValue records)
    as Hpos.
  pose proof (entry_counts_sum PrimFloat.zero PrimFloat.add weightValue records)
    as Hsum.
  split; [exact Hpos|]. split; [exact Hsum|].
  split; [rewrite <- Hsum, <- (length_map DayEntry.recordCount);
          apply sum_at_least_length|].
  2: split.
  - apply Forall_forall. intros x Hx. apply in_map_iff in Hx.
    destruct Hx as (e & <- & He). rewrite Forall_forall in Hpos. now apply Hpos.
  - unfold sortedValues. rewrite orderBy_nil_iff.
    rewrite Grouping.groupByDate_entries, map_map.
    split.
    + intro Hnil. apply map_eq_nil in Hnil. apply firstDates_nil_iff in Hnil.
      now rewrite Hnil.
    + intro Hzero. destruct records; [reflexivity|discriminate Hzero].
  - split.
    + intro Hzero. destruct records; [reflexivity|discriminate Hzero].
    + intros lo hi Hlo Hhi.
      destruct (Listing.getUserWeightRecords_between
                  db userId startDate endDate lo hi records Hfetch Hlo Hhi)
        as (Ilo & Ihi & Hbetween).
      eapply Forall_impl; [|apply Grouping.sortedValues_Forall].
      intros e [Hin _]. apply Grouping.firstDates_In in Hin.
      destruct Hin as (r & Hr & <-).
      rewrite Forall_forall in Hbetween.
      destruct (Hbetween r Hr) as (_ & Hge & Hle).
      split; [exact Hge|]. split; [exact Hle|].
      intro Iso. unfold Sql.gte, Sql.lte in Hge, Hle.
      rewrite IsoDates.dateLeb_isoText in Hge, Hle by assumption. auto.
Qed.

(** Beto's March 2024: two entries, counting 2 and 1 of the 3 records. *)
Lemma monthly_counts_example :
  exists stats,
    getUserMonthlyStats 0 Sample.march 2 (Some 2024) (Some 3) = Returns stats /\
    map DayEntry.recordCount (MonthlyStats.dailyStats stats) = [2; 1] /\
    fold_right Z.add 0 (map DayEntry.recordCount (MonthlyStats.dailyStats stats))
    = MonthlyStats.recordCount stats.
Proof.
  eexists. split; [vm_compute; reflexivity|]. split; [vm_compute; reflexivity|].
  destruct (monthly_counts 0 Sample.march 2 (Some 2024) (Some 3) _
              ltac:(vm_compute; reflexivity))
    as (_ & H & _).
  exact H.
Defined.

(** X15: the month total of the summary of a user is the [totalWeight] of
    the monthly report of that user for the current month of the server's
    clock, the same double, since both add the same listing in the same
    order; when the summary returns, that report returns, and when the report
    returns, so does the summary, provided that the database reads the date
    of today, which is of the years 0001 to 9999. *)
Theorem summary_month_is_monthly_total (tza now : Z) (db : Db) (userId : Z) :
  let year := getFullYear tza now in
  let month := getMonth tza now + 1 in
  (forall summary,
      getUserSummaryStats tza now db userId = Returns summary ->
      exists monthly,
        getUserMonthlyStats tza db userId (Some year) (Some month)
        = Returns monthly /\
        SummaryStats.totalMonth summary = MonthlyStats.totalWeight monthly) /\
  (forall monthly,
      1 <= YearFromTime now <= 9999 ->
      getUserMonthlyStats tza db userId (Some year) (Some month) = Returns monthly ->
      exists summary,
        getUserSummaryStats tza now db userId = Returns summary /\
        SummaryStats.totalMonth summary = MonthlyStats.totalWeight monthly).
Proof.
  intros year month.
  unfold getUserSummaryStats, getUserMonthlyStats, monthStartDate, monthEndDate.
  unfold toISODate at 1 2. cbv beta iota delta [bind option_map].
  rewrite DateParam.dateParam_of_time.
  fold year. fold month.
  replace (month - 1) with (getMonth tza now) by (unfold month; lia).
  set (monthStart := newDate tza _ _ (Some 1)).
  set (monthEnd := newDate tza _ _ (Some 0)).
  clearbody monthStart monthEnd.
  assert (Hint : forall records,
             getUserWeightRecords db userId (Some monthStart) (Some monthEnd)
             = Returns records -> Sql.int4 userId = true).
  { intros records. destruct monthStart as [t1|], monthEnd as [t2|];
      try discriminate.
    unfold getUserWeightRecords. cbn [toISODate bind].
    destruct (Sql.dateParam _); [|discriminate]. cbn [bind].
    destruct (Sql.dateParam _); [|discriminate]. cbn [bind].
    now destruct (Sql.int4 userId). }
  destruct (getUserWeightRecords db userId (Some monthStart) (Some monthEnd))
    as [records|e].
  - rewrite (Hint records eq_refl).
    generalize (toNumber (getDate tza monthEnd)). intro days.
    generalize (totalOf records). intro total.
    split.
    + intro summary.
      destruct ((1 <=? YearFromTime now) && (YearFromTime now <=? 9999));
        [|discriminate].
      intro H. injection H as <-. eexists. split; reflexivity.
    + intros monthly Hy H. injection H as <-.
      replace ((1 <=? YearFromTime now) && (YearFromTime now <=? 9999)) with true
        by (symmetry; apply andb_true_iff; split; apply Z.leb_le; lia).
      eexists. split; reflexivity.
  - split; [|intros ? ? H; discriminate H].
    intro summary.
    destruct ((1 <=? YearFromTime now) && (YearFromTime now <=? 9999));
      [|discriminate].
    destruct (Sql.int4 userId); discriminate.
Qed.

(** On 2 March 2024 Beto's summary and Beto's report of March agree on
    the double 0.6000000000000001. *)
Lemma summary_month_is_monthly_total_example :
  exists summary monthly,
    getUserSummaryStats 0 1709380000000 Sample.march 2 = Returns summary /\
    getUserMonthlyStats 0 Sample.march 2 (Some 2024) (Some 3) = Returns monthly /\
    SummaryStats.totalMonth summary = MonthlyStats.totalWeight monthly /\
    MonthlyStats.totalWeight monthly = 0.6000000000000001%float.
Proof.
  destruct (summary_month_is_monthly_total 0 1709380000000 Sample.march 2)
    as [_ H].
  assert (Hm : getUserMonthlyStats 0 Sample.march 2
                 (Some (getFullYear 0 1709380000000))
                 (Some (getMonth 0 1709380000000 + 1))
               = Returns {| MonthlyStats.totalWeight := 0.6000000000000001;
                            MonthlyStats.recordCount := 3;
                            MonthlyStats.dailyStats :=
                              [DayEntry.mk "2024-03-01" 0.5%float 2;
                               DayEntry.mk "2024-03-02" 0.1%float 1] |})
    by (vm_compute; reflexivity).
  destruct (H _ ltac:(vm_compute; split; discriminate) Hm) as (summary & Hs & Ht).
  exists summary. eexists. split; [exact Hs|].
  split; [vm_compute; reflexivity|]. split; [exact Ht|reflexivity].
Defined.
End MonthlyCounts.

(* ================================================================== *)
(** * Further properties: the script that names the administrator *)
(* ================================================================== *)

Section AdminScript.
Import Storage UserStore Routes Api AddAdminUser.

Lemma find_map_same {A : Type} (p : A -> bool) (g : A -> A) (l : list A) :
  (forall x, p (g x) = p x) -> find p (map g l) = option_map g (find p l).
Proof.
  intro H. induction l as [|x l IH]; simpl; [reflexivity|].
  rewrite H. destruct (p x); [reflexivity|exact IH].
Qed.

Lemma filter_map_same {A : Type} (p : A -> bool) (g : A -> A) (l : list A) :
  (forall x, p (g x) = p x) -> filter p (map g l) = map g (filter p l).
Proof.
  intro H. induction l as [|x l IH]; simpl; [reflexivity|].
  rewrite H. destruct (p x); simpl; now rewrite IH.
Qed.

Lemma filter_unique_cpf (c : string) (l : list User.t) :
  NoDup (map User.cpf l) ->
  filter (fun u => (User.cpf u =? c)%string) l
  = match find (fun u => (User.cpf u =? c)%string) l with
    | Some u => [u]
    | None => []
    end.
Proof.
  induction l as [|x l IH]; simpl; [reflexivity|].
  intro Hnd. inversion Hnd as [|? ? Hx Hl]; subst.
  destruct (String.eqb_spec (User.cpf x) c) as [E|E]; [|now apply IH].
  f_equal. apply filter_none. intros y Hy.
  apply String.eqb_neq. intro Ey. apply Hx. rewrite E, <- Ey. now apply in_map.
Qed.

(** X16: the script promotes the user whose identifier is the fixed one
    and nobody else.  With no such user it returns no row and leaves the
    database as it was.  Otherwise it returns the one row, now an
    administrator named "Usuário Admin"; the password, the active flag and
    the time of the last update of the row are kept, so a deactivated user
    is not reactivated; a session of that user is an administrator's from
    then on; every other row is as before.  In both cases no login is opened
    or closed, no record is touched, and a second run changes nothing. *)
Theorem admin_script_promotes_one_user (db db' : Db) (returned : list User.t) :
  Consistent db ->
  updateUserToAdmin db = (db', returned) ->
  weightRecords db' = weightRecords db /\
  updateUserToAdmin db' = (db', returned) /\
  (forall cpf password,
      validateUser db' cpf password = None <-> validateUser db cpf password = None) /\
  match getUserByCpf db adminCpf with
  | None => returned = [] /\ db' = db
  | Some u =>
      exists u',
        returned = [u'] /\
        getUser db' (User.id u) = Some u' /\
        getUserByCpf db' adminCpf = Some u' /\
        User.isAdmin u' = Some true /\
        User.firstName u' = "Usuário" /\ User.lastName u' = "Admin" /\
        User.password u' = User.password u /\
        User.isActive u' = User.isActive u /\
        User.updatedAt u' = User.updatedAt u /\
        adminSession db' (mkSession (Some (User.id u))) /\
        (forall id, id <> User.id u -> getUser db' id = getUser db id)
  end.
Proof.
  intros Hdb Hrun.
  pose proof (updateUserToAdmin_consistent db Hdb) as Hdb'.
  revert Hrun Hdb'. unfold updateUserToAdmin.
  match goal with |- context [map ?f (users db)] => set (g := f) end.
  cbv zeta. cbn [fst].
  assert (Hgid : forall u, User.id (g u) = User.id u)
    by (intro u; unfold g; now destruct (_ =? _)%string).
  assert (Hgcpf : forall u, User.cpf (g u) = User.cpf u)
    by (intro u; unfold g; now destruct (_ =? _)%string).
  assert (Hgpw : forall u, User.password (g u) = User.password u)
    by (intro u; unfold g; now destruct (_ =? _)%string).
  assert (Hgact : forall u, User.isActive (g u) = User.isActive u)
    by (intro u; unfold g; now destruct (_ =? _)%string).
  assert (Hgg : forall u, g (g u) = g u).
  { intro u. unfold g at 1. rewrite Hgcpf. unfold g.
    destruct (User.cpf u =? adminCpf)%string; reflexivity. }
  assert (Hgother : forall u, User.cpf u <> adminCpf -> g u = u).
  { intros u Hu. unfold g. apply String.eqb_neq in Hu. now rewrite Hu. }
  assert (Hfilter : filter (fun u => (User.cpf u =? adminCpf)%string)
                           (map g (users db))
                    = map g (filter (fun u => (User.cpf u =? adminCpf)%string)
                                    (users db))).
  { apply filter_map_same. intro u. now rewrite Hgcpf. }
  intros Hrun Hdb'. injection Hrun as Hdb'eq Hret.
  assert (Husers : users db' = map g (users db)) by now rewrite <- Hdb'eq.
  assert (Hrecords : weightRecords db' = weightRecords db) by now rewrite <- Hdb'eq.
  rewrite Hdb'eq in Hdb'.
  split; [exact Hrecords|]. split; [|split].
  - rewrite <- Hdb'eq at 2. rewrite <- Hret.
    cbn [users weightRecords users_id_seq weight_records_id_seq].
    rewrite <- Hdb'eq.
    cbn [users weightRecords users_id_seq weight_records_id_seq].
    rewrite map_map.
    rewrite (map_ext (fun x => g (g x)) g Hgg). reflexivity.
  - intros cpf password. unfold validateUser. rewrite Husers.
    rewrite find_map_same
      by (intro u; now rewrite Hgcpf, Hgpw, Hgact).
    destruct (find _ (users db)); simpl; intuition discriminate.
  - rewrite Hfilter in Hret.
    rewrite (filter_unique_cpf adminCpf (users db) (cpfs_unique db Hdb)) in Hret.
    unfold getUserByCpf.
    destruct (find (fun u => (User.cpf u =? adminCpf)%string) (users db))
      as [u|] eqn:Hfind.
    + destruct (find_some _ _ Hfind) as [Hin Hcpf].
      exists (g u). simpl in Hret.
      assert (Hget : getUser db' (User.id u) = Some (g u)).
      { rewrite <- (Hgid u). apply getUser_In.
        - apply (user_ids_unique db' Hdb').
        - rewrite Husers. now apply in_map. }
      assert (Hgu : g u = g u) by reflexivity.
      unfold g at 2 in Hgu. rewrite Hcpf in Hgu.
      split; [now symmetry|]. split; [exact Hget|].
      split.
      { rewrite Husers.
        rewrite find_map_same by (intro x; now rewrite Hgcpf).
        now rewrite Hfind. }
      rewrite Hgu. cbn.
      repeat (split; [reflexivity|]).
      split.
      * exists (User.id u), (g u). split; [reflexivity|]. split.
        -- pose proof (user_ids_issued db Hdb) as Hiss.
           rewrite Forall_forall in Hiss. specialize (Hiss u Hin). lia.
        -- split; [exact Hget|]. rewrite Hgu. reflexivity.
      * intros id Hid. unfold getUser. rewrite Husers.
        rewrite find_map_same by (intro x; now rewrite Hgid).
        destruct (find (fun x => User.id x =? id) (users db)) as [v|] eqn:Hv;
          [|reflexivity].
        simpl. f_equal. apply Hgother. intro Hvc.
        apply find_some in Hv. destruct Hv as [Hvin Hvid].
        apply Hid. apply Z.eqb_eq in Hvid. rewrite <- Hvid. f_equal.
        apply (NoDup_map_inj User.cpf (users db)); auto.
        -- apply (cpfs_unique db Hdb).
        -- apply String.eqb_eq in Hcpf. congruence.
    + split; [now symmetry|].
      rewrite <- Hdb'eq. destruct db as [us ws s1 s2]. simpl in *. f_equal.
      rewrite <- (map_id us) at 2. apply map_ext_in.
      intros x Hx. apply Hgother.
      pose proof (find_none _ _ Hfind x Hx) as Hn. simpl in Hn.
      now apply String.eqb_neq in Hn.
Qed.

(** Davi, a deactivated worker with the fixed identifier: after the
    script the row is an administrator's, and still no password logs in. *)
Lemma admin_script_example :
  let davi :=
    User.mk 2 "11658845935" "senha" "Davi" "Rocha" (Some false) None (Some false)
            (Some 1700000000000) (Some 1700000000000) in
  let db := mkDb [Sample.ana; davi] [] 3 1 in
  exists db' u',
    updateUserToAdmin db = (db', [u']) /\
    User.isAdmin u' = Some true /\
    User.isActive u' = Some false /\
    validateUser db' "11658845935" "senha" = None /\
    adminSession db' (mkSession (Some 2)).
Proof.
  intros davi db.
  assert (Hdb : Consistent db).
  { constructor; simpl; try lia;
      repeat (apply NoDup_cons || apply NoDup_nil || apply Forall_cons
              || apply Forall_nil);
      simpl; intuition (try discriminate; try lia). }
  destruct (admin_script_promotes_one_user db _ _ Hdb eq_refl)
    as (_ & _ & Hval & Hrow).
  assert (E : getUserByCpf db adminCpf = Some davi) by reflexivity.
  rewrite E in Hrow.
  destruct Hrow as (u' & Hret & _ & _ & Hadmin & _ & _ & _ & Hactive & _ & Hs & _).
  eexists. exists u'. split; [rewrite <- Hret; reflexivity|].
  split; [exact Hadmin|]. split; [exact Hactive|]. split; [|exact Hs].
  apply Hval. reflexivity.
Defined.
End AdminScript.

(* ================================================================== *)
(** * Further properties: the CPF field of the client *)
(* ================================================================== *)

Section CpfField.
Import Cpf.

Lemma removeNonDigits_digits (s : string) :
  forallb isDigit (list_ascii_of_string (removeNonDigits s)) = true.
Proof.
  induction s as [|c s IH]; simpl; [reflexivity|].
  destruct (isDigit c) eqn:E; simpl; [now rewrite E|exact IH].
Qed.

Lemma substring_0_length (n : nat) (s : string) :
  String.length (substring 0 n s) = Nat.min n (String.length s).
Proof.
  revert s. induction n as [|n IH]; intros [|c s]; simpl; auto.
Qed.

Lemma substring_0_idem (n : nat) (s : string) :
  substring 0 n (substring 0 n s) = substring 0 n s.
Proof.
  revert s. induction n as [|n IH]; intros [|c s]; simpl; auto.
  now rewrite IH.
Qed.

Ltac digits_known H :=
  simpl in H;
  repeat (let Hc := fresh "Hc" in
          apply andb_true_iff in H; destruct H as [Hc H]).

Ltac run_format :=
  cbn -[isDigit];
  repeat (match goal with
          | Hc : isDigit ?c = true |- context [isDigit ?c] => rewrite Hc
          end; cbn -[isDigit]).

(** The formatting of at most eleven digits, then its cleaning. *)
Lemma clean_format_digits (d : string) :
  forallb isDigit (list_ascii_of_string d) = true ->
  Landing.getCleanCPF (Landing.formatCPF d) = slice 0 11 d /\
  (String.length (Landing.formatCPF d) <= 14)%nat.
Proof.
  intro H. unfold Landing.getCleanCPF, Landing.formatCPF.
  do 12 (destruct d as [|? d];
         [digits_known H; run_format; split; [reflexivity|lia]|]).
  digits_known H. run_format. split; [reflexivity|lia].
Qed.

Lemma slice_0_idem (n : nat) (s : string) :
  slice 0 n (slice 0 n s) = slice 0 n s.
Proof. unfold slice. rewrite Nat.sub_0_r. apply substring_0_idem. Qed.

Lemma removeNonDigits_id (d : string) :
  forallb isDigit (list_ascii_of_string d) = true -> removeNonDigits d = d.
Proof.
  induction d as [|c d IH]; simpl; [reflexivity|].
  intro H. apply andb_true_iff in H. destruct H as [Hc H].
  now rewrite Hc, IH.
Qed.

Lemma formatCPF_cleaned (value : string) :
  Landing.formatCPF value = Landing.formatCPF (removeNonDigits value).
Proof.
  unfold Landing.formatCPF.
  now rewrite (removeNonDigits_id (removeNonDigits value))
    by apply removeNonDigits_digits.
Qed.

(** A text of digits has as many UTF-16 code units, and as many
    characters, as it has bytes. *)
Lemma codeUnits_digits (s : string) :
  forallb isDigit (list_ascii_of_string s) = true ->
  codeUnits s = String.length s /\ Sql.charLength s = String.length s.
Proof.
  induction s as [|c s IH]; cbn [list_ascii_of_string forallb]; [split; reflexivity|].
  intro H. apply andb_true_iff in H. destruct H as [Hc Hs].
  destruct (IH Hs) as [IH1 IH2].
  cbn [codeUnits Sql.charLength String.length]. rewrite IH1, IH2.
  unfold isDigit in Hc. apply andb_true_iff in Hc. destruct Hc as [H1 H2].
  apply N.leb_le in H1, H2.
  unfold isContinuationByte.
  replace (128 <=? N_of_ascii c)%N with false by (symmetry; apply N.leb_gt; lia).
  replace (240 <=? N_of_ascii c)%N with false by (symmetry; apply N.leb_gt; lia).
  split; reflexivity.
Qed.

(** X17: whatever is typed into the CPF field, the identifier sent to the
    server is the first eleven digits of it: cleaning the formatted text
    gives back these digits, so it consists of digits, at most eleven of them,
    and the formatted text has at most fourteen characters; formatting a
    formatted text changes nothing.  The login schema of the server accepts
    what is sent exactly when at least eleven digits were typed and the
    password is not empty. *)
Theorem cpf_field_round_trip (value : string) :
  Landing.getCleanCPF (Landing.formatCPF value)
  = slice 0 11 (removeNonDigits value) /\
  Landing.formatCPF (Landing.formatCPF value) = Landing.formatCPF value /\
  (String.length (Landing.formatCPF value) <= 14)%nat /\
  String.length (Landing.getCleanCPF (Landing.formatCPF value))
  = Nat.min 11 (String.length (removeNonDigits value)) /\
  forallb isDigit
    (list_ascii_of_string (Landing.getCleanCPF (Landing.formatCPF value))) = true /\
  (forall password,
      (exists parsed,
          loginSchema_parse (Landing.getCleanCPF (Landing.formatCPF value)) password
          = Returns parsed) <->
      (11 <= String.length (removeNonDigits value))%nat /\ password <> "").
Proof.
  destruct (clean_format_digits (removeNonDigits value)
              (removeNonDigits_digits value)) as [Hclean Hlen].
  rewrite <- formatCPF_cleaned in Hclean, Hlen.
  assert (Hsize : String.length (Landing.getCleanCPF (Landing.formatCPF value))
                  = Nat.min 11 (String.length (removeNonDigits value))).
  { rewrite Hclean. unfold slice. apply substring_0_length. }
  split; [exact Hclean|]. split; [|split; [exact Hlen|split; [exact Hsize|split]]].
  - assert (Ht : removeNonDigits (slice 0 11 (removeNonDigits value))
                 = slice 0 11 (removeNonDigits value)).
    { rewrite <- Hclean. unfold Landing.getCleanCPF.
      apply removeNonDigits_id, removeNonDigits_digits. }
    rewrite (formatCPF_cleaned (Landing.formatCPF value)).
    change (removeNonDigits (Landing.formatCPF value))
      with (Landing.getCleanCPF (Landing.formatCPF value)).
    rewrite Hclean, (formatCPF_cleaned value).
    unfold Landing.formatCPF. rewrite Ht.
    rewrite (removeNonDigits_id (removeNonDigits value))
      by apply removeNonDigits_digits.
    now rewrite slice_0_idem.
  - apply removeNonDigits_digits.
  - intro password. unfold loginSchema_parse.
    destruct (codeUnits_digits (Landing.getCleanCPF (Landing.formatCPF value))
                (removeNonDigits_digits _)) as [-> _].
    rewrite Hsize.
    destruct (Nat.eqb_spec (Nat.min 11 (String.length (removeNonDigits value))) 11)
      as [E|E]; destruct password as [|c p]; simpl; split;
      try (intros [parsed Hp]; discriminate Hp);
      try (intros [Hl Hp]; solve [congruence | lia]).
    + intros _. split; [lia|discriminate].
    + intros _. eauto.
Qed.

Lemma startsWithDigits_length (n : nat) (s : string) :
  AdminDashboard.startsWithDigits n s = true -> (n <= String.length s)%nat.
Proof.
  revert s. induction n as [|n IH]; intros [|c s]; simpl; try lia;
    try discriminate.
  intro H. apply andb_true_iff in H. destruct H as [_ H].
  apply IH in H. lia.
Qed.

Lemma formatCPF_short (c : ascii) (s : string) :
  (String.length (String c s) < 11)%nat ->
  AdminDashboard.formatCPF (String c s) = String c (AdminDashboard.formatCPF s).
Proof.
  intro Hlen.
  destruct (AdminDashboard.startsWithDigits 11 (String c s)) eqn:E.
  - apply startsWithDigits_length in E. lia.
  - change (AdminDashboard.formatCPF (String c s))
      with (if AdminDashboard.startsWithDigits 11 (String c s)
            then (slice 0 3 (String c s) ++ "." ++ slice 3 6 (String c s) ++ "."
                  ++ slice 6 9 (String c s) ++ "-" ++ slice 9 11 (String c s)
                  ++ sliceFrom 11 (String c s))%string
            else String c (AdminDashboard.formatCPF s)).
    now rewrite E.
Qed.

(** X18: on a stored identifier of eleven digits the administrator's
    page shows the same text as the login page, [XXX.XXX.XXX-XX]; a text of
    fewer than eleven characters is shown as it is, where the login page
    would still set the dots. *)
Theorem admin_page_formats_full_identifiers :
  (forall cpf,
      String.length cpf = 11%nat ->
      forallb isDigit (list_ascii_of_string cpf) = true ->
      AdminDashboard.formatCPF cpf = Landing.formatCPF cpf /\
      String.length (AdminDashboard.formatCPF cpf) = 14%nat /\
      Landing.getCleanCPF (AdminDashboard.formatCPF cpf) = cpf) /\
  (forall cpf,
      (String.length cpf < 11)%nat -> AdminDashboard.formatCPF cpf = cpf).
Proof.
  split.
  - intros cpf Hlen H.
    do 11 (destruct cpf as [|? cpf]; [discriminate Hlen|]).
    destruct cpf; [|discriminate Hlen].
    unfold Landing.getCleanCPF, Landing.formatCPF.
    digits_known H. run_format. repeat split.
  - intro cpf. induction cpf as [|c cpf IH]; intro Hlen; [reflexivity|].
    rewrite formatCPF_short by exact Hlen.
    rewrite IH; [reflexivity|]. simpl in Hlen. lia.
Qed.

(** The identifier of the script's administrator on both pages, and a
    short text on each. *)
Lemma admin_page_formats_example :
  AdminDashboard.formatCPF "11658845935" = "116.588.459-35" /\
  Landing.formatCPF "11658845935" = "116.588.459-35" /\
  AdminDashboard.formatCPF "1165" = "1165" /\
  Landing.formatCPF "1165" = "116.5".
Proof.
  destruct admin_page_formats_full_identifiers as [Hfull Hshort].
  destruct (Hfull "11658845935" eq_refl eq_refl) as [Hsame _].
  split; [rewrite Hsame; reflexivity|]. split; [reflexivity|].
  split; [apply Hshort; simpl; lia|reflexivity].
Defined.
End CpfField.

(* ================================================================== *)
(** * Further properties: the edges of the reports *)
(* ================================================================== *)

Section ReportEdges.
Import Storage UserStore Routes Api.

Lemma newDate_two_digit_year (tza y : Z) (month date : option Z) :
  0 <= y <= 99 ->
  newDate tza (Some y) month date = newDate tza (Some (1900 + y)) month date.
Proof.
  intro Hy. unfold newDate.
  destruct month as [m|]; [|reflexivity]. destruct date as [dt|]; [|reflexivity].
  replace ((0 <=? y) && (y <=? 99)) with true
    by (symmetry; apply andb_true_iff; split; apply Z.leb_le; lia).
  replace ((0 <=? 1900 + y) && (1900 + y <=? 99)) with false
    by (symmetry; apply andb_false_iff; right; apply Z.leb_gt; lia).
  reflexivity.
Qed.

Lemma MakeDay_next_year (y m dt : Z) : MakeDay y (m + 12) dt = MakeDay (y + 1) m dt.
Proof.
  unfold MakeDay.
  replace ((m + 12) / 12) with (m / 12 + 1) by Calendar.div_lia.
  replace ((m + 12) mod 12) with (m mod 12) by Calendar.div_lia.
  replace (y + (m / 12 + 1)) with (y + 1 + m / 12) by lia.
  reflexivity.
Qed.

Lemma newDate_next_year (tza y m : Z) (date : option Z) :
  y < -1 \/ 99 < y ->
  newDate tza (Some y) (Some (m + 12)) date = newDate tza (Some (y + 1)) (Some m) date.
Proof.
  intro Hy. unfold newDate. destruct date as [dt|]; [|reflexivity].
  replace ((0 <=? y) && (y <=? 99)) with false
    by (symmetry; apply andb_false_iff; rewrite !Z.leb_gt; lia).
  replace ((0 <=? y + 1) && (y + 1 <=? 99)) with false
    by (symmetry; apply andb_false_iff; rewrite !Z.leb_gt; lia).
  now rewrite MakeDay_next_year.
Qed.

(** X19: the monthly report takes its year and month as [new Date] does.
    A year from 0 to 99 is read as a year of the twentieth century; a month
    beyond 12 runs into the next year, month 13 being January; and a year or
    a month that is not a number makes the query fail, which the route
    answers with a 500, not with an empty report. *)
Theorem monthly_report_reads_its_month_as_Date (tza : Z) (db : Db) (userId : Z) :
  (forall y month,
      0 <= y <= 99 ->
      getUserMonthlyStats tza db userId (Some y) month
      = getUserMonthlyStats tza db userId (Some (1900 + y)) month) /\
  (forall y m,
      y < -1 \/ 99 < y ->
      getUserMonthlyStats tza db userId (Some y) (Some (m + 12))
      = getUserMonthlyStats tza db userId (Some (y + 1)) (Some m)) /\
  (forall year month,
      year = None \/ month = None ->
      getUserMonthlyStats tza db userId year month = Throws RangeError) /\
  (forall session userIdParam year month,
      Routes.userId session = Some userId -> userId <> 0 ->
      parseInt userIdParam = Some userId -> - 2 ^ 31 <= userId < 2 ^ 31 ->
      parseInt year = None \/ parseInt month = None ->
      getMonthly tza db session userIdParam year month
      = Status 500 "Failed to fetch monthly stats").
Proof.
  assert (Hnan : forall year month,
             year = None \/ month = None ->
             getUserMonthlyStats tza db userId year month = Throws RangeError).
  { intros year month H. unfold getUserMonthlyStats, monthStartDate.
    assert (E : newDate tza year (option_map (fun m => m - 1) month) (Some 1) = None).
    { destruct H as [-> | ->]; [reflexivity|]. now destruct year. }
    rewrite E. reflexivity. }
  split; [|split; [|split; [exact Hnan|]]].
  - intros y month Hy. unfold getUserMonthlyStats, monthStartDate, monthEndDate.
    now rewrite !(newDate_two_digit_year tza y) by exact Hy.
  - intros y m Hy. unfold getUserMonthlyStats, monthStartDate, monthEndDate.
    cbn [option_map].
    replace (m + 12 - 1) with (m - 1 + 12) by lia.
    now rewrite !(newDate_next_year tza y) by exact Hy.
  - intros session userIdParam year month Hs Hid Hp Hrange Hbad.
    unfold getMonthly.
    rewrite (isAuthenticated_pass session _ _ Hs Hid).
    rewrite (accessDenied_self db userIdParam userId Hp).
    unfold withId. rewrite Hp.
    replace ((- 2 ^ 31 <=? userId) && (userId <? 2 ^ 31)) with true
      by (symmetry; apply andb_true_iff; split;
          [apply Z.leb_le|apply Z.ltb_lt]; lia).
    now rewrite Hnan.
Qed.

(** Beto's report of month 15 of 2023 is the report of March 2024, and a
    month that is no number is answered with a 500. *)
Lemma monthly_report_reads_its_month_example :
  getUserMonthlyStats 0 Sample.march 2 (Some 2023) (Some 15)
  = getUserMonthlyStats 0 Sample.march 2 (Some 2024) (Some 3) /\
  getMonthly 0 Sample.march (mkSession (Some 2)) "2" "2024" "mar"
  = Status 500 "Failed to fetch monthly stats".
Proof.
  destruct (monthly_report_reads_its_month_as_Date 0 Sample.march 2)
    as (_ & Hnext & _ & Hroute).
  split.
  - apply (Hnext 2023 3). lia.
  - apply Hroute; try reflexivity; try lia; try discriminate. now right.
Defined.

Lemma no_record_of_unknown_user (db : Db) (id : Z) (p : WeightRecord.t -> bool) :
  Consistent db -> getUser db id = None ->
  filter (fun r => (WeightRecord.userId r =? id) && p r) (weightRecords db) = [].
Proof.
  intros Hdb Hnone. apply filter_none. intros r Hr.
  apply andb_false_iff. left. apply Z.eqb_neq. intro E.
  pose proof (records_have_users db Hdb) as Hfk.
  rewrite Forall_forall in Hfk. destruct (Hfk r Hr) as [Hin _].
  rewrite E in Hin. apply in_map_iff in Hin. destruct Hin as (u & Hu & Huin).
  unfold getUser in Hnone. apply (find_none _ _ Hnone) in Huin.
  rewrite Hu, Z.eqb_refl in Huin. discriminate Huin.
Qed.

(** X20: the reports of an id that no user has are empty, not errors:
    the listing is empty, the daily and the monthly statistics are zero with
    no record and no entry, and the summary has zero totals; an administrator
    who asks for the records of such an id gets an empty list. *)
Theorem reports_of_unknown_user_are_empty (db : Db) (id : Z) :
  Consistent db ->
  getUser db id = None ->
  (forall s e l, getUserWeightRecords db id s e = Returns l -> l = []) /\
  (forall date stats,
      getUserDailyStats db id date = Returns stats ->
      stats = {| DailyStats.totalWeight := PrimFloat.zero;
                 DailyStats.recordCount := 0;
                 DailyStats.records := [] |}) /\
  (forall tza year month stats,
      getUserMonthlyStats tza db id year month = Returns stats ->
      stats = {| MonthlyStats.totalWeight := PrimFloat.zero;
                 MonthlyStats.recordCount := 0;
                 MonthlyStats.dailyStats := [] |}) /\
  (forall tza now stats,
      getUserSummaryStats tza now db id = Returns stats ->
      SummaryStats.totalToday stats = PrimFloat.zero /\
      SummaryStats.totalMonth stats = PrimFloat.zero) /\
  (forall (Date_parse : string -> Date) session userIdParam,
      adminSession db session ->
      parseInt userIdParam = Some id -> - 2 ^ 31 <= id < 2 ^ 31 ->
      getUserRecords Date_parse db session userIdParam None None = Json []).
Proof.
  intros Hdb Hnone.
  pose proof (no_record_of_unknown_user db id (fun _ => true) Hdb Hnone) as Hall.
  assert (Hplain : filter (fun r => WeightRecord.userId r =? id) (weightRecords db)
                   = []).
  { rewrite <- Hall. apply filter_ext. intro r. now rewrite andb_true_r. }
  assert (Hlist : forall s e l, getUserWeightRecords db id s e = Returns l -> l = []).
  { intros s e l.
    destruct s as [s|], e as [e|];
      try (rewrite Listing.getUserWeightRecords_unbounded by auto;
           destruct (Sql.int4 id); [|discriminate];
           rewrite Hplain; intro H; now injection H).
    destruct (toISODate s) as [lo|err] eqn:Hs;
      [|unfold getUserWeightRecords; rewrite Hs; discriminate].
    destruct (toISODate e) as [hi|err] eqn:He;
      [|unfold getUserWeightRecords; rewrite Hs, He; discriminate].
    rewrite (Listing.getUserWeightRecords_bounded db id s e lo hi Hs He).
    match goal with |- context [if ?c then _ else _] => destruct c end;
      [|discriminate].
    assert (Hr : filter (fun r => (WeightRecord.userId r =? id)
                                  && Sql.gte (WeightRecord.date r) lo
                                  && Sql.lte (WeightRecord.date r) hi)
                        (weightRecords db) = []).
    { rewrite <- (no_record_of_unknown_user db id
                    (fun r => Sql.gte (WeightRecord.date r) lo
                              && Sql.lte (WeightRecord.date r) hi) Hdb Hnone).
      apply filter_ext. intro r. now rewrite andb_assoc. }
    rewrite Hr. intro H. now injection H. }
  split; [exact Hlist|]. split; [|split; [|split]].
  - intros date stats. unfold getUserDailyStats.
    destruct (toISODate date) as [dateStr|]; [|discriminate].
    cbn [bind]. destruct (Sql.dateParam dateStr) as [d|]; [|discriminate].
    cbn [bind]. destruct (Sql.int4 id); [|discriminate].
    rewrite (no_record_of_unknown_user db id _ Hdb Hnone).
    intro H. now injection H.
  - intros tza year month stats. unfold getUserMonthlyStats.
    destruct (getUserWeightRecords db id _ _) as [records|] eqn:Hfetch;
      [|discriminate].
    apply Hlist in Hfetch. subst records.
    cbv beta iota delta [bind]. intro H. now injection H.
  - intros tza now stats. unfold getUserSummaryStats.
    destruct (toISODate (Some now)) as [todayStr|]; [|discriminate].
    cbv beta iota delta [bind].
    set (monthStart := newDate tza _ _ (Some 1)).
    set (monthEnd := newDate tza _ _ (Some 0)).
    clearbody monthStart monthEnd.
    destruct (Sql.dateParam todayStr) as [today|]; [|discriminate].
    destruct (Sql.int4 id); [|discriminate].
    destruct (getUserWeightRecords db id (Some monthStart) (Some monthEnd))
      as [records|] eqn:Hfetch; [|discriminate].
    apply Hlist in Hfetch. subst records.
    rewrite (no_record_of_unknown_user db id _ Hdb Hnone).
    generalize (toNumber (getDate tza monthEnd)). intro days.
    intro H. injection H as <-. split; reflexivity.
  - intros Date_parse session userIdParam (sid & admin & Hs & Hsid & Hu & Ha)
           Hp Hrange.
    unfold getUserRecords.
    rewrite (isAuthenticated_pass session _ _ Hs Hsid).
    assert (Hallowed : accessDenied db userIdParam sid = false).
    { unfold accessDenied, optionalIsAdmin. rewrite Hu, Ha. simpl.
      apply andb_false_r. }
    assert (Hint : Sql.int4 id = true).
    { apply andb_true_iff; split; [apply Z.leb_le|apply Z.ltb_lt]; lia. }
    rewrite Hallowed. unfold withId. rewrite Hp.
    change ((- 2 ^ 31 <=? id) && (id <? 2 ^ 31)) with (Sql.int4 id).
    rewrite Hint.
    cbn [optionalDate].
    rewrite Listing.getUserWeightRecords_unbounded by auto.
    rewrite Hint, Hplain. reflexivity.
Qed.

(** Nobody has id 9 in the sample: Ana gets an empty list of records. *)
Lemma reports_of_unknown_user_example :
  getUserRecords Sample.Date_parse Sample.march (mkSession (Some 1)) "9" None None
  = Json [] /\
  getUserDailyStats Sample.march 9 (Some 1709251200000)
  = Returns {| DailyStats.totalWeight := PrimFloat.zero;
               DailyStats.recordCount := 0;
               DailyStats.records := [] |}.
Proof.
  destruct (reports_of_unknown_user_are_empty Sample.march 9 sample_consistent eq_refl)
    as (_ & Hdaily & _ & _ & Hroute).
  split.
  - apply Hroute; [|reflexivity|lia].
    exists 1, Sample.ana. repeat split. discriminate.
  - destruct (getUserDailyStats Sample.march 9 (Some 1709251200000))
      as [stats|e] eqn:E; [|vm_compute in E; discriminate E].
    f_equal. now apply (Hdaily (Some 1709251200000)).
Defined.
End ReportEdges.

(* ================================================================== *)
(** * Further properties: what a stored weight is *)
(* ================================================================== *)

Section StoredWeight.
Import Storage UserStore Routes Api.

Lemma toNumeric_10_2_positive (w : Decimal.t) (stored : Z) :
  0 < Decimal.digits w ->
  Decimal.toNumeric_10_2 w = Some stored ->
  0 <= stored < 10 ^ 10 /\
  (0 < stored <-> 10 ^ Z.of_nat (Decimal.scale w) <= 200 * Decimal.digits w) /\
  ((Decimal.scale w <= 2)%nat ->
   stored = Decimal.digits w * 10 ^ (2 - Z.of_nat (Decimal.scale w))).
Proof.
  intros Hpos. unfold Decimal.toNumeric_10_2.
  assert (Hden : 0 < 10 ^ Z.of_nat (Decimal.scale w))
    by (apply Z.pow_pos_nonneg; lia).
  rewrite Z.abs_eq, Z.sgn_pos, Z.mul_1_l by lia.
  remember (10 ^ Z.of_nat (Decimal.scale w)) as den eqn:Eden.
  remember ((2 * (Decimal.digits w * 100) + den) / (2 * den)) as q eqn:Eq.
  remember (10 ^ 10) as bound eqn:Eb.
  destruct (q <? bound) eqn:Hq; [|discriminate].
  intro H. injection H as <-. apply Z.ltb_lt in Hq.
  assert (Hq0 : 0 <= q) by (subst q; apply Z.div_pos; lia).
  split; [lia|]. split.
  - split; intro H.
    + destruct (Z_lt_le_dec (200 * Decimal.digits w) den) as [Hlt|Hle];
        [|exact Hle].
      rewrite Z.div_small in Eq by lia. lia.
    + subst q. apply Z.div_str_pos. lia.
  - intro Hs. subst q den.
    destruct (Decimal.scale w) as [|[|[|n]]]; [| | |lia];
      simpl Z.of_nat; simpl Z.sub; change (10 ^ 0) with 1;
      change (10 ^ 1) with 10; change (10 ^ 2) with 100;
      Calendar.div_lia.
Qed.

(** X21: a record that the POST route answers with was sent with a
    weight above zero and is stored with that weight, the number that the
    handler receives as it prints it, rounded to hundredths, below 10^10 of
    them; its date is what the database reads in the text of the body.  The
    stored weight is exactly the one sent when that number has at most two
    decimals; it is above zero only when the number is at least 0.005, so a
    positive weight below that is accepted and stored as 0.00. *)
Theorem stored_weight_is_rounded (date_in : string -> option string) (now : Z)
        (db db' : Db) (session : Session)
        (body : WeightRecordBody) (record : WeightRecord.t) :
  postWeightRecord date_in now db session body = (db', Json record) ->
  exists w,
    body_weight body = Some w /\
    0 < Decimal.digits w /\
    Decimal.toNumeric_10_2 w = Some (WeightRecord.weight record) /\
    0 <= WeightRecord.weight record < 10 ^ 10 /\
    (0 < WeightRecord.weight record
     <-> 10 ^ Z.of_nat (Decimal.scale w) <= 200 * Decimal.digits w) /\
    ((Decimal.scale w <= 2)%nat ->
     WeightRecord.weight record
     = Decimal.digits w * 10 ^ (2 - Z.of_nat (Decimal.scale w))) /\
    exists text,
      body_date body = Some text /\
      date_in text = Some (WeightRecord.date record).
Proof.
  intro H.
  destruct (postWeightRecord_effect date_in now db session body)
    as [(c & m & E)|(id & admin & uid & target & data & _ & _ & _ & _
                     & _ & _ & _ & _ & _ & Hbd & Hbw & Hpos & E)];
    rewrite E in H; [discriminate H|]. clear E.
  destruct (createWeightRecord_cases date_in now db data)
    as [(row & E & _ & _ & _ & _ & _ & Hdate & Hweight & _)
       |(db1 & E & _)];
    rewrite E in H; cbn [fst snd respond] in H; [|discriminate H].
  injection H as _ <-.
  destruct (toNumeric_10_2_positive _ _ Hpos Hweight) as (Hrange & Hiff & Hexact).
  exists (InsertWeightRecord.weight data).
  split; [exact Hbw|]. split; [exact Hpos|]. split; [exact Hweight|].
  split; [exact Hrange|]. split; [exact Hiff|]. split; [exact Hexact|].
  exists (InsertWeightRecord.date data). auto.
Qed.

(** Ana records 0.004 kg for Beto: the record is accepted and its stored
    weight is 0.00. *)
Lemma stored_weight_is_rounded_example :
  exists db' record,
    postWeightRecord Sample.date_in 1710000000000 Sample.march
      (mkSession (Some 1))
      (mkBody (Some "2") (Some (Decimal.mk 4 3)) (Some "2024-03-03") None None)
    = (db', Json record) /\
    WeightRecord.weight record = 0 /\
    ~ 0 < WeightRecord.weight record.
Proof.
  eexists. eexists. split; [vm_compute; reflexivity|]. split; [reflexivity|].
  destruct (stored_weight_is_rounded Sample.date_in 1710000000000 Sample.march _
              (mkSession (Some 1))
              (mkBody (Some "2") (Some (Decimal.mk 4 3)) (Some "2024-03-03")
                      None None) _ ltac:(vm_compute; reflexivity))
    as (w & Hw & _ & _ & _ & Hiff & _).
  injection Hw as <-. intro H. apply Hiff in H. simpl in H. lia.
Defined.
End StoredWeight.

(* ================================================================== *)
(** * Further properties: an update that is refused or repeated *)
(* ================================================================== *)

Section RefusedUpdate.
Import Storage UserStore Routes Api.






End RefusedUpdate.

Section CpfFieldExample.
Import Cpf.

(** Typing the administrator's identifier with its punctuation and two
    digits too many sends the eleven digits. *)
Lemma cpf_field_round_trip_example :
  Landing.formatCPF "116.588.459-3599" = "116.588.459-35" /\
  Landing.getCleanCPF (Landing.formatCPF "116.588.459-3599") = "11658845935" /\
  (exists parsed,
      loginSchema_parse (Landing.getCleanCPF (Landing.formatCPF "116.588.459-3599"))
                        "senha" = Returns parsed).
Proof.
  destruct (cpf_field_round_trip "116.588.459-3599")
    as (Hclean & _ & _ & _ & _ & Hlogin).
  split; [reflexivity|]. split; [rewrite Hclean; reflexivity|].
  apply Hlogin. split; [simpl; lia|discriminate].
Defined.
End CpfFieldExample.
